(** * UGC video backend: pipeline orchestration and provider fallback

    A shallow embedding of the error classifier
    ([app/utils/error_classifier.py]), the Veo3 fallback coordinator and the
    polling loops ([app/services/providers/veo3_provider.py],
    [app/services/providers/fal_provider.py]) and the pipeline orchestrator
    ([app/services/pipeline_orchestrator.py]), followed by the properties
    that were checked against them. *)

From stdpp Require Import gmap strings list fin_maps pretty.
From Stdlib Require Import ZArith String Ascii Lia.

Open Scope string_scope.

(** ** Python values *)

(** [str.lower()] on ASCII text: only the letters A-Z change. *)
Definition lower_ascii (c : ascii) : ascii :=
  let n := nat_of_ascii c in
  if (Nat.leb 65 n && Nat.leb n 90)%bool then ascii_of_nat (n + 32) else c.

Fixpoint lower (s : string) : string :=
  match s with
  | EmptyString => EmptyString
  | String c s' => String (lower_ascii c) (lower s')
  end.

(** [needle in hay] for two [str] values. *)
Fixpoint str_in (needle hay : string) : bool :=
  (String.prefix needle hay ||
   match hay with
   | EmptyString => false
   | String _ hay' => str_in needle hay'
   end)%bool.

(** [s.split(sep, 1)] for a one-character [sep]: the text before the first
    [sep] and the text after it ([s] and nothing when there is no [sep]). *)
Fixpoint split_once (sep : ascii) (s : string) : string * string :=
  match s with
  | EmptyString => (EmptyString, EmptyString)
  | String c s' =>
      if Ascii.eqb c sep then (EmptyString, s')
      else let '(before, after) := split_once sep s' in (String c before, after)
  end.

(** [s.split(sep)] for a one-character [sep]. *)
Fixpoint split (sep : ascii) (s : string) : list string :=
  match s with
  | EmptyString => [EmptyString]
  | String c s' =>
      if Ascii.eqb c sep then EmptyString :: split sep s'
      else match split sep s' with
           | first :: rest => String c first :: rest
           | [] => [String c EmptyString]
           end
  end.

(** ASCII white space, as [str.strip()] sees it. *)
Definition is_space (c : ascii) : bool :=
  let n := nat_of_ascii c in
  ((Nat.leb 9 n && Nat.leb n 13) || (Nat.leb 28 n && Nat.leb n 32))%bool.

Fixpoint lstrip (s : string) : string :=
  match s with
  | EmptyString => EmptyString
  | String c s' => if is_space c then lstrip s' else s
  end.

Fixpoint rstrip (s : string) : string :=
  match s with
  | EmptyString => EmptyString
  | String c s' =>
      match rstrip s' with
      | EmptyString => if is_space c then EmptyString else String c EmptyString
      | rest => String c rest
      end
  end.

Definition strip (s : string) : string := rstrip (lstrip s).

(** The exception classes the code distinguishes, and some of their
    subclasses.  All of them derive from [Exception].  From Python 3.11 on,
    [asyncio.TimeoutError] and the builtin [TimeoutError] are one class; then
    [AsyncioTimeoutError] stands for that class. *)
Inductive exc_class :=
  | Exception_
  | ValueError
  | UnicodeError           (* a ValueError *)
  | JSONDecodeError        (* a ValueError *)
  | TypeError
  | KeyError
  | AttributeError
  | RuntimeError
  | NotImplementedError    (* a RuntimeError *)
  | OSError_
  | BuiltinTimeoutError    (* TimeoutError, an OSError *)
  | AsyncioTimeoutError    (* asyncio.TimeoutError *)
  | HttpxTimeoutException  (* httpx.TimeoutException *)
  | HttpxConnectTimeout    (* an httpx.TimeoutException *)
  | HttpxReadTimeout       (* an httpx.TimeoutException *)
  | HttpxConnectError
  | HttpxHTTPStatusError (status_code : Z).  (* carries response.status_code *)

#[global] Instance exc_class_eq_dec : EqDecision exc_class.
Proof. solve_decision. Defined.

Definition is_ValueError (c : exc_class) : bool :=
  match c with ValueError | UnicodeError | JSONDecodeError => true | _ => false end.

Definition is_asyncio_TimeoutError (c : exc_class) : bool :=
  match c with AsyncioTimeoutError => true | _ => false end.

Definition is_builtin_TimeoutError (c : exc_class) : bool :=
  match c with BuiltinTimeoutError => true | _ => false end.

Definition is_httpx_TimeoutException (c : exc_class) : bool :=
  match c with
  | HttpxTimeoutException | HttpxConnectTimeout | HttpxReadTimeout => true
  | _ => false
  end.

(** [type(exception).__name__] *)
Definition type_name (c : exc_class) : string :=
  match c with
  | Exception_ => "Exception"
  | ValueError => "ValueError"
  | UnicodeError => "UnicodeError"
  | JSONDecodeError => "JSONDecodeError"
  | TypeError => "TypeError"
  | KeyError => "KeyError"
  | AttributeError => "AttributeError"
  | RuntimeError => "RuntimeError"
  | NotImplementedError => "NotImplementedError"
  | OSError_ => "OSError"
  | BuiltinTimeoutError => "TimeoutError"
  | AsyncioTimeoutError => "TimeoutError"
  | HttpxTimeoutException => "TimeoutException"
  | HttpxConnectTimeout => "ConnectTimeout"
  | HttpxReadTimeout => "ReadTimeout"
  | HttpxConnectError => "ConnectError"
  | HttpxHTTPStatusError _ => "HTTPStatusError"
  end.

(** A raised exception: its class and what [str(exception)] gives. *)
Record exn := Exn { exn_class : exc_class; exn_str : string }.

#[global] Instance exn_eq_dec : EqDecision exn.
Proof. solve_decision. Defined.

(** [raise Exception(msg)] builds this value. *)
Definition Exception (msg : string) : exn := Exn Exception_ msg.

(** The outcome of running a piece of Python: a value or a raised exception. *)
Inductive result (A : Type) :=
  | Ok (a : A)
  | Raise (e : exn).
Arguments Ok {A} a.
Arguments Raise {A} e.

#[global] Instance result_eq_dec {A} `{EqDecision A} : EqDecision (result A).
Proof. solve_decision. Defined.

(** ** [app/utils/error_classifier.py] *)

Inductive ErrorType :=
  | USER_ERROR
  | VALIDATION_ERROR
  | SERVICE_ERROR
  | SYSTEM_ERROR
  | TIMEOUT.

#[global] Instance ErrorType_eq_dec : EqDecision ErrorType.
Proof. solve_decision. Defined.

(** The enum is a [str] enum: a member's value is its own name. *)
Definition ErrorType_value (t : ErrorType) : string :=
  match t with
  | USER_ERROR => "USER_ERROR"
  | VALIDATION_ERROR => "VALIDATION_ERROR"
  | SERVICE_ERROR => "SERVICE_ERROR"
  | SYSTEM_ERROR => "SYSTEM_ERROR"
  | TIMEOUT => "TIMEOUT"
  end.

Definition ERROR_MESSAGES (t : ErrorType) : string :=
  match t with
  | USER_ERROR => "Invalid input provided. Please check your data and try again."
  | VALIDATION_ERROR => "Please fix the validation errors and try again."
  | SERVICE_ERROR => "The AI service is temporarily unavailable. Your credits will be refunded."
  | SYSTEM_ERROR => "A system error occurred. Your credits will be refunded automatically."
  | TIMEOUT => "Generation took too long and timed out. Your credits will be refunded."
  end.

(** ** Dictionaries

    The values stored in the dictionaries the code passes around. *)
Inductive pyval :=
  | VNone
  | VBool (b : bool)
  | VInt (z : Z)
  | VStr (s : string)
  | VErrorType (t : ErrorType)
  | VStrList (items : list string)
  | VElapsed.   (* a float read off the wall clock; its number is not modelled *)

#[global] Instance pyval_eq_dec : EqDecision pyval.
Proof. solve_decision. Defined.

Abbreviation dict := (gmap string pyval).

Definition validation_indicators : list string :=
  [ "validation"; "invalid"; "missing required"; "must be"; "expected";
    "malformed"; "unsupported format"; "invalid format"; "invalid image";
    "image too large"; "image too small"; "invalid dimensions"; "corrupt";
    "not a valid" ].

Definition timeout_indicators : list string :=
  [ "timeout"; "timed out"; "deadline exceeded"; "request timeout";
    "connection timeout"; "read timeout" ].

Definition service_indicators : list string :=
  [ "api error"; "service unavailable"; "503"; "502"; "504"; "rate limit";
    "quota exceeded"; "seedream"; "fal.ai"; "kie.ai"; "veo3"; "provider error";
    "external service"; "downstream"; "failed to generate";
    "generation failed"; "500 internal server error" ].

Definition user_error_indicators : list string :=
  [ "nsfw"; "inappropriate"; "prohibited content"; "policy violation";
    "content moderation"; "restricted content"; "harmful content";
    "unsafe content" ].

(** [any(indicator in error_str for indicator in indicators)] *)
Definition any_in (indicators : list string) (error_str : string) : bool :=
  existsb (fun indicator => str_in indicator error_str) indicators.

Definition _is_validation_error (exception : exn) (error_str : string) : bool :=
  if is_ValueError (exn_class exception) then true
  else any_in validation_indicators error_str.

Definition _is_timeout_error (exception : exn) (error_str : string) : bool :=
  if (is_asyncio_TimeoutError (exn_class exception)
      || is_builtin_TimeoutError (exn_class exception))%bool then true
  else if is_httpx_TimeoutException (exn_class exception) then true
  else any_in timeout_indicators error_str.

Definition _is_service_error (exception : exn) (error_str : string) : bool :=
  match exn_class exception with
  | HttpxHTTPStatusError status_code =>
      if (500 <=? status_code)%Z then true
      else if (status_code =? 429)%Z then true
      else any_in service_indicators error_str
  | _ => any_in service_indicators error_str
  end.

Definition _is_user_error (exception : exn) (error_str : string) : bool :=
  any_in user_error_indicators error_str.

Definition _extract_validation_message (exception : exn) : string :=
  let error_str := exn_str exception in
  if str_in "invalid" (lower error_str) then "Invalid input: " ++ error_str
  else if str_in "required" (lower error_str) then "Missing required field: " ++ error_str
  else if str_in "format" (lower error_str) then "Invalid format: " ++ error_str
  else ERROR_MESSAGES VALIDATION_ERROR.

(** The dictionary literal every branch of [classify_error] returns. *)
Definition error_info (t : ErrorType) (msg : string) (refundable retry : bool)
    (details : string) : dict :=
  <["technical_details" := VStr details]>
  (<["can_retry" := VBool retry]>
  (<["is_refundable" := VBool refundable]>
  (<["error_message" := VStr msg]>
  (<["error_type" := VErrorType t]> ∅)))).

Definition classify_error (exception : exn) (context : option string) : dict :=
  let error_str := lower (exn_str exception) in
  let exception_type := type_name (exn_class exception) in
  if _is_validation_error exception error_str then
    error_info VALIDATION_ERROR (_extract_validation_message exception)
               false true (exn_str exception)
  else if _is_timeout_error exception error_str then
    error_info TIMEOUT (ERROR_MESSAGES TIMEOUT) true true (exn_str exception)
  else if _is_service_error exception error_str then
    error_info SERVICE_ERROR (ERROR_MESSAGES SERVICE_ERROR) true true
               (exn_str exception)
  else if _is_user_error exception error_str then
    error_info USER_ERROR
               "Content violates usage policies. Please try with appropriate content."
               false false (exn_str exception)
  else
    error_info SYSTEM_ERROR (ERROR_MESSAGES SYSTEM_ERROR) true true
               (exception_type ++ ": " ++ exn_str exception).


(** [str(v)], as an f-string formats a value. *)
Definition py_str (v : pyval) : string :=
  match v with
  | VNone => "None"
  | VBool true => "True"
  | VBool false => "False"
  | VInt z => pretty z
  | VStr s => s
  | VErrorType t => ErrorType_value t
  | VStrList items =>
      "[" ++ String.concat ", " (map (fun s => "'" ++ s ++ "'") items) ++ "]"
  | VElapsed => "<elapsed>"  (* the digits of the float are not modelled *)
  end.

(** Truth value of [v] in a condition: [if v] / [if not v]. *)
Definition truthy (v : pyval) : bool :=
  match v with
  | VNone => false
  | VBool b => b
  | VInt z => negb (z =? 0)%Z
  | VStr s => negb (String.eqb s "")
  | VErrorType _ => true
  | VStrList items => negb (bool_decide (items = []))
  | VElapsed => true
  end.

(** [d[key]]: a missing key raises [KeyError], whose [str] is the quoted key. *)
Definition getitem (d : dict) (key : string) : result pyval :=
  match d !! key with
  | Some v => Ok v
  | None => Raise (Exn KeyError ("'" ++ key ++ "'"))
  end.

(** [d.get(key, dflt)] *)
Definition dict_get (d : dict) (key : string) (dflt : pyval) : pyval :=
  default dflt (d !! key).

(** ** Effects

    Code that calls collaborators runs in a state-and-exception monad: the
    state [S] holds what the run has done to the outside world so far. *)

Definition M (S A : Type) : Type := S -> S * result A.

Definition ret {S A} (a : A) : M S A := fun s => (s, Ok a).

Definition raise {S A} (e : exn) : M S A := fun s => (s, Raise e).

Definition bind {S A B} (c : M S A) (k : A -> M S B) : M S B :=
  fun s =>
    match c s with
    | (s', Ok a) => k a s'
    | (s', Raise e) => (s', Raise e)
    end.

(** [try: c  except Exception as e: handler e] *)
Definition try_except {S A} (c : M S A) (handler : exn -> M S A) : M S A :=
  fun s =>
    match c s with
    | (s', Ok a) => (s', Ok a)
    | (s', Raise e) => handler e s'
    end.

(** A pure step that may raise (a subscript, a validation). *)
Definition lift {S A} (r : result A) : M S A := fun s => (s, r).

Declare Scope py_scope.
Delimit Scope py_scope with py.
Notation "x <- c ;; k" := (bind c (fun x => k))
  (at level 100, c at next level, right associativity) : py_scope.
Notation "c ;;; k" := (bind c (fun _ => k))
  (at level 100, right associativity) : py_scope.
Open Scope py_scope.

(** ** Provider clients

    The Kie.ai and Fal.ai clients ([kie_provider.py], [fal_provider.py]) talk
    to remote services.  Their replies are taken as given: a reply says how
    long the call took and how it ended, with the dictionary returned or the
    exception raised, and may depend on when the call is made.  All times
    are in one unit (the source counts seconds). *)

(** The ad-hoc request object handed to a provider's
    [submit_image_to_video_job]. *)
Record request := Request {
  image_url : string;
  prompt : string;
  system_prompt : string;
  parameters : dict;
  webhook_url : option string
}.

#[global] Instance request_eq_dec : EqDecision request.
Proof. solve_decision. Defined.

Record providers := Providers {
  kie_submit_image_to_video_job : Z -> request -> Z * result dict;
  fal_submit_image_to_video_job : Z -> request -> Z * result dict;
  (* check_status(job_id, model) *)
  kie_check_status : Z -> string -> string -> Z * result dict;
  fal_check_status : Z -> string -> string -> Z * result dict
}.

(** What a run has done so far: its calls to the providers and its sleeps,
    oldest first, and the time on the event loop's clock. *)
Inductive call :=
  | KieSubmit (r : request)
  | FalSubmit (r : request)
  | KieStatus (job_id model : string)
  | FalStatus (job_id model : string)
  | Sleep (delay : Z).

#[global] Instance call_eq_dec : EqDecision call.
Proof. solve_decision. Defined.

Record world := World { now : Z; calls : list call }.

#[global] Instance world_eq_dec : EqDecision world.
Proof. solve_decision. Defined.

(** Awaiting a provider call: the call is logged, the clock moves on by the
    time it took. *)
Definition await_call (c : call) (reply : Z -> Z * result dict) : M world dict :=
  fun w => (World (now w + fst (reply (now w))) (calls w ++ [c]), snd (reply (now w))).

(** [asyncio.get_event_loop().time()] *)
Definition loop_time : M world Z := fun w => (w, Ok (now w)).

(** [await asyncio.sleep(delay)]: a delay that is not positive only yields. *)
Definition sleep (delay : Z) : M world unit :=
  fun w => (World (now w + Z.max 0 delay) (calls w ++ [Sleep delay]), Ok tt).

(** [asyncio.wait_for(c, timeout)]: the result of [c] if it is there within
    [timeout]; otherwise [c] is given up at the deadline and
    [asyncio.TimeoutError] is raised.  The calls [c] had begun stay made. *)
Definition wait_for {A} (c : M world A) (timeout : Z) : M world A :=
  fun w =>
    let '(w', r) := c w in
    if (now w' - now w <=? timeout)%Z then (w', r)
    else (World (now w + timeout) (calls w'), Raise (Exn AsyncioTimeoutError "")).

(** [while True: body]: the body ends a round with [None] (go round again),
    with [Some v] ([return v]) or by raising.  [fuel] bounds the number of
    rounds; running out of it gives [None]. *)
Fixpoint while_true {A} (fuel : nat) (body : M world (option A)) (w : world)
    : option (world * result A) :=
  match fuel with
  | O => None
  | S fuel' =>
      match body w with
      | (w', Ok (Some v)) => Some (w', Ok v)
      | (w', Ok None) => while_true fuel' body w'
      | (w', Raise e) => Some (w', Raise e)
      end
  end.

(** The world at the start of round [n], when the rounds before it all went
    round again. *)
Fixpoint round_start {A} (n : nat) (body : M world (option A)) (w : world)
    : option world :=
  match n with
  | O => Some w
  | S n' =>
      match body w with
      | (w', Ok None) => round_start n' body w'
      | _ => None
      end
  end.

(** The part of a poll cycle that both polling loops share: what to do with
    the status dictionary of a job. *)
Definition on_status (failed_prefix : string) (poll_interval : Z)
    (status_data : dict) : M world (option pyval) :=
  status <- lift (getitem status_data "status") ;;
  if bool_decide (status = VStr "COMPLETED") then
    result_url <- lift (getitem status_data "result_url") ;;
    if negb (truthy result_url) then
      raise (Exception "Job completed but no result URL found")
    else ret (Some result_url)
  else if bool_decide (status = VStr "FAILED") then
    raise (Exception (failed_prefix ++
                      py_str (dict_get status_data "error" (VStr "Unknown error"))))
  else
    sleep poll_interval ;;; ret None.

(** ** [app/services/providers/fal_provider.py]: polling *)

Module FalProvider.

Section Fal.

Variable self : providers.

Definition check_status (job_id model : string) : M world dict :=
  await_call (FalStatus job_id model) (fun t => fal_check_status self t job_id model).

Definition get_status (job_id model : string) : M world dict :=
  let model :=
    if String.eqb model "" then "fal-ai/bytedance/seedream/v4/text-to-image"
    else model in
  check_status job_id model.

Definition models_to_try : list string :=
  [ "fal-ai/bytedance/seedream/v4/text-to-image";
    "fal-ai/bytedance/seedream/v4/edit" ].

(** The [for model in models_to_try] loop: the first probe that does not
    raise gives [status_data]; when all raise it stays [None]. *)
Fixpoint try_models (job_id : string) (models : list string)
    : M world (option dict) :=
  match models with
  | [] => ret None
  | model :: rest =>
      try_except
        (status_data <- check_status job_id model ;; ret (Some status_data))
        (fun _ => try_models job_id rest)
  end.

(** One round of the [while True] loop of [wait_for_completion]. *)
Definition poll_cycle (start_time : Z) (job_id : string)
    (timeout poll_interval : Z) : M world (option pyval) :=
  t <- loop_time ;;
  let elapsed := (t - start_time)%Z in
  if (timeout <? elapsed)%Z then
    raise (Exception ("Fal.ai job " ++ job_id ++ " timed out after " ++
                      pretty timeout ++ "s"))
  else
    status_data <- try_models job_id models_to_try ;;
    match status_data with
    | None => sleep poll_interval ;;; ret None
    | Some status_data =>
        if bool_decide (status_data = ∅) then
          sleep poll_interval ;;; ret None
        else on_status "Fal.ai job failed: " poll_interval status_data
    end.

Definition wait_for_completion (fuel : nat) (job_id : string)
    (timeout poll_interval : Z) (w : world) : option (world * result pyval) :=
  let start_time := now w in
  while_true fuel (poll_cycle start_time job_id timeout poll_interval) w.

End Fal.

End FalProvider.

(** ** [app/services/providers/veo3_provider.py] *)

Module Veo3Provider.

Section Veo3.

Variable self : providers.

Definition _submit_to_kie (image_url prompt : string) (use_fast : bool)
    (duration : Z) (aspect_ratio : string) (webhook_url : option string)
    : M world dict :=
  let request :=
    Request image_url prompt ""
      (<["enable_translation" := VBool true]>
       (<["aspect_ratio" := VStr aspect_ratio]>
       (<["use_fast" := VBool use_fast]> ∅)))
      webhook_url in
  result <- await_call (KieSubmit request)
              (fun t => kie_submit_image_to_video_job self t request) ;;
  job_id <- lift (getitem result "job_id") ;;
  ret (<["estimated_time" :=
           dict_get result "estimated_time" (VInt (if use_fast then 120 else 240))]>
       (<["provider" := VStr "kie"]>
       (<["job_id" := job_id]> ∅))).

Definition _submit_to_fal (image_url prompt : string) (duration : Z)
    (aspect_ratio : string) (webhook_url : option string) (use_fast : bool)
    : M world dict :=
  let request :=
    Request image_url prompt ""
      (<["use_fast" := VBool use_fast]>
       (<["aspect_ratio" := VStr aspect_ratio]>
       (<["duration" := VInt duration]> ∅)))
      webhook_url in
  result <- await_call (FalSubmit request)
              (fun t => fal_submit_image_to_video_job self t request) ;;
  job_id <- lift (getitem result "job_id") ;;
  ret (<["estimated_time" :=
           dict_get result "estimated_time" (VInt (if use_fast then 120 else 240))]>
       (<["provider" := VStr "fal"]>
       (<["job_id" := job_id]> ∅))).

(** The first [try] block of [submit_veo3_job] either returns to the caller
    ([inl]) or leaves [primary_error] set ([inr]). *)
Definition try_primary (image_url prompt : string) (use_fast : bool)
    (duration : Z) (aspect_ratio : string) (webhook_url : option string)
    (fallback_timeout : Z) : M world (dict + string) :=
  try_except
    (result <- wait_for
                 (_submit_to_kie image_url prompt use_fast duration
                                 aspect_ratio webhook_url)
                 fallback_timeout ;;
     ret (inl (<["primary_provider" := VStr "kie"]>
               (<["fallback_triggered" := VBool false]> result))))
    (fun e =>
       if is_asyncio_TimeoutError (exn_class e) then
         ret (inr ("Kie.ai timed out after " ++ pretty fallback_timeout ++ "s"))
       else
         ret (inr ("Kie.ai failed: " ++ exn_str e))).

Definition newline : string := String (ascii_of_nat 10) "".

Definition submit_veo3_job (image_url prompt : string) (use_fast : bool)
    (duration : Z) (aspect_ratio : string) (webhook_url : option string)
    (preferred_provider : string) (fallback_timeout : Z) : M world dict :=
  if String.eqb preferred_provider "fal" then
    result <- _submit_to_fal image_url prompt duration aspect_ratio
                             webhook_url use_fast ;;
    ret (<["primary_provider" := VStr "fal"]>
         (<["fallback_triggered" := VBool false]> result))
  else
    primary <- try_primary image_url prompt use_fast duration aspect_ratio
                           webhook_url fallback_timeout ;;
    match primary with
    | inl result => ret result
    | inr primary_error =>
        try_except
          (result <- _submit_to_fal image_url prompt duration aspect_ratio
                                    webhook_url use_fast ;;
           ret (<["primary_error" := VStr primary_error]>
                (<["primary_provider" := VStr "kie"]>
                (<["fallback_triggered" := VBool true]> result))))
          (fun fal_error =>
             raise (Exception
               ("Veo3 video generation failed on all providers." ++ newline ++
                "Primary (Kie.ai): " ++ primary_error ++ newline ++
                "Fallback (Fal.ai): " ++ exn_str fal_error)))
    end.

Definition get_status (job_id provider : string) : M world dict :=
  if String.eqb provider "kie" then
    (* kie_provider.get_status is an alias of its check_status *)
    await_call (KieStatus job_id "veo3")
               (fun t => kie_check_status self t job_id "veo3")
  else if String.eqb provider "fal" then
    FalProvider.get_status self job_id "fal-ai/veo3.1/image-to-video"
  else
    raise (Exn ValueError ("Unknown provider: " ++ provider)).

(** One round of the [while True] loop of [wait_for_completion]. *)
Definition poll_cycle (start_time : Z) (job_id provider : string)
    (timeout poll_interval : Z) : M world (option pyval) :=
  t <- loop_time ;;
  let elapsed := (t - start_time)%Z in
  if (timeout <? elapsed)%Z then
    raise (Exception ("Veo3 job " ++ job_id ++ " timed out after " ++
                      pretty timeout ++ "s"))
  else
    status_data <- get_status job_id provider ;;
    on_status "Veo3 job failed: " poll_interval status_data.

Definition wait_for_completion (fuel : nat) (job_id provider : string)
    (timeout poll_interval : Z) (w : world) : option (world * result pyval) :=
  let start_time := now w in
  while_true fuel (poll_cycle start_time job_id provider timeout poll_interval) w.

End Veo3.

End Veo3Provider.

(** ** [app/core/config.py] *)

Module Config.

(** The fields of the [Settings] class, filled in from the environment when
    the module is loaded. *)
Record Settings := {
  API_KEY : string;
  WASP_WEBHOOK_URL : string;
  OPENROUTER_API_KEY : string;
  OPENROUTER_MODEL : string;
  SEEDREAM_API_KEY : string;
  KIE_API_KEY : string;
  FAL_KEY : string;
  AWS_ACCESS_KEY_ID : string;
  AWS_SECRET_ACCESS_KEY : string;
  AWS_S3_BUCKET : string;
  AWS_REGION : string
}.

Definition fields : list (string * (Settings -> string)) :=
  [ ("API_KEY", API_KEY); ("WASP_WEBHOOK_URL", WASP_WEBHOOK_URL);
    ("OPENROUTER_API_KEY", OPENROUTER_API_KEY); ("OPENROUTER_MODEL", OPENROUTER_MODEL);
    ("SEEDREAM_API_KEY", SEEDREAM_API_KEY); ("KIE_API_KEY", KIE_API_KEY);
    ("FAL_KEY", FAL_KEY); ("AWS_ACCESS_KEY_ID", AWS_ACCESS_KEY_ID);
    ("AWS_SECRET_ACCESS_KEY", AWS_SECRET_ACCESS_KEY);
    ("AWS_S3_BUCKET", AWS_S3_BUCKET); ("AWS_REGION", AWS_REGION) ].

(** [settings.name]: the value of a field the class declares; any other
    name raises [AttributeError]. *)
Definition getattr (settings : Settings) (name : string) : result pyval :=
  match List.find (fun field => String.eqb (fst field) name) fields with
  | Some field => Ok (VStr (snd field settings))
  | None =>
      Raise (Exn AttributeError
               ("'Settings' object has no attribute '" ++ name ++ "'"))
  end.

End Config.

(** ** [app/services/pipeline_orchestrator.py] *)

Module PipelineOrchestrator.

(** *** Collaborators

    The orchestrator is handed its collaborators: the Fal.ai provider for the
    image stages, the Veo3 provider for the video stage, optionally the
    OpenRouter provider for enrichment, the S3 upload helpers, the HTTP
    client used for webhooks, and the prompt builders.  Each is a function
    from the arguments of a call to its outcome.  The float arguments
    [strength] and [guidance_scale], the same constants at every call, are
    left out.  With them comes [settings], the settings object of
    [app/core/config.py] that the module imports. *)

Record openrouter_provider := OpenRouter {
  analyze_product_image : pyval -> result dict;
  (* user_input, product_info *)
  enhance_person_prompt : pyval -> dict -> result pyval;
  (* person_info, product_info, user_instructions *)
  enhance_composite_prompt : dict -> dict -> pyval -> result pyval;
  (* composite_info, user_input, product_type *)
  enhance_video_prompt : dict -> pyval -> pyval -> result pyval
}.

Record text_to_image := TextToImage {
  t2i_prompt : pyval;
  t2i_negative_prompt : string;
  t2i_width : Z;
  t2i_height : Z;
  t2i_num_inference_steps : Z
}.

Record image_edit := ImageEdit {
  edit_base_image_url : pyval;
  edit_prompt : pyval;
  edit_overlay_image_url : pyval;
  edit_mode : string
}.

Record veo3_job := Veo3Job {
  veo3_image_url : pyval;
  veo3_prompt : pyval;
  veo3_use_fast : bool;
  veo3_duration : Z;
  veo3_aspect_ratio : string;
  veo3_preferred_provider : string;
  veo3_fallback_timeout : Z
}.

(** The three upload helpers of [app/utils/s3_storage.py]. *)
Inductive asset := PersonImage | CompositeImage | Video.

#[global] Instance text_to_image_eq_dec : EqDecision text_to_image.
Proof. solve_decision. Defined.
#[global] Instance image_edit_eq_dec : EqDecision image_edit.
Proof. solve_decision. Defined.
#[global] Instance veo3_job_eq_dec : EqDecision veo3_job.
Proof. solve_decision. Defined.
#[global] Instance asset_eq_dec : EqDecision asset.
Proof. solve_decision. Defined.

Record collaborators := Collaborators {
  openrouter : option openrouter_provider;
  (* self.fal_seedream *)
  submit_text_to_image_job : text_to_image -> result dict;
  submit_image_edit_job : image_edit -> result dict;
  (* job_id, timeout *)
  fal_wait_for_completion : pyval -> Z -> result pyval;
  (* self.veo3 *)
  submit_veo3_job : veo3_job -> result dict;
  (* job_id, provider, timeout, poll_interval *)
  veo3_wait_for_completion : pyval -> pyval -> Z -> Z -> result pyval;
  (* upload_person_image, upload_composite_image, upload_video:
     url, user_id, generation_id *)
  upload : asset -> pyval -> string -> string -> result dict;
  (* self.webhook_url, and client.post(url, json=data, headers=headers): the
     status code of the response, or the exception of the transport *)
  webhook_url : pyval;
  http_post : pyval -> dict -> dict -> result Z;
  settings : Config.Settings;
  (* N8nPromptBuilder: age, gender, ethnicity, expression, clothing, background *)
  build_person_prompt : pyval -> pyval -> pyval -> pyval -> pyval -> pyval -> result pyval;
  (* person_description, product_description, brand_name *)
  build_composite_prompt : pyval -> pyval -> pyval -> result pyval;
  (* dialogue, action, emotion, character_description, product_type *)
  build_video_prompt : pyval -> pyval -> pyval -> pyval -> pyval -> result pyval;
  (* product_type, brand_name *)
  generate_casual_dialogue : pyval -> pyval -> result pyval;
  (* seedream_provider.build_person_prompt_from_fields, the fields as keywords *)
  build_person_prompt_from_fields : dict -> result pyval
}.

(** What a run does: its calls to the collaborators, in the order made,
    each with its outcome, and the calls of its own notifier,
    [self._send_webhook(data)], each put down as [Notify data] when it
    begins.  A [Post] is the request itself, [client.post], where the
    notifier gets that far. *)
Inductive event :=
  | AnalyzeProductImage (image_url : pyval) (outcome : result dict)
  | EnhancePersonPrompt (user_input : pyval) (product_info : dict)
      (outcome : result pyval)
  | EnhanceCompositePrompt (person_info product_info : dict)
      (user_instructions : pyval) (outcome : result pyval)
  | EnhanceVideoPrompt (composite_info : dict) (user_input product_type : pyval)
      (outcome : result pyval)
  | SubmitTextToImage (job : text_to_image) (outcome : result dict)
  | SubmitImageEdit (job : image_edit) (outcome : result dict)
  | SubmitVeo3 (job : veo3_job) (outcome : result dict)
  | FalWait (job_id : pyval) (timeout : Z) (outcome : result pyval)
  | Veo3Wait (job_id provider : pyval) (timeout poll_interval : Z)
      (outcome : result pyval)
  | Upload (kind : asset) (url : pyval) (user_id generation_id : string)
      (outcome : result dict)
  | Notify (data : dict)
  | Post (url : pyval) (data : dict) (outcome : result Z).

#[global] Instance event_eq_dec : EqDecision event.
Proof. solve_decision. Defined.

Abbreviation trace := (list event).

(** Awaiting a collaborator: the call and its outcome go on the trace. *)
Definition await {A} (ev : result A -> event) (outcome : result A) : M trace A :=
  fun tr => ((tr ++ [ev outcome])%list, outcome).

(** A call of the orchestrator's own begins. *)
Definition called (ev : event) : M trace unit :=
  fun tr => ((tr ++ [ev])%list, Ok tt).

(** A dictionary used as a condition: [None] and the empty one are false. *)
Definition dict_truthy (d : option dict) : bool :=
  match d with
  | Some d => negb (bool_decide (d = ∅))
  | None => false
  end.

Section Orchestrator.

Variable self : collaborators.

(** *** Webhooks *)

(** The header dictionary of the request.  It is built inside the [try]
    block, from [settings.PYTHON_API_KEY]. *)
Definition webhook_headers : result dict :=
  match Config.getattr (settings self) "PYTHON_API_KEY" with
  | Ok api_key =>
      Ok (<["Authorization" := VStr ("Bearer " ++ py_str api_key)]>
          (<["Content-Type" := VStr "application/json"]> ∅))
  | Raise e => Raise e
  end.

(** The [try] block of [_send_webhook]: the headers are built, the request
    is made, its status is looked at; whatever is raised on the way is
    logged and dropped. *)
Definition post_webhook (headers : result dict) (data : dict) : M trace unit :=
  try_except
    (headers <- lift headers ;;
     status_code <- await (Post (webhook_url self) data)
                      (http_post self (webhook_url self) data headers) ;;
     (* a status other than 200 is only logged *)
     ret tt)
    (fun e => ret tt).

Definition _send_webhook (data : dict) : M trace unit :=
  called (Notify data) ;;;
  if negb (truthy (webhook_url self)) then ret tt
  else post_webhook webhook_headers data.

(** [if stage:] and [if stage_error_field:] on the optional arguments. *)
Definition stage_given (stage : option Z) : option Z :=
  match stage with
  | Some n => if (n =? 0)%Z then None else Some n
  | None => None
  end.

Definition field_given (stage_error_field : option string) : option string :=
  match stage_error_field with
  | Some field => if String.eqb field "" then None else Some field
  | None => None
  end.

(** The payload [_send_failure_webhook] builds, up to the call of
    [_send_webhook]. *)
Definition failure_payload (generation_id : string) (exception : exn)
    (stage : option Z) (stage_error_field : option string) : M trace dict :=
  let error_info :=
    classify_error exception
      (match stage_given stage with
       | Some n => Some ("stage" ++ pretty n)
       | None => None
       end) in
  error_type <- lift (getitem error_info "error_type") ;;
  error_message <- lift (getitem error_info "error_message") ;;
  is_refundable <- lift (getitem error_info "is_refundable") ;;
  can_retry <- lift (getitem error_info "can_retry") ;;
  let payload : dict :=
    <["can_retry" := can_retry]>
    (<["is_refundable" := is_refundable]>
    (<["error_message" := error_message]>
    (<["error_type" := error_type]>
    (<["status" := VStr "FAILED"]>
    (<["generation_id" := VStr generation_id]> ∅))))) in
  let payload : dict :=
    match stage_given stage with
    | Some n => <["progress" := VInt 0]> (<["current_stage" := VInt n]> payload)
    | None => payload
    end in
  match field_given stage_error_field with
  | Some field =>
      technical_details <- lift (getitem error_info "technical_details") ;;
      ret (<[field := technical_details]> payload)
  | None => ret payload
  end.

Definition _send_failure_webhook (generation_id : string) (exception : exn)
    (stage : option Z) (stage_error_field : option string) : M trace unit :=
  payload <- failure_payload generation_id exception stage stage_error_field ;;
  _send_webhook payload.

(** Every entry point has the form
    [try: steps  except Exception as e: send the failure webhook; raise];
    below, the steps of each entry point come first, under the name of the
    entry point with [_steps] added. *)
Definition reporting_failure {A} (generation_id : string) (stage : option Z)
    (stage_error_field : option string) (body : M trace A) : M trace A :=
  try_except body
    (fun e =>
       _send_failure_webhook generation_id e stage stage_error_field ;;;
       raise e).

(** *** Enrichment *)

(** [product_info = None; if <configured and url given>: try: analyze ...
    except: pass], as the stage-only entry points have it. *)
Definition analyze_if_configured (wanted : bool) (product_image_url : pyval)
    : M trace (option dict) :=
  match openrouter self with
  | Some gpt =>
      if wanted then
        try_except
          (product_info <- await (AnalyzeProductImage product_image_url)
                             (analyze_product_image gpt product_image_url) ;;
           ret (Some product_info))
          (fun e => ret None)
      else ret None
  | None => ret None
  end.

(** [product_info.get(key, dflt) if product_info else dflt] *)
Definition info_get (product_info : option dict) (key : string) (dflt : pyval) : pyval :=
  match product_info with
  | Some d => if dict_truthy product_info then dict_get d key dflt else dflt
  | None => dflt
  end.

(** [a or b] *)
Definition py_or (a b : pyval) : pyval := if truthy a then a else b.

(** [{'url': url}] *)
Definition url_info (url : pyval) : dict := <["url" := url]> ∅.

(** [if self.openrouter and product_info: try: prompt = await enhance(...)
    except: pass]: the enhanced prompt, or the prompt as it was. *)
Definition enhance_if_possible (product_info : option dict) (prompt : pyval)
    (enhance : openrouter_provider -> dict -> M trace pyval) : M trace pyval :=
  match openrouter self, product_info with
  | Some gpt, Some info =>
      if dict_truthy product_info then
        try_except (enhance gpt info) (fun e => ret prompt)
      else ret prompt
  | _, _ => ret prompt
  end.

(** *** Stage 1 alone *)

Definition generate_person_only_steps (generation_id user_id stage1_mode : string)
    (person_prompt : pyval) (person_fields : option dict) : M trace dict :=
  final_person_prompt <-
       (if String.eqb stage1_mode "EASY" then
          match person_fields with
          | Some fields =>
              if dict_truthy person_fields then
                lift (build_person_prompt self
                        (dict_get fields "age" (VStr "20s"))
                        (dict_get fields "gender" (VStr "female"))
                        (dict_get fields "ethnicity" (VStr "caucasian"))
                        (dict_get fields "expression" (VStr "smiling"))
                        (dict_get fields "clothing" (VStr "casual"))
                        (dict_get fields "background" (VStr "home")))
              else raise (Exn ValueError "person_fields required for EASY mode")
          | None => raise (Exn ValueError "person_fields required for EASY mode")
          end
        else if negb (truthy person_prompt) then
          raise (Exn ValueError "person_prompt required for ADVANCED mode")
        else ret person_prompt) ;;
     let job := TextToImage final_person_prompt "" 1080 1440 50 in
     stage1_result <- await (SubmitTextToImage job) (submit_text_to_image_job self job) ;;
     job_id <- lift (getitem stage1_result "job_id") ;;
     person_image_url <- await (FalWait job_id 120)
                           (fal_wait_for_completion self job_id 120) ;;
     person_s3 <- await (Upload PersonImage person_image_url user_id generation_id)
                    (upload self PersonImage person_image_url user_id generation_id) ;;
     s3_url <- lift (getitem person_s3 "s3_url") ;;
     s3_key <- lift (getitem person_s3 "s3_key") ;;
     ret (<["person_s3_key" := s3_key]>
          (<["person_url" := s3_url]>
          (<["generation_id" := VStr generation_id]>
          (<["success" := VBool true]> ∅)))).

Definition generate_person_only (generation_id user_id stage1_mode : string)
    (person_prompt : pyval) (person_fields : option dict) : M trace dict :=
  reporting_failure generation_id (Some 1%Z) (Some "stage1_error")
    (generate_person_only_steps generation_id user_id stage1_mode person_prompt person_fields).

(** *** Stage 2 alone *)

Definition generate_composite_only_steps (generation_id user_id : string)
    (person_image_url product_image_url composite_prompt : pyval) : M trace dict :=
  product_info <- analyze_if_configured true product_image_url ;;
     composite_prompt <-
       (if negb (truthy composite_prompt) then
          let brand_name := info_get product_info "brand_name" (VStr "Unknown") in
          let visual_desc := info_get product_info "visual_description" (VStr "product") in
          lift (build_composite_prompt self (VStr "person from the original image")
                  visual_desc brand_name)
        else ret composite_prompt) ;;
     let job := ImageEdit person_image_url composite_prompt product_image_url
                          "inpaint_and_blend" in
     stage2_result <- await (SubmitImageEdit job) (submit_image_edit_job self job) ;;
     job_id <- lift (getitem stage2_result "job_id") ;;
     composite_image_url <- await (FalWait job_id 90)
                              (fal_wait_for_completion self job_id 90) ;;
     composite_s3 <- await (Upload CompositeImage composite_image_url user_id generation_id)
                       (upload self CompositeImage composite_image_url user_id
                               generation_id) ;;
     s3_url <- lift (getitem composite_s3 "s3_url") ;;
     s3_key <- lift (getitem composite_s3 "s3_key") ;;
     ret (<["composite_s3_key" := s3_key]>
          (<["composite_url" := s3_url]>
          (<["generation_id" := VStr generation_id]>
          (<["success" := VBool true]> ∅)))).

Definition generate_composite_only (generation_id user_id : string)
    (person_image_url product_image_url composite_prompt : pyval) : M trace dict :=
  reporting_failure generation_id (Some 2%Z) (Some "stage2_error")
    (generate_composite_only_steps generation_id user_id person_image_url product_image_url composite_prompt).

(** *** Stage 3 alone *)

Definition colon : ascii := ascii_of_nat 58.
Definition line_feed : ascii := ascii_of_nat 10.

(** One line of a structured video prompt: [key: value] sets the dialogue,
    the action or the emotion. *)
Definition parse_line (parsed : string * string * string) (line : string)
    : string * string * string :=
  let '(dialogue, action, emotion) := parsed in
  if str_in ":" line then
    let '(key, value) := split_once colon line in
    let key := lower (strip key) in
    let value := strip value in
    if String.eqb key "dialogue" then (value, action, emotion)
    else if String.eqb key "action" then (dialogue, value, emotion)
    else if String.eqb key "emotion" then (dialogue, action, value)
    else parsed
  else parsed.

Definition parse_video_prompt (video_prompt : string) : string * string * string :=
  let defaults :=
    ("", "character sits holding the product casually while speaking",
     "casual and happy") in
  if (str_in (String line_feed "") video_prompt && str_in ":" video_prompt)%bool then
    fold_left parse_line (split line_feed video_prompt) defaults
  else
    let '(_, action, emotion) := defaults in (video_prompt, action, emotion).

Definition generate_video_only_steps (generation_id user_id : string)
    (composite_image_url : pyval) (video_prompt veo3_mode : string)
    (duration : Z) (aspect_ratio : string) (product_image_url : pyval)
    : M trace dict :=
  product_info <- analyze_if_configured (truthy product_image_url)
                       product_image_url ;;
     let '(dialogue, action, emotion) := parse_video_prompt video_prompt in
     dialogue <-
       (if String.eqb dialogue "" then
          let product_type := info_get product_info "type" (VStr "product") in
          let brand_name := info_get product_info "brand_name" (VStr "") in
          lift (generate_casual_dialogue self product_type brand_name)
        else ret (VStr dialogue)) ;;
     final_video_prompt <-
       lift (build_video_prompt self dialogue (VStr action) (VStr emotion)
               (VStr "person from the composite image")
               (info_get product_info "type" (VStr "product"))) ;;
     let job := Veo3Job composite_image_url final_video_prompt
                        (String.eqb veo3_mode "FAST") duration aspect_ratio "kie" 60 in
     stage3_result <- await (SubmitVeo3 job) (submit_veo3_job self job) ;;
     provider_used <- lift (getitem stage3_result "provider") ;;
     let fallback_triggered := dict_get stage3_result "fallback_triggered" (VBool false) in
     job_id <- lift (getitem stage3_result "job_id") ;;
     video_url <- await (Veo3Wait job_id provider_used 600 30)
                    (veo3_wait_for_completion self job_id provider_used 600 30) ;;
     video_s3 <- await (Upload Video video_url user_id generation_id)
                   (upload self Video video_url user_id generation_id) ;;
     s3_url <- lift (getitem video_s3 "s3_url") ;;
     s3_key <- lift (getitem video_s3 "s3_key") ;;
     ret (<["fallback_triggered" := fallback_triggered]>
          (<["provider_used" := provider_used]>
          (<["video_s3_key" := s3_key]>
          (<["video_url" := s3_url]>
          (<["generation_id" := VStr generation_id]>
          (<["success" := VBool true]> ∅)))))).

Definition generate_video_only (generation_id user_id : string)
    (composite_image_url : pyval) (video_prompt veo3_mode : string)
    (duration : Z) (aspect_ratio : string) (product_image_url : pyval)
    : M trace dict :=
  reporting_failure generation_id (Some 3%Z) (Some "stage3_error")
    (generate_video_only_steps generation_id user_id composite_image_url video_prompt veo3_mode duration
       aspect_ratio product_image_url).

(** *** The full pipeline *)

Definition default_composite_prompt : string :=
  "The person is casually presenting the product to the camera in a natural, relaxed way. " ++
  "The product is held at a comfortable distance from the camera - not too close or too far. " ++
  "Natural hand grip with fingers relaxed, as if showing it to a friend. " ++
  "The product should appear normal-sized, not oversized or dominant in the frame. " ++
  "Keep the person's face, expression, and overall pose similar to the original. " ++
  "Casual, authentic UGC presentation style - not staged or overly posed. " ++
  "The person looks natural and comfortable holding the product.".

Definition generic_product_info : dict :=
  <["visual_description" := VStr "Generic product"]>
  (<["color_scheme" := VStrList []]>
  (<["brand_name" := VStr "Unknown"]> ∅)).

(** The first enrichment block of the multi-stage entry points is one [try]
    around two awaits, the analysis and the enhancement of the person
    prompt.  An exception in the first leaves [product_info] at [None] and
    skips the second; an exception in the second leaves the prompt as it
    was, with [product_info] already assigned.  [analysis] is the first
    statement of the block. *)
Definition analyze_and_enhance (gpt : openrouter_provider)
    (analysis : M trace dict) (prompt : pyval) : M trace (option dict * pyval) :=
  analyzed <- try_except (product_info <- analysis ;; ret (Some product_info))
                         (fun e => ret None) ;;
  match analyzed with
  | Some product_info =>
      prompt <- try_except
                  (await (EnhancePersonPrompt prompt product_info)
                         (enhance_person_prompt gpt prompt product_info))
                  (fun e => ret prompt) ;;
      ret (Some product_info, prompt)
  | None => ret (None, prompt)
  end.

Definition stage_status (generation_id : string) (stage : Z) (status : string) : dict :=
  <["status" := VStr status]>
  (<["stage" := VInt stage]>
  (<["generation_id" := VStr generation_id]> ∅)).

Definition generate_ugc_video_steps (generation_id user_id stage1_mode : string)
    (product_image_url video_prompt person_prompt : pyval)
    (person_fields : option dict) (composite_prompt : pyval)
    (veo3_mode : string) (duration : Z) (aspect_ratio : string) : M trace dict :=
  (* stage 1 *)
     _send_webhook (<["message" := VStr "Generating AI person..."]>
                    (stage_status generation_id 1 "processing")) ;;;
     final_person_prompt <-
       (if String.eqb stage1_mode "EASY" then
          match person_fields with
          | Some fields =>
              if dict_truthy person_fields then
                lift (build_person_prompt_from_fields self
                        (<["background" := dict_get fields "background" (VStr "white")]>
                         (<["expression" := dict_get fields "expression" (VStr "smiling")]>
                         (<["clothing" := dict_get fields "clothing" (VStr "casual")]>
                         (<["ethnicity" := dict_get fields "ethnicity" (VStr "Caucasian")]>
                         (<["age" := dict_get fields "age" (VStr "26-35")]>
                         (<["gender" := dict_get fields "gender" (VStr "female")]> ∅)))))))
              else raise (Exn ValueError "person_fields required for EASY mode")
          | None => raise (Exn ValueError "person_fields required for EASY mode")
          end
        else if negb (truthy person_prompt) then
          raise (Exn ValueError "person_prompt required for ADVANCED mode")
        else ret person_prompt) ;;
     enriched <-
       match openrouter self with
       | Some gpt =>
           analyze_and_enhance gpt
             (if truthy product_image_url then
                await (AnalyzeProductImage product_image_url)
                      (analyze_product_image gpt product_image_url)
              else ret generic_product_info)
             final_person_prompt
       | None => ret (None, final_person_prompt)
       end ;;
     let '(product_info, final_person_prompt) := enriched in
     let job1 := TextToImage final_person_prompt "" 1080 1440 50 in
     stage1_result <- await (SubmitTextToImage job1) (submit_text_to_image_job self job1) ;;
     job_id <- lift (getitem stage1_result "job_id") ;;
     person_image_url <- await (FalWait job_id 120)
                           (fal_wait_for_completion self job_id 120) ;;
     person_s3 <- await (Upload PersonImage person_image_url user_id generation_id)
                    (upload self PersonImage person_image_url user_id generation_id) ;;
     person_url <- lift (getitem person_s3 "s3_url") ;;
     _send_webhook (<["person_url" := person_url]>
                    (stage_status generation_id 1 "completed")) ;;;
     (* stage 2 *)
     _send_webhook (<["message" := VStr "Compositing product with person..."]>
                    (stage_status generation_id 2 "processing")) ;;;
     let composite_prompt :=
       if negb (truthy composite_prompt) then VStr default_composite_prompt
       else composite_prompt in
     composite_prompt <-
       enhance_if_possible product_info composite_prompt
         (fun gpt info =>
            await (EnhanceCompositePrompt (url_info person_url) info composite_prompt)
                  (enhance_composite_prompt gpt (url_info person_url) info
                                            composite_prompt)) ;;
     let job2 := ImageEdit person_url composite_prompt product_image_url
                           "inpaint_and_blend" in
     stage2_result <- await (SubmitImageEdit job2) (submit_image_edit_job self job2) ;;
     job_id <- lift (getitem stage2_result "job_id") ;;
     composite_image_url <- await (FalWait job_id 90)
                              (fal_wait_for_completion self job_id 90) ;;
     composite_s3 <- await (Upload CompositeImage composite_image_url user_id generation_id)
                       (upload self CompositeImage composite_image_url user_id
                               generation_id) ;;
     composite_url <- lift (getitem composite_s3 "s3_url") ;;
     _send_webhook (<["composite_url" := composite_url]>
                    (stage_status generation_id 2 "completed")) ;;;
     (* stage 3 *)
     _send_webhook (<["message" :=
                        VStr ("Generating video (" ++
                              (if String.eqb veo3_mode "FAST" then "fast" else "standard")
                              ++ " mode)...")]>
                    (stage_status generation_id 3 "processing")) ;;;
     final_video_prompt <-
       enhance_if_possible product_info video_prompt
         (fun gpt info =>
            let product_type := dict_get info "brand_name" (VStr "product") in
            await (EnhanceVideoPrompt (url_info composite_url) video_prompt product_type)
                  (enhance_video_prompt gpt (url_info composite_url) video_prompt
                                        product_type)) ;;
     let job3 := Veo3Job composite_url final_video_prompt
                         (String.eqb veo3_mode "FAST") duration aspect_ratio "kie" 60 in
     stage3_result <- await (SubmitVeo3 job3) (submit_veo3_job self job3) ;;
     provider_used <- lift (getitem stage3_result "provider") ;;
     let fallback_triggered := dict_get stage3_result "fallback_triggered" (VBool false) in
     job_id <- lift (getitem stage3_result "job_id") ;;
     video_url <- await (Veo3Wait job_id provider_used 600 30)
                    (veo3_wait_for_completion self job_id provider_used 600 30) ;;
     video_s3 <- await (Upload Video video_url user_id generation_id)
                   (upload self Video video_url user_id generation_id) ;;
     stored_video_url <- lift (getitem video_s3 "s3_url") ;;
     let total_time := VElapsed in
     _send_webhook (<["total_time" := total_time]>
                    (<["fallback_triggered" := fallback_triggered]>
                    (<["provider_used" := provider_used]>
                    (<["video_url" := stored_video_url]>
                    (stage_status generation_id 3 "completed"))))) ;;;
     person_s3_key <- lift (getitem person_s3 "s3_key") ;;
     composite_s3_key <- lift (getitem composite_s3 "s3_key") ;;
     video_s3_key <- lift (getitem video_s3 "s3_key") ;;
     ret (<["total_time" := total_time]>
          (<["fallback_triggered" := fallback_triggered]>
          (<["provider_used" := provider_used]>
          (<["video_s3_key" := video_s3_key]>
          (<["video_url" := stored_video_url]>
          (<["composite_s3_key" := composite_s3_key]>
          (<["composite_url" := composite_url]>
          (<["person_s3_key" := person_s3_key]>
          (<["person_url" := person_url]>
          (<["generation_id" := VStr generation_id]>
          (<["success" := VBool true]> ∅))))))))))).

Definition generate_ugc_video (generation_id user_id stage1_mode : string)
    (product_image_url video_prompt person_prompt : pyval)
    (person_fields : option dict) (composite_prompt : pyval)
    (veo3_mode : string) (duration : Z) (aspect_ratio : string) : M trace dict :=
  reporting_failure generation_id None None
    (generate_ugc_video_steps generation_id user_id stage1_mode product_image_url video_prompt
       person_prompt person_fields composite_prompt veo3_mode duration aspect_ratio).

(** *** Stages 1 and 2 *)

Definition generate_person_and_composite_steps (generation_id user_id stage1_mode : string)
    (person_prompt : pyval) (person_fields : option dict)
    (product_image_url composite_prompt : pyval) : M trace dict :=
  person_prompt <-
       (if String.eqb stage1_mode "EASY" then
          match person_fields with
          | Some fields => lift (build_person_prompt_from_fields self fields)
          | None =>
              raise (Exn TypeError
                ("build_person_prompt_from_fields() argument after ** " ++
                 "must be a mapping, not NoneType"))
          end
        else ret person_prompt) ;;
     enriched <-
       match openrouter self with
       | Some gpt =>
           if truthy product_image_url then
             analyze_and_enhance gpt
               (await (AnalyzeProductImage product_image_url)
                      (analyze_product_image gpt product_image_url))
               person_prompt
           else ret (None, person_prompt)
       | None => ret (None, person_prompt)
       end ;;
     let '(product_info, person_prompt) := enriched in
     let job1 := TextToImage person_prompt "blurry, low quality, distorted"
                             1080 1440 50 in
     person_job <- await (SubmitTextToImage job1) (submit_text_to_image_job self job1) ;;
     job_id <- lift (getitem person_job "job_id") ;;
     person_image_url <- await (FalWait job_id 120)
                           (fal_wait_for_completion self job_id 120) ;;
     person_s3 <- await (Upload PersonImage person_image_url user_id generation_id)
                    (upload self PersonImage person_image_url user_id generation_id) ;;
     person_s3_key <- lift (getitem person_s3 "s3_key") ;;
     person_url <- lift (getitem person_s3 "s3_url") ;;
     _send_webhook (<["s3_key_person" := person_s3_key]>
                    (<["generated_person_url" := person_url]>
                    (<["progress" := VInt 50]>
                    (<["current_stage" := VInt 1]>
                    (<["status" := VStr "processing"]>
                    (<["generation_id" := VStr generation_id]> ∅)))))) ;;;
     let composite_prompt_text :=
       py_or composite_prompt (VStr "product held naturally by person") in
     composite_prompt_text <-
       enhance_if_possible product_info composite_prompt_text
         (fun gpt info =>
            let user_instructions := py_or composite_prompt (VStr "") in
            await (EnhanceCompositePrompt (url_info person_url) info user_instructions)
                  (enhance_composite_prompt gpt (url_info person_url) info
                                            user_instructions)) ;;
     let job2 := ImageEdit person_url composite_prompt_text product_image_url
                           "inpaint_and_blend" in
     composite_job <- await (SubmitImageEdit job2) (submit_image_edit_job self job2) ;;
     job_id <- lift (getitem composite_job "job_id") ;;
     composite_image_url <- await (FalWait job_id 120)
                              (fal_wait_for_completion self job_id 120) ;;
     composite_s3 <- await (Upload CompositeImage composite_image_url user_id generation_id)
                       (upload self CompositeImage composite_image_url user_id
                               generation_id) ;;
     composite_s3_key <- lift (getitem composite_s3 "s3_key") ;;
     composite_url <- lift (getitem composite_s3 "s3_url") ;;
     _send_webhook (<["s3_key_composite" := composite_s3_key]>
                    (<["composite_image_url" := composite_url]>
                    (<["progress" := VInt 100]>
                    (<["current_stage" := VInt 2]>
                    (<["status" := VStr "completed"]>
                    (<["generation_id" := VStr generation_id]> ∅)))))) ;;;
     let total_time := VElapsed in
     ret (<["total_time" := total_time]>
          (<["composite_s3_key" := composite_s3_key]>
          (<["composite_url" := composite_url]>
          (<["person_s3_key" := person_s3_key]>
          (<["person_url" := person_url]>
          (<["generation_id" := VStr generation_id]>
          (<["success" := VBool true]> ∅))))))).

Definition generate_person_and_composite (generation_id user_id stage1_mode : string)
    (person_prompt : pyval) (person_fields : option dict)
    (product_image_url composite_prompt : pyval) : M trace dict :=
  reporting_failure generation_id None None
    (generate_person_and_composite_steps generation_id user_id stage1_mode person_prompt person_fields
       product_image_url composite_prompt).

End Orchestrator.


(** *** Runs and what is said about them *)

(** A run of an entry point starts with nothing done. *)
Definition run {A} (c : M trace A) : trace * result A := c [].

(** Calls to the enrichment collaborator. *)
Definition enrichment (ev : event) : bool :=
  match ev with
  | AnalyzeProductImage _ _ | EnhancePersonPrompt _ _ _
  | EnhanceCompositePrompt _ _ _ _ | EnhanceVideoPrompt _ _ _ _ => true
  | _ => false
  end.

(** A submission, a wait or an upload that raised. *)
Definition critical_failure (ev : event) : option exn :=
  match ev with
  | SubmitTextToImage _ (Raise e) | SubmitImageEdit _ (Raise e)
  | SubmitVeo3 _ (Raise e) | FalWait _ _ (Raise e)
  | Veo3Wait _ _ _ _ (Raise e) | Upload _ _ _ _ (Raise e) => Some e
  | _ => None
  end.

(** A call of the notifier, or a request of its, that reports failure. *)
Definition failure_post (ev : event) : Prop :=
  match ev with
  | Notify data | Post _ data _ => data !! "status" = Some (VStr "FAILED")
  | _ => False
  end.

(** Nothing has failed so far, and no failure has been reported. *)
Definition clean (tr : trace) : Prop :=
  Forall (fun ev => critical_failure ev = None /\ ~ failure_post ev) tr.

(** The classification of [e] as the failure webhook of an entry point
    carries it, with the stage number when the entry point passes one. *)
Definition classification_payload (generation_id : string) (e : exn)
    (stage : option Z) (stage_error_field : option string) : dict :=
  let info := classify_error e (match stage with
                                | Some n => Some ("stage" ++ pretty n)
                                | None => None
                                end) in
  let field key := default VNone (info !! key) in
  let payload : dict :=
    <["can_retry" := field "can_retry"]>
    (<["is_refundable" := field "is_refundable"]>
    (<["error_message" := field "error_message"]>
    (<["error_type" := field "error_type"]>
    (<["status" := VStr "FAILED"]>
    (<["generation_id" := VStr generation_id]> ∅))))) in
  let payload : dict :=
    match stage with
    | Some n => <["progress" := VInt 0]> (<["current_stage" := VInt n]> payload)
    | None => payload
    end in
  match stage_error_field with
  | Some name => <[name := field "technical_details"]> payload
  | None => payload
  end.

(** The five entry points, with the stage number and the error field each
    passes to [_send_failure_webhook]. *)
Inductive entry_point :=
  | FullRun | Stage1Only | Stage2Only | Stage3Only | Stages1And2.

Definition stage_of (ep : entry_point) : option Z :=
  match ep with
  | Stage1Only => Some 1%Z
  | Stage2Only => Some 2%Z
  | Stage3Only => Some 3%Z
  | FullRun | Stages1And2 => None
  end.

Definition error_field_of (ep : entry_point) : option string :=
  match ep with
  | Stage1Only => Some "stage1_error"
  | Stage2Only => Some "stage2_error"
  | Stage3Only => Some "stage3_error"
  | FullRun | Stages1And2 => None
  end.

(** A call of an entry point with its arguments. *)
Inductive invocation :=
  | GenerateUgcVideo (generation_id user_id stage1_mode : string)
      (product_image_url video_prompt person_prompt : pyval)
      (person_fields : option dict) (composite_prompt : pyval)
      (veo3_mode : string) (duration : Z) (aspect_ratio : string)
  | GeneratePersonOnly (generation_id user_id stage1_mode : string)
      (person_prompt : pyval) (person_fields : option dict)
  | GenerateCompositeOnly (generation_id user_id : string)
      (person_image_url product_image_url composite_prompt : pyval)
  | GenerateVideoOnly (generation_id user_id : string)
      (composite_image_url : pyval) (video_prompt veo3_mode : string)
      (duration : Z) (aspect_ratio : string) (product_image_url : pyval)
  | GeneratePersonAndComposite (generation_id user_id stage1_mode : string)
      (person_prompt : pyval) (person_fields : option dict)
      (product_image_url composite_prompt : pyval).

Definition entry_point_of (call : invocation) : entry_point :=
  match call with
  | GenerateUgcVideo _ _ _ _ _ _ _ _ _ _ _ => FullRun
  | GeneratePersonOnly _ _ _ _ _ => Stage1Only
  | GenerateCompositeOnly _ _ _ _ _ => Stage2Only
  | GenerateVideoOnly _ _ _ _ _ _ _ _ => Stage3Only
  | GeneratePersonAndComposite _ _ _ _ _ _ _ => Stages1And2
  end.

Definition generation_of (call : invocation) : string :=
  match call with
  | GenerateUgcVideo g _ _ _ _ _ _ _ _ _ _ | GeneratePersonOnly g _ _ _ _
  | GenerateCompositeOnly g _ _ _ _ | GenerateVideoOnly g _ _ _ _ _ _ _
  | GeneratePersonAndComposite g _ _ _ _ _ _ => g
  end.

Definition invoke (self : collaborators) (call : invocation) : M trace dict :=
  match call with
  | GenerateUgcVideo g u m product video person fields composite mode d a =>
      generate_ugc_video self g u m product video person fields composite mode d a
  | GeneratePersonOnly g u m person fields =>
      generate_person_only self g u m person fields
  | GenerateCompositeOnly g u person product composite =>
      generate_composite_only self g u person product composite
  | GenerateVideoOnly g u composite video mode d a product =>
      generate_video_only self g u composite video mode d a product
  | GeneratePersonAndComposite g u m person fields product composite =>
      generate_person_and_composite self g u m person fields product composite
  end.

Definition steps_of (self : collaborators) (call : invocation) : M trace dict :=
  match call with
  | GenerateUgcVideo g u m product video person fields composite mode d a =>
      generate_ugc_video_steps self g u m product video person fields composite
        mode d a
  | GeneratePersonOnly g u m person fields =>
      generate_person_only_steps self g u m person fields
  | GenerateCompositeOnly g u person product composite =>
      generate_composite_only_steps self g u person product composite
  | GenerateVideoOnly g u composite video mode d a product =>
      generate_video_only_steps self g u composite video mode d a product
  | GeneratePersonAndComposite g u m person fields product composite =>
      generate_person_and_composite_steps self g u m person fields product
        composite
  end.

(** The failure report of a call that raised [e]: the notifier is called
    once, with the classification of [e]. *)
Definition failure_report (call : invocation) (e : exn) : trace :=
  [Notify (classification_payload (generation_of call) e
             (stage_of (entry_point_of call)) (error_field_of (entry_point_of call)))].

(** An artifact URL has been stored: an upload of that kind returned it. *)
Definition stored (tr : trace) (kind : asset) (url : pyval) : Prop :=
  exists source user_id generation_id d,
    In (Upload kind source user_id generation_id (Ok d)) tr /\
    d !! "s3_url" = Some url.

(** The keys under which progress webhooks report the artifact of a stage. *)
Definition artifact_keys : list (string * asset) :=
  [ ("person_url", PersonImage); ("generated_person_url", PersonImage);
    ("composite_url", CompositeImage); ("composite_image_url", CompositeImage);
    ("video_url", Video) ].

(** The artifact of a stage. *)
Definition stage_asset (n : Z) : option asset :=
  if (n =? 1)%Z then Some PersonImage
  else if (n =? 2)%Z then Some CompositeImage
  else if (n =? 3)%Z then Some Video
  else None.

(** A webhook payload that reports stage [n] completed. *)
Definition reports_completion (data : dict) (n : Z) : Prop :=
  data !! "status" = Some (VStr "completed") /\
  (data !! "stage" = Some (VInt n) \/ data !! "current_stage" = Some (VInt n)).

(** A payload sent after [before]: every artifact URL in it has been
    stored, and a payload that reports a stage completed has the artifact
    of that stage in it. *)
Definition report_ok (before : trace) (data : dict) : Prop :=
  (forall key kind url,
      In (key, kind) artifact_keys -> data !! key = Some url ->
      stored before kind url) /\
  (forall n, reports_completion data n ->
      exists key kind,
        In (key, kind) artifact_keys /\ stage_asset n = Some kind /\
        is_Some (data !! key)).

(** What has to have happened [before] an event: the notifier is called
    with, and posts, only stored artifacts; in an entry point that chains
    stages, the image a later stage is submitted with is the stored artifact
    of the stage before it. *)
Definition event_ok (chained : bool) (before : trace) (ev : event) : Prop :=
  match ev with
  | Notify data | Post _ data _ => report_ok before data
  | SubmitImageEdit job _ =>
      chained = true -> stored before PersonImage (edit_base_image_url job)
  | SubmitVeo3 job _ =>
      chained = true -> stored before CompositeImage (veo3_image_url job)
  | _ => True
  end.

Definition ordered (chained : bool) (tr : trace) : Prop :=
  forall before ev after,
    tr = (before ++ ev :: after)%list -> event_ok chained before ev.

Definition chains_stages (ep : entry_point) : bool :=
  match ep with
  | FullRun | Stages1And2 => true
  | _ => false
  end.

(** The same collaborators with another webhook sink, and without the
    enrichment collaborator. *)
Definition with_http_post (self : collaborators)
    (post : pyval -> dict -> dict -> result Z) : collaborators :=
  {| openrouter := openrouter self;
     submit_text_to_image_job := submit_text_to_image_job self;
     submit_image_edit_job := submit_image_edit_job self;
     fal_wait_for_completion := fal_wait_for_completion self;
     submit_veo3_job := submit_veo3_job self;
     veo3_wait_for_completion := veo3_wait_for_completion self;
     upload := upload self;
     webhook_url := webhook_url self;
     http_post := post;
     settings := settings self;
     build_person_prompt := build_person_prompt self;
     build_composite_prompt := build_composite_prompt self;
     build_video_prompt := build_video_prompt self;
     generate_casual_dialogue := generate_casual_dialogue self;
     build_person_prompt_from_fields := build_person_prompt_from_fields self |}.

Definition without_openrouter (self : collaborators) : collaborators :=
  {| openrouter := None;
     submit_text_to_image_job := submit_text_to_image_job self;
     submit_image_edit_job := submit_image_edit_job self;
     fal_wait_for_completion := fal_wait_for_completion self;
     submit_veo3_job := submit_veo3_job self;
     veo3_wait_for_completion := veo3_wait_for_completion self;
     upload := upload self;
     webhook_url := webhook_url self;
     http_post := http_post self;
     settings := settings self;
     build_person_prompt := build_person_prompt self;
     build_composite_prompt := build_composite_prompt self;
     build_video_prompt := build_video_prompt self;
     generate_casual_dialogue := generate_casual_dialogue self;
     build_person_prompt_from_fields := build_person_prompt_from_fields self |}.

(** Every call to the enrichment collaborator raises. *)
Definition enrichment_fails (self : collaborators) : Prop :=
  match openrouter self with
  | Some gpt =>
      (forall url, exists e, analyze_product_image gpt url = Raise e) /\
      (forall p info, exists e, enhance_person_prompt gpt p info = Raise e) /\
      (forall person info p, exists e,
          enhance_composite_prompt gpt person info p = Raise e) /\
      (forall composite p kind, exists e,
          enhance_video_prompt gpt composite p kind = Raise e)
  | None => True
  end.

(** A trace without its enrichment calls. *)
Definition without_enrichment (tr : trace) : trace :=
  List.filter (fun ev => negb (enrichment ev)) tr.

(** The run of [call] with [self] and with [self'] end alike, and do the
    same as far as [obs] shows what [self] did. *)
Definition same_run (obs : trace -> trace) (self self' : collaborators)
    (call : invocation) : Prop :=
  snd (run (invoke self call)) = snd (run (invoke self' call)) /\
  obs (fst (run (invoke self call))) = fst (run (invoke self' call)).

(** *** Sample collaborators

    A Fal.ai provider whose text-to-image submission works or not, a Veo3
    provider that answers through Kie.ai, storage that files everything
    under the generation, a webhook sink that accepts everything, no
    enrichment, and the settings of a deployment. *)

Definition sample_settings : Config.Settings :=
  {| Config.API_KEY := "secret-1";
     Config.WASP_WEBHOOK_URL := "https://app.example/webhook";
     Config.OPENROUTER_API_KEY := "sk-or-1";
     Config.OPENROUTER_MODEL := "openai/gpt-4o";
     Config.SEEDREAM_API_KEY := "seed-1";
     Config.KIE_API_KEY := "kie-1";
     Config.FAL_KEY := "fal-1";
     Config.AWS_ACCESS_KEY_ID := "AKIA1";
     Config.AWS_SECRET_ACCESS_KEY := "aws-1";
     Config.AWS_S3_BUCKET := "ugcvideo-assets";
     Config.AWS_REGION := "us-east-1" |}.

Definition sample_upload (kind : asset) (url : pyval) (user_id generation_id : string)
    : result dict :=
  let folder := match kind with
                | PersonImage => "person-images"
                | CompositeImage => "composites"
                | Video => "videos"
                end in
  let key := folder ++ "/" ++ user_id ++ "/" ++ generation_id in
  Ok (<["s3_key" := VStr key]>
      (<["s3_url" := VStr ("https://bucket.s3.amazonaws.com/" ++ key)]> ∅)).

Definition sample_collaborators (text_to_image_reply : result dict) : collaborators :=
  {| openrouter := None;
     submit_text_to_image_job := fun _ => text_to_image_reply;
     submit_image_edit_job := fun _ => Ok (<["job_id" := VStr "edit-1"]> ∅);
     fal_wait_for_completion := fun job_id _ =>
       Ok (VStr ("https://fal.media/files/" ++ py_str job_id ++ ".png"));
     submit_veo3_job := fun _ =>
       Ok (<["primary_provider" := VStr "kie"]>
           (<["fallback_triggered" := VBool false]>
           (<["provider" := VStr "kie"]>
           (<["job_id" := VStr "kie_abc123"]> ∅))));
     veo3_wait_for_completion := fun _ _ _ _ => Ok (VStr "https://cdn.kie.ai/video.mp4");
     upload := sample_upload;
     webhook_url := VStr "https://app.example/webhook";
     http_post := fun _ _ _ => Ok 200%Z;
     settings := sample_settings;
     build_person_prompt := fun _ _ _ _ _ _ => Ok (VStr "character: person in their 20s");
     build_composite_prompt := fun _ _ _ => Ok (VStr "action: person holding product");
     build_video_prompt := fun dialogue _ _ _ _ => Ok dialogue;
     generate_casual_dialogue := fun _ _ => Ok (VStr "so I got this and... love it");
     build_person_prompt_from_fields := fun _ => Ok (VStr "adult Caucasian female") |}.

(** A webhook sink that accepts everything, one that is unreachable, and
    an enrichment collaborator whose every call fails. *)
Definition delivered (url : pyval) (data headers : dict) : result Z := Ok 200%Z.

Definition connection_refused (url : pyval) (data headers : dict) : result Z :=
  Raise (Exn HttpxConnectError "All connection attempts failed").

Definition openrouter_down : openrouter_provider :=
  let e := Exn (HttpxHTTPStatusError 401) "Client error '401 Unauthorized'" in
  {| analyze_product_image := fun _ => Raise e;
     enhance_person_prompt := fun _ _ => Raise e;
     enhance_composite_prompt := fun _ _ _ => Raise e;
     enhance_video_prompt := fun _ _ _ => Raise e |}.

Definition with_openrouter (self : collaborators) (gpt : openrouter_provider)
    : collaborators :=
  {| openrouter := Some gpt;
     submit_text_to_image_job := submit_text_to_image_job self;
     submit_image_edit_job := submit_image_edit_job self;
     fal_wait_for_completion := fal_wait_for_completion self;
     submit_veo3_job := submit_veo3_job self;
     veo3_wait_for_completion := veo3_wait_for_completion self;
     upload := upload self;
     webhook_url := webhook_url self;
     http_post := http_post self;
     settings := settings self;
     build_person_prompt := build_person_prompt self;
     build_composite_prompt := build_composite_prompt self;
     build_video_prompt := build_video_prompt self;
     generate_casual_dialogue := generate_casual_dialogue self;
     build_person_prompt_from_fields := build_person_prompt_from_fields self |}.

Definition with_webhook_url (self : collaborators) (url : pyval) : collaborators :=
  {| openrouter := openrouter self;
     submit_text_to_image_job := submit_text_to_image_job self;
     submit_image_edit_job := submit_image_edit_job self;
     fal_wait_for_completion := fal_wait_for_completion self;
     submit_veo3_job := submit_veo3_job self;
     veo3_wait_for_completion := veo3_wait_for_completion self;
     upload := upload self;
     webhook_url := url;
     http_post := http_post self;
     settings := settings self;
     build_person_prompt := build_person_prompt self;
     build_composite_prompt := build_composite_prompt self;
     build_video_prompt := build_video_prompt self;
     generate_casual_dialogue := generate_casual_dialogue self;
     build_person_prompt_from_fields := build_person_prompt_from_fields self |}.

Definition all_well : collaborators :=
  sample_collaborators (Ok (<["job_id" := VStr "person-1"]> ∅)).

Definition service_down : exn :=
  Exception "Fal Seedream text-to-image failed: 503 service unavailable".

Definition stage1_down : collaborators := sample_collaborators (Raise service_down).

(** Everything works but the best-effort collaborators: enrichment is
    configured and down, and the webhook sink cannot be reached. *)
Definition side_services_down : collaborators :=
  with_http_post (with_openrouter all_well openrouter_down) connection_refused.

(** A full run and a stage-1-only run, both with a custom person prompt. *)
Definition sample_full_run : invocation :=
  GenerateUgcVideo "gen-1" "user-1" "ADVANCED" (VStr "https://shop.example/can.png")
    (VStr "hold the can up and smile") (VStr "a woman in her 20s") None VNone
    "FAST" 8 "9:16".

Definition sample_person_run : invocation :=
  GeneratePersonOnly "gen-1" "user-1" "ADVANCED" (VStr "a woman in her 20s") None.

(** What the sample runs do: the artifact of stage 1 in storage, the call
    of the notifier that reports it, and the submission that fails when the
    text-to-image service is down. *)
Definition sample_person_url : pyval :=
  VStr "https://bucket.s3.amazonaws.com/person-images/user-1/gen-1".

Definition sample_stage1_report : event :=
  Notify (<["person_url" := sample_person_url]> (stage_status "gen-1" 1 "completed")).

Definition sample_stage1_started : event :=
  Notify (<["message" := VStr "Generating AI person..."]>
          (stage_status "gen-1" 1 "processing")).

Definition sample_failed_submission : event :=
  SubmitTextToImage (TextToImage (VStr "a woman in her 20s") "" 1080 1440 50)
                    (Raise service_down).

(** *** Reasoning about runs *)

(** [wp c Q E tr]: run from [tr], [c] returns with [Q] or raises with [E]. *)
Definition wp {A} (c : M trace A) (Q : A -> trace -> Prop)
    (E : exn -> trace -> Prop) (tr : trace) : Prop :=
  match c tr with
  | (tr', Ok a) => Q a tr'
  | (tr', Raise e) => E e tr'
  end.

(** [c] only adds events, and only events that satisfy [N]. *)
Definition appends {A} (c : M trace A) (N : event -> Prop) : Prop :=
  forall tr, exists l, fst (c tr) = (tr ++ l)%list /\ Forall N l.

(** [c] never raises. *)
Definition total {A} (c : M trace A) : Prop :=
  forall tr, exists a, snd (c tr) = Ok a.

(** Nothing failed before the run raised [e], or the last thing it did was
    the submission, wait or upload that raised [e]. *)
Definition failed_with (e : exn) (tr : trace) : Prop :=
  clean tr \/
  exists tr0 ev, tr = (tr0 ++ [ev])%list /\ clean tr0 /\ critical_failure ev = Some e.

(** The invariant of a run, while it goes on and after it raised [e]. *)
Definition on_track (chained : bool) (tr : trace) : Prop :=
  ordered chained tr /\ clean tr.

Definition derailed (chained : bool) (e : exn) (tr : trace) : Prop :=
  ordered chained tr /\ failed_with e tr.

(** The steps of an entry point keep the order of events and stop at the
    first failure. *)
Definition well_behaved {A} (chained : bool) (steps : M trace A) : Prop :=
  wp steps (fun _ => on_track chained) (derailed chained) [].

(** How two results compare: values related by [R], or the same exception. *)
Definition same_outcome {A B} (R : A -> B -> Prop) (r1 : result A) (r2 : result B)
    : Prop :=
  match r1, r2 with
  | Ok a, Ok b => R a b
  | Raise e1, Raise e2 => e1 = e2
  | _, _ => False
  end.

(** [c2] does what [c1] does, as far as [obs] shows it: started from what
    [obs] shows of a trace, [c2] ends with what [obs] shows of the trace
    [c1] ends with, and with the same outcome. *)
Definition sim {A B} (obs : trace -> trace) (R : A -> B -> Prop)
    (c1 : M trace A) (c2 : M trace B) : Prop :=
  forall tr,
    obs (fst (c1 tr)) = fst (c2 (obs tr)) /\
    same_outcome R (snd (c1 tr)) (snd (c2 (obs tr))).

End PipelineOrchestrator.

(** * Vocabulary of the properties *)

(** The exception types [_is_timeout_error] tests for. *)
Definition declared_timeout_type (c : exc_class) : bool :=
  (is_asyncio_TimeoutError c || is_builtin_TimeoutError c
   || is_httpx_TimeoutException c)%bool.

(** A classification as the webhook consumer expects it: the five keys, and
    the refund and retry flags tied to the error type. *)
Definition well_formed_info (d : dict) : Prop :=
  exists (t : ErrorType) (msg details : string) (refundable retry : bool),
    d !! "error_type" = Some (VErrorType t) /\
    d !! "error_message" = Some (VStr msg) /\
    d !! "is_refundable" = Some (VBool refundable) /\
    d !! "can_retry" = Some (VBool retry) /\
    d !! "technical_details" = Some (VStr details) /\
    dom d = ({[ "error_type"; "error_message"; "is_refundable"; "can_retry";
                "technical_details" ]} : gset string) /\
    (refundable = false <-> t = VALIDATION_ERROR \/ t = USER_ERROR) /\
    (retry = false <-> t = USER_ERROR).

(** How often a run has called each provider's submission. *)
Definition kie_submissions (cs : list call) : nat :=
  List.length (List.filter (fun c => match c with KieSubmit _ => true | _ => false end) cs).

Definition fal_submissions (cs : list call) : nat :=
  List.length (List.filter (fun c => match c with FalSubmit _ => true | _ => false end) cs).

(** The primary attempt of a fallback run failed: the Kie.ai submission,
    started in world [w], took longer than [timeout] or raised. *)
Definition primary_failed (run : world * result dict) (w : world) (timeout : Z) : Prop :=
  (timeout < now (fst run) - now w)%Z \/ exists e, snd run = Raise e.

(** The text [submit_veo3_job] records for a failed primary attempt. *)
Definition primary_error_text (run : world * result dict) (w : world)
    (timeout : Z) : string :=
  match snd run with
  | Ok _ => "Kie.ai timed out after " ++ pretty timeout ++ "s"
  | Raise e =>
      if ((timeout <? now (fst run) - now w)%Z
          || is_asyncio_TimeoutError (exn_class e))%bool
      then "Kie.ai timed out after " ++ pretty timeout ++ "s"
      else "Kie.ai failed: " ++ exn_str e
  end.

(** The world in which the fallback starts: the primary call has been made;
    if it ran out of time the clock stands at the deadline. *)
Definition after_primary (run : world * result dict) (w : world) (timeout : Z) : world :=
  if (now (fst run) - now w <=? timeout)%Z then fst run
  else World (now w + timeout) (calls (fst run)).

(** ** Sample collaborators

    Concrete provider behaviours, on which the general statements are
    exercised. *)

Definition still_processing : Z * result dict :=
  (1%Z, Ok (<["result_url" := VNone]> (<["status" := VStr "PROCESSING"]> ∅))).

(** Kie.ai answers a submission after [kie_latency]; Fal.ai after 3. *)
Definition sample_providers (kie_latency : Z) (kie_reply fal_reply : result dict)
    : providers :=
  {| kie_submit_image_to_video_job := fun _ _ => (kie_latency, kie_reply);
     fal_submit_image_to_video_job := fun _ _ => (3%Z, fal_reply);
     kie_check_status := fun _ _ _ => still_processing;
     fal_check_status := fun _ _ _ => still_processing |}.

Definition job (job_id : string) : result dict :=
  Ok (<["job_id" := VStr job_id]> ∅).

(** Scenario A: the primary answers in 2 (the timeout will be 60). *)
Definition scenario_A : providers := sample_providers 2 (job "kie_abc123") (job "fal_xyz789").

(** Scenario B: the primary has not answered after 60. *)
Definition scenario_B : providers := sample_providers 75 (job "kie_abc123") (job "fal_xyz789").

(** Both providers refuse the job. *)
Definition scenario_both_fail : providers :=
  sample_providers 1 (Raise (Exception "Kie.ai API error (500): upstream down"))
                     (Raise (Exn HttpxConnectError "connection refused")).

Definition idle : world := World 0 [].

(** The requests [submit_veo3_job] builds in the scenarios. *)
Definition sample_kie_request : request :=
  Request "https://bucket/composite.png" "wave" ""
    (<["enable_translation" := VBool true]>
     (<["aspect_ratio" := VStr "9:16"]>
     (<["use_fast" := VBool false]> ∅))) None.

Definition sample_fal_request : request :=
  Request "https://bucket/composite.png" "wave" ""
    (<["use_fast" := VBool false]>
     (<["aspect_ratio" := VStr "9:16"]>
     (<["duration" := VInt 8]> ∅))) None.

(** What the Kie.ai submission of scenario A leaves behind and returns. *)
Definition scenario_A_world : world := World 2 [KieSubmit sample_kie_request].

Definition scenario_A_result : dict :=
  <["estimated_time" := VInt 240]>
  (<["provider" := VStr "kie"]>
  (<["job_id" := VStr "kie_abc123"]> ∅)).

(** What the Fal.ai submission of scenario B returns, and the whole run. *)
Definition scenario_B_fallback : dict :=
  <["estimated_time" := VInt 240]>
  (<["provider" := VStr "fal"]>
  (<["job_id" := VStr "fal_xyz789"]> ∅)).

Definition scenario_B_world : world :=
  World 63 [KieSubmit sample_kie_request; FalSubmit sample_fal_request].

Definition scenario_B_result : dict :=
  <["primary_error" := VStr "Kie.ai timed out after 60s"]>
  (<["primary_provider" := VStr "kie"]>
  (<["fallback_triggered" := VBool true]> scenario_B_fallback)).

(** A key of the dictionary a run returned, if it returned one. *)
Definition returned {S} (run : S * result dict) (key : string) : option pyval :=
  match snd run with
  | Ok d => d !! key
  | Raise _ => None
  end.

(** The exception a run raised, if it raised. *)
Definition raised {S A} (run : S * result A) : option exn :=
  match snd run with
  | Ok _ => None
  | Raise e => Some e
  end.

(** ** Polling *)

(** A status dictionary that says COMPLETED but carries no result URL: the
    key is missing, or its value is [None] or empty. *)
Definition completed_without_url (status_data : dict) : Prop :=
  status_data !! "status" = Some (VStr "COMPLETED") /\
  match status_data !! "result_url" with
  | Some v => truthy v = false
  | None => True
  end.

(** Every reply of the providers' status checks takes some time, never
    less than none. *)
Definition latencies_nonneg (p : providers) : Prop :=
  forall t job_id model,
    (0 <= fst (kie_check_status p t job_id model))%Z /\
    (0 <= fst (fal_check_status p t job_id model))%Z.

(** The exceptions with which the polling loops give up at the deadline. *)
Definition fal_timed_out (job_id : string) (timeout : Z) : exn :=
  Exception ("Fal.ai job " ++ job_id ++ " timed out after " ++ pretty timeout ++ "s").

Definition veo3_timed_out (job_id : string) (timeout : Z) : exn :=
  Exception ("Veo3 job " ++ job_id ++ " timed out after " ++ pretty timeout ++ "s").

(** A provider whose status checks take 1 and always say PROCESSING. *)
Definition never_done : providers := scenario_A.

(** A provider that reports a finished job without a URL from time 10 on. *)
Definition done_without_url : providers :=
  let status := fun (t : Z) (_ _ : string) =>
    if (t <? 10)%Z then still_processing
    else (1%Z, Ok (<["result_url" := VNone]> (<["status" := VStr "COMPLETED"]> ∅))) in
  {| kie_submit_image_to_video_job := fun _ _ => (2%Z, job "kie_abc123");
     fal_submit_image_to_video_job := fun _ _ => (3%Z, job "fal_xyz789");
     kie_check_status := status;
     fal_check_status := status |}.

(** Where the sample polling runs stand when their last round begins. *)
Definition never_done_last_round : world :=
  World 62 [KieStatus "job-1" "veo3"; Sleep 30; KieStatus "job-1" "veo3"; Sleep 30].

Definition no_url_round (probe : call) (interval : Z) : world :=
  World (1 + interval) [probe; Sleep interval].

Definition no_url_status : dict :=
  <["result_url" := VNone]> (<["status" := VStr "COMPLETED"]> ∅).

(** ** [app/services/providers/orchestrator.py] *)

Module ProviderOrchestrator.

(** [self.kie] and [self.fal] *)
Inductive provider_instance := Kie | Fal.

#[global] Instance provider_instance_eq_dec : EqDecision provider_instance.
Proof. solve_decision. Defined.

Definition _get_provider (name : string) : result provider_instance :=
  if String.eqb (lower name) "kie" then Ok Kie
  else if String.eqb (lower name) "fal" then Ok Fal
  else Raise (Exn ValueError
                ("Unknown provider: " ++ name ++ ". Must be 'kie' or 'fal'")).

Section Orchestrator.

Variable self : providers.

(** [provider.submit_image_to_video_job(request)] and
    [provider.check_status(job_id, model)] on either instance. *)
Definition submit_image_to_video_job (provider : provider_instance)
    (request : request) : M world dict :=
  match provider with
  | Kie => await_call (KieSubmit request)
                      (fun t => kie_submit_image_to_video_job self t request)
  | Fal => await_call (FalSubmit request)
                      (fun t => fal_submit_image_to_video_job self t request)
  end.

Definition check_status (provider : provider_instance) (job_id model : string)
    : M world dict :=
  match provider with
  | Kie => await_call (KieStatus job_id model)
                      (fun t => kie_check_status self t job_id model)
  | Fal => await_call (FalStatus job_id model)
                      (fun t => fal_check_status self t job_id model)
  end.

(** The first [try] block of [submit_image_to_video_job_with_fallback]
    returns to the caller ([Some]) or falls through to the fallback
    ([None]); both [except] clauses only print. *)
Definition try_primary (primary : provider_instance) (request : request)
    (primary_provider : string) (timeout_seconds : Z) : M world (option dict) :=
  try_except
    (result <- wait_for (submit_image_to_video_job primary request) timeout_seconds ;;
     ret (Some (<["fallback_triggered" := VBool false]>
                (<["provider_used" := VStr primary_provider]> result))))
    (fun e => ret None).

Definition submit_image_to_video_job_with_fallback (request : request)
    (primary_provider fallback_provider : string) (timeout_seconds : Z)
    : M world dict :=
  primary <- lift (_get_provider primary_provider) ;;
  fallback_prov <- lift (_get_provider fallback_provider) ;;
  attempt <- try_primary primary request primary_provider timeout_seconds ;;
  match attempt with
  | Some result => ret result
  | None =>
      try_except
        (result <- submit_image_to_video_job fallback_prov request ;;
         ret (<["primary_provider" := VStr primary_provider]>
              (<["fallback_triggered" := VBool true]>
              (<["provider_used" := VStr fallback_provider]> result))))
        (fun e =>
           raise (Exception
             ("All providers failed for video generation. Primary (" ++
              primary_provider ++ ") and " ++
              "fallback (" ++ fallback_provider ++ ") both errored: " ++ exn_str e)))
  end.

Definition check_status_any_provider (job_id provider model : string) : M world dict :=
  provider_instance <- lift (_get_provider provider) ;;
  check_status provider_instance job_id model.

End Orchestrator.

End ProviderOrchestrator.

(** ** [app/services/providers/n8n_prompt_builder.py]

    The builders of the video stage, on [str] arguments. *)

Module N8nPromptBuilder.

Definition VIDEO_CAMERA_KEYWORDS : string :=
  "amateur iphone selfie video, unremarkable amateur iPhone video, snapchat video, Casual iPhone selfie video, slightly uneven framing, Authentic share, slightly shaky camera, Amateur quality phone video".

(** ["\n".join(prompt_lines)] *)
Definition join_lines (prompt_lines : list string) : string :=
  String.concat Veo3Provider.newline prompt_lines.

(** [product_type] is accepted and not used. *)
Definition build_video_prompt (dialogue action emotion character_description
    product_type : string) : string :=
  let action :=
    if String.eqb action "" then
      "character sits holding the product casually while speaking"
    else action in
  let prompt_lines :=
    [ "dialogue: " ++ dialogue;
      "action: " ++ action;
      "camera: " ++ VIDEO_CAMERA_KEYWORDS ++ ", natural daylight";
      "emotion: " ++ emotion ++ ", casual and authentic";
      "character: " ++ character_description;
      "motion: MINIMAL - character completely still except for talking, mouth movement only, hands frozen in position holding product";
      "product_movement: product stays STATIONARY in hand, absolutely no movement";
      "body: body position FROZEN, only facial expressions change through face and voice";
      "pacing: SLOW and STEADY to avoid artifacts" ] in
  join_lines prompt_lines.

(** [templates.get(key, default)] on the dictionary literal of
    [generate_casual_dialogue]. *)
Fixpoint templates_get (templates : list (string * list string)) (key : string)
    (dflt : list string) : list string :=
  match templates with
  | [] => dflt
  | (k, options) :: rest =>
      if String.eqb k key then options else templates_get rest key dflt
  end.

Definition generate_casual_dialogue (product_type brand_name : string) : string :=
  (* brand_name + ' ' if brand_name else '' *)
  let brand := if String.eqb brand_name "" then "" else brand_name ++ " " in
  let templates :=
    [ ("drink",
       [ "okay so... " ++ brand ++ "this is actually really good... super refreshing";
         "so I tried this and... honestly tastes amazing... would definitely recommend";
         "this has been my go-to lately... the flavor is just perfect" ]);
      ("beverage",
       [ "okay so... " ++ brand ++ "this is actually really good... super refreshing";
         "so I tried this and... honestly tastes amazing... would definitely recommend" ]);
      ("bag",
       [ "so I got this bag and... it fits everything I need... love the design";
         "okay so this bag... super practical and looks really good... been using it every day" ]);
      ("accessory",
       [ "so I got this and... honestly love it... goes with everything";
         "okay so... " ++ brand ++ "this is actually perfect... really good quality" ]);
      ("tech",
       [ "so I tried this out and... works really well... super easy to use";
         "okay so... " ++ brand ++ "this is actually pretty cool... the features are great" ]);
      ("skincare",
       [ "so I've been using this and... my skin feels so much better... highly recommend";
         "okay so... " ++ brand ++ "this has been amazing... texture is so good" ]);
      ("beauty",
       [ "so I tried this and... honestly really impressed... the results are great";
         "okay so... this is actually really good... been using it for weeks now" ]);
      ("food",
       [ "so I tried this and... honestly so good... you need to try it";
         "okay so... " ++ brand ++ "this is actually delicious... highly recommend" ]) ] in
  let default :=
    [ "so I got this and... honestly really love it... would definitely recommend";
      "okay so... " ++ brand ++ "this is actually really good... been using it a lot" ] in
  let dialogue_options := templates_get templates (lower product_type) default in
  (* dialogue_options[0]: every list of the literal has a first element *)
  hd "" dialogue_options.

End N8nPromptBuilder.
(** ** JSON values

    What [response.json()] and [json.loads] give, and what the Fal.ai SDK
    hands back as the result of a job: [None], [bool], [int], [float], [str],
    [list] and [dict] values, the dictionaries with [str] keys. *)

From Stdlib Require Floats.

Module Json.

#[warnings="-register-all"]
Inductive json :=
  | JNull
  | JBool (b : bool)
  | JInt (n : Z)
  | JFloat (x : PrimFloat.float)
  | JStr (s : string)
  | JList (items : list json)
  | JDict (entries : gmap string json).

(** [type(v).__name__] *)
Definition type_name (v : json) : string :=
  match v with
  | JNull => "NoneType"
  | JBool _ => "bool"
  | JInt _ => "int"
  | JFloat _ => "float"
  | JStr _ => "str"
  | JList _ => "list"
  | JDict _ => "dict"
  end.

(** [if v:] *)
Definition truth (v : json) : bool :=
  match v with
  | JNull => false
  | JBool b => b
  | JInt n => negb (n =? 0)%Z
  | JFloat x => negb (PrimFloat.eqb x PrimFloat.zero)
  | JStr s => negb (String.eqb s "")
  | JList items => match items with [] => false | _ :: _ => true end
  | JDict entries => negb (Nat.eqb (size entries) 0)
  end.

(** [v == n] for one of the [int] constants [n] the code compares with
    (0, 1 and 200): an [int] or a [float] of that value, and [True] for 1,
    [False] for 0. *)
Definition eq_int (v : json) (n : Z) : bool :=
  match v with
  | JInt m => (m =? n)%Z
  | JFloat x => PrimFloat.eqb x (PrimFloat.of_uint63 (Uint63.of_Z n))
  | JBool b => ((if b then 1 else 0) =? n)%Z
  | _ => false
  end.

(** [v == s] for a [str] [s] *)
Definition eq_str (v : json) (s : string) : bool :=
  match v with
  | JStr t => String.eqb t s
  | _ => false
  end.

(** [key in v] for a [str] [key]: a key of a dictionary, an item of a list,
    a part of a string. *)
Definition contains (v : json) (key : string) : result bool :=
  match v with
  | JDict entries => Ok (bool_decide (is_Some (entries !! key)))
  | JList items => Ok (existsb (fun item => eq_str item key) items)
  | JStr s => Ok (str_in key s)
  | _ => Raise (Exn TypeError
                  ("argument of type '" ++ type_name v ++ "' is not iterable"))
  end.

(** [v.get(key, dflt)] *)
Definition get (v : json) (key : string) (dflt : json) : result json :=
  match v with
  | JDict entries => Ok (default dflt (entries !! key))
  | _ => Raise (Exn AttributeError
                  ("'" ++ type_name v ++ "' object has no attribute 'get'"))
  end.

(** [v.lower()] *)
Definition lower_of (v : json) : result string :=
  match v with
  | JStr s => Ok (lower s)
  | _ => Raise (Exn AttributeError
                  ("'" ++ type_name v ++ "' object has no attribute 'lower'"))
  end.

(** The first character of a string in UTF-8: its first byte and the
    continuation bytes that follow it. *)
Fixpoint continuation (s : string) : string :=
  match s with
  | EmptyString => EmptyString
  | String c s' =>
      let n := nat_of_ascii c in
      if (Nat.leb 128 n && Nat.leb n 191)%bool then String c (continuation s')
      else EmptyString
  end.

Definition first_char (s : string) : string :=
  match s with
  | EmptyString => EmptyString
  | String c s' => String c (continuation s')
  end.

(** [v[0] if v and len(v) > 0 else None]: a value that is true and has no
    length raises [TypeError]; a dictionary has no key [0]. *)
Definition first_or_none (v : json) : result json :=
  if negb (truth v) then Ok JNull
  else
    match v with
    | JList (item :: _) => Ok item
    | JStr s => Ok (JStr (first_char s))
    | JDict _ => Raise (Exn KeyError "0")
    | _ => Raise (Exn TypeError
                    ("object of type '" ++ type_name v ++ "' has no len()"))
    end.

Section Text.

(** [repr(v)] for a [float], a [list] or a [dict], whose digits, quotes and
    order of keys are not modelled. *)
Variable repr : json -> string.

(** [str(v)], as an f-string formats a value. *)
Definition str (v : json) : string :=
  match v with
  | JNull => "None"
  | JBool true => "True"
  | JBool false => "False"
  | JInt n => pretty n
  | JStr s => s
  | JFloat _ | JList _ | JDict _ => repr v
  end.

End Text.

Section Loads.

(** The JSON decoder on a [str]: the value, or the exception raised
    ([json.JSONDecodeError] on text that is not JSON). *)
Variable loads : string -> result json.

(** [json.loads(v)] *)
Definition json_loads (v : json) : result json :=
  match v with
  | JStr s => loads s
  | _ => Raise (Exn TypeError
                  ("the JSON object must be str, bytes or bytearray, not " ++
                   type_name v))
  end.

End Loads.

(** [try: r  except json.JSONDecodeError: dflt] *)
Definition except_JSONDecodeError {A} (r : result A) (dflt : A) : result A :=
  match r with
  | Ok a => Ok a
  | Raise e =>
      match exn_class e with
      | JSONDecodeError => Ok dflt
      | _ => Raise e
      end
  end.

(** [r >>= k] on results. *)
Definition and_then {A B} (r : result A) (k : A -> result B) : result B :=
  match r with
  | Ok a => k a
  | Raise e => Raise e
  end.

End Json.
(** ** [app/services/providers/fal_provider.py]: the calls to the SDK

    [FalProvider] talks to Fal.ai through [fal_client.AsyncClient].  What the
    SDK answers is taken as given; a run is the list of its calls to the
    SDK, each with its outcome. *)

Module FalClient.

(** What a caller hands over as a prompt or an image URL: a value, or an
    object of some class that is neither (the text-to-image route passes its
    request object). *)
Inductive argument :=
  | Value (v : pyval)
  | Object (class_name : string).

#[global] Instance argument_eq_dec : EqDecision argument.
Proof. solve_decision. Defined.

(** [if x:] *)
Definition given (x : argument) : bool :=
  match x with
  | Value v => truthy v
  | Object _ => true
  end.

(** [x[:100]], sliced for a log line: [str] and [list] values can be
    sliced, the other types raise [TypeError]. *)
Definition first_100 (x : argument) : result unit :=
  let not_subscriptable name :=
    Raise (Exn TypeError ("'" ++ name ++ "' object is not subscriptable")) in
  match x with
  | Value (VStr _) | Value (VStrList _) | Value (VErrorType _) => Ok tt
  | Value VNone => not_subscriptable "NoneType"
  | Value (VBool _) => not_subscriptable "bool"
  | Value (VInt _) => not_subscriptable "int"
  | Value VElapsed => not_subscriptable "float"
  | Object class_name => not_subscriptable class_name
  end.

(** The [arguments] of a submission.  The float [guidance_scale] and the
    constants [num_images] and [enable_safety_checker], the same at every
    call, are left out. *)
Inductive fal_arguments :=
  | TextToImageArguments (prompt : argument) (width height num_inference_steps : Z)
      (negative_prompt : option string)
  | ImageEditArguments (prompt : argument) (image_urls : list argument)
  | ImageToVideoArguments (prompt image_url : string) (aspect_ratio duration : pyval).

#[global] Instance fal_arguments_eq_dec : EqDecision fal_arguments.
Proof. solve_decision. Defined.

(** What [client.status(model, job_id)] gives: an object of one of the
    status classes of the SDK.  Of a failed job only [str(status_obj.error)]
    and [str(status_obj.message)] are read, where the object has such an
    attribute. *)
Record status_object := StatusObject {
  class_name : string;
  error_text : option string;
  message_text : option string
}.

(** [client.submit(endpoint, arguments=..., webhook_url=...)] gives a handle,
    of which only [request_id] is read; [client.status(model, job_id)] gives
    a status object; [client.result(model, job_id)] gives the decoded JSON
    of the result. *)
Record client := Client {
  submit : string -> fal_arguments -> option string -> result string;
  status : string -> string -> result status_object;
  result_of : string -> string -> result Json.json
}.

Inductive sdk_call :=
  | Submit (endpoint : string) (arguments : fal_arguments)
      (webhook_url : option string) (outcome : result string)
  | Status (model job_id : string) (outcome : result status_object)
  | Result (model job_id : string) (outcome : result Json.json).

Definition await_sdk {A} (c : result A -> sdk_call) (outcome : result A)
    : M (list sdk_call) A :=
  fun calls => ((calls ++ [c outcome])%list, outcome).

(** [f"{system_prompt}\n\n{user_prompt}"], whatever the system prompt is. *)
Definition format_prompt (user_prompt system_prompt : string) : string :=
  system_prompt ++ Veo3Provider.newline ++ Veo3Provider.newline ++ user_prompt.

Section Fal.

Variable self : client.

Definition submit_image_to_video_job (request : request)
    : M (list sdk_call) dict :=
  let full_prompt := format_prompt (prompt request) (system_prompt request) in
  let use_fast := dict_get (parameters request) "use_fast" (VBool false) in
  let aspect_ratio := dict_get (parameters request) "aspect_ratio" (VStr "9:16") in
  let duration := dict_get (parameters request) "duration" (VInt 8) in
  let fal_arguments :=
    ImageToVideoArguments full_prompt (image_url request) aspect_ratio duration in
  let model_endpoint :=
    if truthy use_fast then "fal-ai/veo3.1/fast/image-to-video"
    else "fal-ai/veo3.1/image-to-video" in
  request_id <- await_sdk (Submit model_endpoint fal_arguments (webhook_url request))
                  (submit self model_endpoint fal_arguments (webhook_url request)) ;;
  ret (<["estimated_time" := VInt (if truthy use_fast then 120 else 240)]>
       (<["job_id" := VStr request_id]> ∅)).

(** The class body of [FalProvider] defines [submit_text_to_image_job]
    twice.  The second definition, the one with the interface of the
    Seedream provider, replaces the first: this is the method every caller
    gets. *)
Definition submit_text_to_image_job (prompt : argument) (negative_prompt : string)
    (width height num_inference_steps : Z) (webhook_url : option string)
    : M (list sdk_call) dict :=
  try_except
    (lift (first_100 prompt) ;;;
     let fal_arguments :=
       TextToImageArguments prompt width height num_inference_steps
         (if String.eqb negative_prompt "" then None else Some negative_prompt) in
     let endpoint := "fal-ai/bytedance/seedream/v4/text-to-image" in
     request_id <- await_sdk (Submit endpoint fal_arguments webhook_url)
                     (submit self endpoint fal_arguments webhook_url) ;;
     ret (<["estimated_time" := VInt 25]>
          (<["status" := VStr "processing"]>
          (<["provider" := VStr "fal"]>
          (<["job_id" := VStr request_id]> ∅)))))
    (fun e => raise (Exception ("Fal Seedream text-to-image failed: " ++ exn_str e))).

Definition submit_image_edit_job (base_image_url prompt overlay_image_url : argument)
    (webhook_url : option string) : M (list sdk_call) dict :=
  try_except
    (lift (first_100 prompt) ;;;
     let image_urls :=
       if given overlay_image_url then [base_image_url; overlay_image_url]
       else [base_image_url] in
     let fal_arguments := ImageEditArguments prompt image_urls in
     let endpoint := "fal-ai/bytedance/seedream/v4/edit" in
     request_id <- await_sdk (Submit endpoint fal_arguments webhook_url)
                     (submit self endpoint fal_arguments webhook_url) ;;
     ret (<["estimated_time" := VInt 30]>
          (<["status" := VStr "processing"]>
          (<["provider" := VStr "fal"]>
          (<["job_id" := VStr request_id]> ∅)))))
    (fun e => raise (Exception ("Fal Seedream image-edit failed: " ++ exn_str e))).

(** *** The status of a job *)

(** The dictionaries [check_status] returns. *)
Definition status_dict (status : string) (result_url error : Json.json)
    : gmap string Json.json :=
  <["error" := error]>
  (<["result_url" := result_url]>
  (<["status" := Json.JStr status]> ∅)).

Definition processing : gmap string Json.json :=
  status_dict "PROCESSING" Json.JNull Json.JNull.

Section Result.

Variable repr : Json.json -> string.

(** [d.get('url')] of a value that is a dictionary, if it is true. *)
Definition url_of (data : Json.json) : option Json.json :=
  match data with
  | Json.JDict entries =>
      let url := default Json.JNull (entries !! "url") in
      if Json.truth url then Some url else None
  | _ => None
  end.

(** The URL in the result of a finished job: of the first image, of the
    single image, of the video, or the result's own.  The source goes on to
    look for attributes [images], [image] and [video] on the result; the
    values of JSON have none of them. *)
Definition result_url_of (result : Json.json) : Json.json :=
  match result with
  | Json.JDict entries =>
      let images_data := default (Json.JList []) (entries !! "images") in
      let result_url :=
        match images_data with
        | Json.JList (Json.JDict first :: _) => default Json.JNull (first !! "url")
        | Json.JList (first :: _) => Json.JStr (Json.str repr first)
        | _ => Json.JNull
        end in
      let result_url :=
        if negb (Json.truth result_url) then
          match url_of (default (Json.JDict ∅) (entries !! "image")) with
          | Some url => url
          | None => result_url
          end
        else result_url in
      let result_url :=
        if negb (Json.truth result_url) then
          match url_of (default (Json.JDict ∅) (entries !! "video")) with
          | Some url => url
          | None => result_url
          end
        else result_url in
      if negb (Json.truth result_url) then default Json.JNull (entries !! "url")
      else result_url
  | _ => Json.JNull
  end.

Definition check_status (job_id model : string)
    : M (list sdk_call) (gmap string Json.json) :=
  try_except
    (status_obj <- await_sdk (Status model job_id) (status self model job_id) ;;
     let status_type := class_name status_obj in
     if String.eqb status_type "Completed" then
       result <- await_sdk (Result model job_id) (result_of self model job_id) ;;
       ret (status_dict "COMPLETED" (result_url_of result) Json.JNull)
     else if (String.eqb status_type "InProgress"
              || String.eqb status_type "InQueue")%bool then
       ret processing
     else if String.eqb status_type "Failed" then
       let error_msg :=
         match error_text status_obj, message_text status_obj with
         | Some text, _ => text
         | None, Some text => text
         | None, None => "Generation failed"
         end in
       ret (status_dict "FAILED" Json.JNull (Json.JStr error_msg))
     else ret processing)
    (fun e => ret processing).

End Result.

End Fal.

End FalClient.
(** ** [app/services/providers/kie_provider.py]: the status of a job

    [KieProvider] talks to Kie.ai over HTTP.  What the service answers is
    taken as given; a run is the list of its exchanges with the service, each
    with its outcome. *)

Module KieClient.

Import Json.

(** An HTTP response: [response.status_code], [response.text] and what
    [response.json()] gives or raises. *)
Record response := Response {
  status_code : Z;
  text : string;
  body : result json
}.

(** The JSON body of a Veo3 submission. *)
Record payload := Payload {
  payload_prompt : string;
  imageUrls : list string;
  payload_model : string;
  aspectRatio : pyval;
  generationType : string;
  enableTranslation : pyval;
  callBackUrl : option string
}.

(** [client.get(endpoint, headers=..., params={"taskId": job_id})] and
    [client.post(endpoint, headers=..., json=payload)]: the response, or the
    exception of the transport. *)
Record http := Http {
  http_get : string -> string -> result response;
  http_post : string -> payload -> result response
}.

Inductive exchange :=
  | Get (endpoint job_id : string) (outcome : result response)
  | Post (endpoint : string) (body : payload) (outcome : result response).

Definition await_http {A} (sent : result A -> exchange) (outcome : result A)
    : M (list exchange) A :=
  fun exchanges => ((exchanges ++ [sent outcome])%list, outcome).

Definition base_url : string := "https://api.kie.ai/api/v1".

(** The dictionaries [check_status] returns. *)
Abbreviation status_dict := (gmap string json).

Definition completed (result_url : json) : status_dict :=
  <["result_url" := result_url]> (<["status" := JStr "COMPLETED"]> ∅).

Definition processing : status_dict :=
  <["result_url" := JNull]> (<["status" := JStr "PROCESSING"]> ∅).

Definition failed (error : json) : status_dict :=
  <["error" := error]> (<["result_url" := JNull]> (<["status" := JStr "FAILED"]> ∅)).

(** [if system_prompt: return f"{system_prompt}\n\n{user_prompt}"] *)
Definition format_prompt (user_prompt system_prompt : string) : string :=
  if negb (String.eqb system_prompt "") then
    system_prompt ++ Veo3Provider.newline ++ Veo3Provider.newline ++ user_prompt
  else user_prompt.

Section Kie.

Variable self : http.
Variable loads : string -> result json.
Variable repr : json -> string.

(** *** Submission *)

Definition submit_image_to_video_job (request : request)
    : M (list exchange) status_dict :=
  let full_prompt := format_prompt (prompt request) (system_prompt request) in
  let use_fast := dict_get (parameters request) "use_fast" (VBool true) in
  let aspect_ratio := dict_get (parameters request) "aspect_ratio" (VStr "9:16") in
  let enable_translation :=
    dict_get (parameters request) "enable_translation" (VBool true) in
  let payload :=
    {| payload_prompt := full_prompt;
       imageUrls := [image_url request];
       payload_model := if truthy use_fast then "veo3_fast" else "veo3";
       aspectRatio := aspect_ratio;
       generationType := "FIRST_AND_LAST_FRAMES_2_VIDEO";
       enableTranslation := enable_translation;
       callBackUrl :=
         match webhook_url request with
         | Some url => if String.eqb url "" then None else Some url
         | None => None
         end |} in
  let endpoint := base_url ++ "/veo/generate" in
  response <- await_http (Post endpoint payload) (http_post self endpoint payload) ;;
  if negb (status_code response =? 200)%Z then
    raise (Exception ("Kie.ai API error (" ++ pretty (status_code response) ++ "): " ++
                      text response))
  else
    result <- lift (body response) ;;
    code <- lift (get result "code" JNull) ;;
    if negb (eq_int code 200) then
      error_msg <- lift (get result "msg" (JStr "Unknown error")) ;;
      raise (Exception ("Kie.ai error: " ++ str repr error_msg))
    else
      data <- lift (get result "data" (JDict ∅)) ;;
      task_id <- lift (get data "taskId" JNull) ;;
      if negb (truth task_id) then
        raise (Exception ("No taskId in Kie.ai response: " ++ str repr result))
      else
        ret (<["estimated_time" := JInt (if truthy use_fast then 120 else 240)]>
             (<["job_id" := task_id]> ∅)).

(** *** The status of a job *)

(** The Veo3 format of [data]: [successFlag] says how the task stands. *)
Definition read_veo3_format (data : json) : result status_dict :=
  and_then (get data "successFlag" JNull) (fun success_flag =>
  if eq_int success_flag 1 then
    and_then (get data "response" (JDict ∅)) (fun response_data =>
    and_then (get response_data "resultUrls" (JList [])) (fun result_urls =>
    and_then (first_or_none result_urls) (fun result_url =>
    Ok (completed result_url))))
  else if eq_int success_flag 0 then
    and_then (get data "errorCode" JNull) (fun error_code =>
    if truth error_code then
      and_then (get data "errorMessage" (JStr "Unknown error")) (fun error_msg =>
      Ok (failed error_msg))
    else Ok processing)
  else Ok processing).

(** The older format of [data]: [state] says how the task stands. *)
Definition read_state_format (data : json) : result status_dict :=
  and_then (get data "state" (JStr "")) (fun state =>
  and_then (lower_of state) (fun state =>
  if String.eqb state "success" then
    and_then (get data "resultJson" (JStr "{}")) (fun result_json_str =>
    and_then
      (except_JSONDecodeError
         (and_then (json_loads loads result_json_str) (fun result_data =>
          and_then (get result_data "resultUrls" (JList [])) (fun result_urls =>
          first_or_none result_urls)))
         JNull)
      (fun result_url => Ok (completed result_url)))
  else if (String.eqb state "waiting" || String.eqb state "queuing"
           || String.eqb state "generating")%bool then
    Ok processing
  else if String.eqb state "fail" then
    and_then (get data "failCode" (JStr "")) (fun fail_code =>
    and_then (get data "failMsg" (JStr "Unknown error")) (fun fail_msg =>
    let error_msg :=
      if truth fail_code then JStr (str repr fail_code ++ ": " ++ str repr fail_msg)
      else fail_msg in
    Ok (failed error_msg)))
  else Ok processing)).

(** What [check_status] makes of the response. *)
Definition read_status (response : response) : result status_dict :=
  if negb (status_code response =? 200)%Z then
    Ok (failed (JStr ("Kie.ai status check failed: " ++ text response)))
  else
    and_then (body response) (fun result =>
    and_then (get result "code" JNull) (fun code =>
    if negb (eq_int code 200) then
      and_then (get result "message" (JStr "Unknown error")) (fun error_msg =>
      Ok (failed error_msg))
    else
      and_then (get result "data" (JDict ∅)) (fun data =>
      and_then (contains data "successFlag") (fun veo3_format =>
      if veo3_format then read_veo3_format data
      else read_state_format data)))).

Definition status_endpoint (model : string) : string :=
  let is_veo3_task := str_in "veo" (lower model) in
  if is_veo3_task then base_url ++ "/veo/record-info"
  else base_url ++ "/jobs/recordInfo".

Definition check_status (job_id model : string) : M (list exchange) status_dict :=
  let endpoint := status_endpoint model in
  response <- await_http (Get endpoint job_id) (http_get self endpoint job_id) ;;
  lift (read_status response).

(** [get_status] is an alias. *)
Definition get_status (job_id model : string) : M (list exchange) status_dict :=
  check_status job_id model.

End Kie.

End KieClient.
(** ** [app/main.py] and [app/api/routes/generate.py]

    A route handler, like the authentication dependency, ends by returning
    a value or by raising [HTTPException(status_code, detail)], which FastAPI
    turns into the response of that status. *)

Inductive outcome (A : Type) :=
  | Returns (a : A)
  | HTTPException (status_code : Z) (detail : string).
Arguments Returns {A} a.
Arguments HTTPException {A} status_code detail.

#[global] Instance outcome_eq_dec {A} `{EqDecision A} : EqDecision (outcome A).
Proof. solve_decision. Defined.

(** [s.replace(old, new)] for an [old] that is not empty: the occurrences of
    [old] are found from the left and do not overlap.  [skip] counts the
    characters of an occurrence that are still to be passed over. *)
Fixpoint replace_from (skip : nat) (old new s : string) : string :=
  match s with
  | EmptyString => EmptyString
  | String c s' =>
      match skip with
      | S n => replace_from n old new s'
      | O =>
          if String.prefix old s
          then new ++ replace_from (String.length old - 1) old new s'
          else String c (replace_from 0 old new s')
      end
  end.

Definition replace (old new s : string) : string := replace_from 0 old new s.

Module Main.

(** [settings.API_KEY] is the first argument. *)
Definition verify_api_key (API_KEY authorization : string) : outcome bool :=
  if negb (String.prefix "Bearer " authorization) then
    HTTPException 401 "Invalid authorization header format"
  else
    let token := replace "Bearer " "" authorization in
    if negb (String.eqb token API_KEY) then HTTPException 401 "Invalid API key"
    else Returns true.

End Main.

Module Routes.

(** [except HTTPException: raise  except Exception as e: raise
    HTTPException(500, f"{failed}: {str(e)}")] around the body of a
    handler, once its own checks have passed. *)
Definition answering {S A} (failed : string) (body : M S A) : S -> S * outcome A :=
  fun s =>
    match body s with
    | (s', Ok a) => (s', Returns a)
    | (s', Raise e) => (s', HTTPException 500 (failed ++ ": " ++ exn_str e))
    end.

(** *** [POST /generate/text-to-image] *)

Record GenerateTextToImageRequest := {
  t2i_generation_id : string;
  t2i_model : string;
  t2i_prompt : string;
  t2i_system_prompt : string;
  t2i_parameters : dict;
  t2i_webhook_url : string
}.

Section TextToImage.

Variable fal_provider : FalClient.client.

(** [GenerateResponse(success=True, job_id=..., provider="fal",
    estimated_time_seconds=..., generation_id=..., fallback_triggered=False)]:
    the response model checks its fields and may raise. *)
Variable GenerateResponse : pyval -> string -> pyval -> string -> bool -> result dict.

Definition generate_text_to_image (request : GenerateTextToImageRequest)
    : list FalClient.sdk_call -> list FalClient.sdk_call * outcome dict :=
  if negb (String.eqb (t2i_model request) "seedream-v4-text"
           || String.eqb (t2i_model request) "seedream-v4-t2i") then
    fun calls =>
      (calls, HTTPException 400 ("Unsupported model: " ++ t2i_model request ++
                                 ". Only 'seedream-v4-text' is supported."))
  else
    answering "Failed to generate text-to-image"
      (* the request is the only argument: it is bound to [prompt], the
         other parameters keep their defaults *)
      (result <- FalClient.submit_text_to_image_job fal_provider
                   (FalClient.Object "GenerateTextToImageRequest") ""
                   1080 1440 50 None ;;
       job_id <- lift (getitem result "job_id") ;;
       estimated_time <- lift (getitem result "estimated_time") ;;
       lift (GenerateResponse job_id "fal" estimated_time
               (t2i_generation_id request) false)).

End TextToImage.

(** *** [GET /generate/status/{job_id}] *)

Definition check_generation_status (orchestrator : providers)
    (job_id model provider : string) : world -> world * outcome dict :=
  answering "Failed to check generation status"
    (ProviderOrchestrator.check_status_any_provider orchestrator job_id provider model).

(** *** [POST /generate/person] *)

Record PersonFieldsRequest := {
  gender : string;
  age : string;
  ethnicity : string;
  clothing : string;
  expression : string;
  background : string
}.

Record GeneratePersonRequest := {
  generation_id : string;
  user_id : string;
  stage1_mode : string;
  person_prompt : option string;
  person_fields : option PersonFieldsRequest
}.

(** An [Optional[str]] field as a value. *)
Definition optional_str (s : option string) : pyval :=
  match s with
  | Some s => VStr s
  | None => VNone
  end.

(** [get_pipeline_orchestrator()]: the singleton, once [main.py] has set it. *)
Definition get_pipeline_orchestrator
    (_orchestrator : option PipelineOrchestrator.collaborators)
    : result PipelineOrchestrator.collaborators :=
  match _orchestrator with
  | Some pipeline => Ok pipeline
  | None =>
      Raise (Exn RuntimeError
               ("Pipeline orchestrator not initialized. " ++
                "Call init_pipeline_orchestrator() first."))
  end.

Definition person_fields_dict (person_fields : option PersonFieldsRequest)
    : option dict :=
  match person_fields with
  | Some fields =>
      Some (<["background" := VStr (background fields)]>
            (<["expression" := VStr (expression fields)]>
            (<["clothing" := VStr (clothing fields)]>
            (<["ethnicity" := VStr (ethnicity fields)]>
            (<["age" := VStr (age fields)]>
            (<["gender" := VStr (gender fields)]> ∅))))))
  | None => None
  end.

Definition generate_person_only
    (_orchestrator : option PipelineOrchestrator.collaborators)
    (request : GeneratePersonRequest)
    : PipelineOrchestrator.trace -> PipelineOrchestrator.trace * outcome dict :=
  let mode := stage1_mode request in
  if negb (String.eqb mode "EASY" || String.eqb mode "ADVANCED") then
    fun tr => (tr, HTTPException 400 ("Invalid stage1_mode: " ++ mode))
  else if (String.eqb mode "EASY"
           && negb (bool_decide (is_Some (person_fields request))))%bool then
    fun tr => (tr, HTTPException 400 "person_fields required for EASY mode")
  else if (String.eqb mode "ADVANCED"
           && negb (truthy (optional_str (person_prompt request))))%bool then
    fun tr => (tr, HTTPException 400 "person_prompt required for ADVANCED mode")
  else
    answering "Failed to generate person"
      (pipeline <- lift (get_pipeline_orchestrator _orchestrator) ;;
       result <- PipelineOrchestrator.generate_person_only pipeline
                   (generation_id request) (user_id request) mode
                   (optional_str (person_prompt request))
                   (person_fields_dict (person_fields request)) ;;
       (* the URL is printed first *)
       _ <- lift (getitem result "person_url") ;;
       generation_id <- lift (getitem result "generation_id") ;;
       person_url <- lift (getitem result "person_url") ;;
       person_s3_key <- lift (getitem result "person_s3_key") ;;
       ret (<["person_s3_key" := person_s3_key]>
            (<["person_url" := person_url]>
            (<["generation_id" := generation_id]>
            (<["success" := VBool true]> ∅))))).

End Routes.
(** ** [app/utils/s3_storage.py]: where the artifacts go *)

Module S3Storage.

Definition _get_s3_key (asset_type user_id filename : string) : string :=
  asset_type ++ "/" ++ user_id ++ "/" ++ filename.

(** The asset type and the file name with which [upload_person_image],
    [upload_composite_image] and [upload_video] call [upload_from_url]. *)
Definition asset_type (kind : PipelineOrchestrator.asset) : string :=
  match kind with
  | PipelineOrchestrator.PersonImage => "person-images"
  | PipelineOrchestrator.CompositeImage => "composites"
  | PipelineOrchestrator.Video => "videos"
  end.

Definition filename (kind : PipelineOrchestrator.asset) (generation_id : string)
    : string :=
  match kind with
  | PipelineOrchestrator.PersonImage | PipelineOrchestrator.CompositeImage =>
      generation_id ++ ".png"
  | PipelineOrchestrator.Video => generation_id ++ ".mp4"
  end.

(** The key under which the artifact of a generation is stored. *)
Definition s3_key (kind : PipelineOrchestrator.asset) (user_id generation_id : string)
    : string :=
  _get_s3_key (asset_type kind) user_id (filename kind generation_id).

(** [f"https://{bucket}.s3.{region}.amazonaws.com/{s3_key}"] *)
Definition s3_url (bucket region key : string) : string :=
  "https://" ++ bucket ++ ".s3." ++ region ++ ".amazonaws.com/" ++ key.

End S3Storage.
(** ** Polling, once more *)

(** The exception with which a polling loop ends when the status of the job
    says FAILED. *)
Definition job_failed (failed_prefix : string) (status_data : dict) : exn :=
  Exception (failed_prefix ++
             py_str (dict_get status_data "error" (VStr "Unknown error"))).

(** A classification names one of the three provider-side error types. *)
Definition blames_provider (info : dict) : Prop :=
  exists t, info !! "error_type" = Some (VErrorType t) /\
            (t = VALIDATION_ERROR \/ t = TIMEOUT \/ t = SERVICE_ERROR).

(** A provider that reports the job as rejected for its content. *)
Definition content_rejected : dict :=
  <["error" := VStr "NSFW content detected"]>
  (<["result_url" := VNone]> (<["status" := VStr "FAILED"]> ∅)).

Definition rejects_content : providers :=
  {| kie_submit_image_to_video_job := fun _ _ => (2%Z, job "kie_abc123");
     fal_submit_image_to_video_job := fun _ _ => (3%Z, job "fal_xyz789");
     kie_check_status := fun _ _ _ => (1%Z, Ok content_rejected);
     fal_check_status := fun _ _ _ => (1%Z, Ok content_rejected) |}.

(** ** The fallback coordinator, once more *)

(** What a status check of a submitted job asks, by provider. *)
Definition status_call (provider job_id : string) : call :=
  if String.eqb provider "kie" then KieStatus job_id "veo3"
  else FalStatus job_id "fal-ai/veo3.1/image-to-video".

Definition status_reply (self : providers) (provider job_id : string) (t : Z)
    : Z * result dict :=
  if String.eqb provider "kie" then kie_check_status self t job_id "veo3"
  else fal_check_status self t job_id "fal-ai/veo3.1/image-to-video".

(** ** The provider orchestrator *)

(** A name [_get_provider] knows. *)
Definition known_provider (name : string) : Prop :=
  lower name = "kie" \/ lower name = "fal".

Definition unknown_provider (name : string) : exn :=
  Exn ValueError ("Unknown provider: " ++ name ++ ". Must be 'kie' or 'fal'").

(** A request as the image-to-video route hands it on. *)
Definition sample_request : request :=
  Request "https://bucket/product.jpg" "The product rotates" "Generate a video"
          (<["prompt_optimizer" := VBool true]> ∅) (Some "https://app.example/hook").


(** ** The pipeline, once more *)

(** The message of the [ValueError] with which stage 1 turns down its
    input: EASY mode without form fields, any other mode without a person
    prompt. *)
Definition missing_person_input (stage1_mode : string) (person_prompt : pyval)
    (person_fields : option dict) : option string :=
  if String.eqb stage1_mode "EASY" then
    if PipelineOrchestrator.dict_truthy person_fields then None
    else Some "person_fields required for EASY mode"
  else if truthy person_prompt then None
  else Some "person_prompt required for ADVANCED mode".

(** The payload that announces stage 1 of the full run. *)
Definition stage1_announcement (generation_id : string) : dict :=
  <["message" := VStr "Generating AI person..."]>
  (PipelineOrchestrator.stage_status generation_id 1 "processing").

(** A line of a structured video prompt that sets the dialogue, the action
    or the emotion. *)
Definition sets_field (line : string) : bool :=
  (str_in ":" line &&
   let key := lower (strip (fst (split_once PipelineOrchestrator.colon line))) in
   (String.eqb key "dialogue" || String.eqb key "action" || String.eqb key "emotion"))%bool.

(** What stage 3 starts from when the video prompt sets nothing. *)
Definition video_prompt_defaults : string * string * string :=
  ("", "character sits holding the product casually while speaking",
   "casual and happy").

(** Two lines of free text, the second with a colon in it. *)
Definition two_line_prompt : string :=
  "Show the can to the camera." ++ Veo3Provider.newline ++ "Then say: I love it".

(** ** Fal.ai submissions *)

(** The SDK gives up on a read that takes too long; the exception has no
    text. *)
Definition fal_read_timeout : FalClient.client :=
  {| FalClient.submit := fun _ _ _ => Raise (Exn HttpxReadTimeout "");
     FalClient.status := fun _ _ => Raise (Exn HttpxReadTimeout "");
     FalClient.result_of := fun _ _ => Raise (Exn HttpxReadTimeout "") |}.

(** The SDK accepts every submission. *)
Definition fal_accepts : FalClient.client :=
  {| FalClient.submit := fun _ _ _ => Ok "req-1";
     FalClient.status := fun _ _ => Ok (FalClient.StatusObject "InProgress" None None);
     FalClient.result_of := fun _ _ => Ok Json.JNull |}.

(** [GenerateResponse] on fields of the declared types. *)
Definition sample_response (job_id : pyval) (provider : string)
    (estimated_time_seconds : pyval) (generation_id : string)
    (fallback_triggered : bool) : result dict :=
  Ok (<["fallback_triggered" := VBool fallback_triggered]>
      (<["generation_id" := VStr generation_id]>
      (<["estimated_time_seconds" := estimated_time_seconds]>
      (<["provider" := VStr provider]>
      (<["job_id" := job_id]>
      (<["success" := VBool true]> ∅)))))).

Definition sample_text_to_image_request : Routes.GenerateTextToImageRequest :=
  {| Routes.t2i_generation_id := "gen-1";
     Routes.t2i_model := "seedream-v4-text";
     Routes.t2i_prompt := "A city skyline at sunset";
     Routes.t2i_system_prompt := "Generate a detailed image";
     Routes.t2i_parameters := ∅;
     Routes.t2i_webhook_url := "https://app.example/hook" |}.

(** ** Routes *)

(** A request the person route lets through: EASY mode with form fields, or
    ADVANCED mode with a prompt that is not empty. *)
Definition person_request_accepted (request : Routes.GeneratePersonRequest) : Prop :=
  (Routes.stage1_mode request = "EASY" /\ is_Some (Routes.person_fields request)) \/
  (Routes.stage1_mode request = "ADVANCED" /\
   exists prompt, Routes.person_prompt request = Some prompt /\ prompt <> "").

Definition sample_person_request : Routes.GeneratePersonRequest :=
  {| Routes.generation_id := "gen-1";
     Routes.user_id := "user-1";
     Routes.stage1_mode := "EASY";
     Routes.person_prompt := None;
     Routes.person_fields :=
       Some {| Routes.gender := "female"; Routes.age := "20s";
               Routes.ethnicity := "asian"; Routes.clothing := "casual";
               Routes.expression := "smiling"; Routes.background := "home" |} |}.

(** ** The status of a Kie.ai job *)

(** A status dictionary of one of the three kinds [check_status] builds. *)
Definition status_shape (status_data : KieClient.status_dict) : Prop :=
  (exists result_url, status_data = KieClient.completed result_url) \/
  status_data = KieClient.processing \/
  (exists error, status_data = KieClient.failed error).

(** The same Python value, as the polling loops and as the status check
    have it. *)
Definition same_value (v : pyval) (j : Json.json) : bool :=
  match j, v with
  | Json.JNull, VNone => true
  | Json.JBool b, VBool b' => Bool.eqb b b'
  | Json.JInt n, VInt n' => (n =? n')%Z
  | Json.JStr s, VStr s' => String.eqb s s'
  | _, _ => false
  end.

Definition same_dict (d : dict) (j : KieClient.status_dict) : bool :=
  (bool_decide (dom d = dom j) &&
   forallb (fun '(key, x) =>
              match d !! key with
              | Some v => same_value v x
              | None => false
              end)
           (map_to_list j))%bool.

(** At time [t] the Kie.ai status check of [self] ends as
    [KieProvider.check_status] does on what the service answers then. *)
Definition kie_answers (self : providers) (service : KieClient.http)
    (loads : string -> result Json.json) (repr : Json.json -> string)
    (t : Z) (job_id model : string) : Prop :=
  match snd (KieClient.check_status service loads repr job_id model []) with
  | Ok status_data =>
      exists d, snd (kie_check_status self t job_id model) = Ok d /\
                same_dict d status_data = true
  | Raise e => snd (kie_check_status self t job_id model) = Raise e
  end.

(** A state of the older format that [check_status] does not know. *)
Definition unknown_state (state : string) : Prop :=
  ~ In (lower state) ["success"; "waiting"; "queuing"; "generating"; "fail"].

(** Sample answers of the Kie.ai service: a finished Veo3 task, a gateway
    error, a task in a state the status check does not know. *)
Definition kie_reply (status : Z) (text : string) (body : result Json.json)
    : KieClient.http :=
  {| KieClient.http_get := fun _ _ => Ok (KieClient.Response status text body);
     KieClient.http_post := fun _ _ => Ok (KieClient.Response status text body) |}.

Definition kie_finished : KieClient.http :=
  kie_reply 200 "{...}"
    (Ok (Json.JDict
           (<["data" := Json.JDict
                (<["response" := Json.JDict
                     (<["resultUrls" :=
                          Json.JList [Json.JStr "https://cdn.kie.ai/video.mp4"]]> ∅)]>
                 (<["successFlag" := Json.JInt 1]> ∅))]>
            (<["code" := Json.JInt 200]> ∅)))).

Definition kie_bad_gateway : KieClient.http :=
  kie_reply 502 "Bad Gateway" (Raise (Exn JSONDecodeError "Expecting value")).

Definition kie_paused : KieClient.http :=
  kie_reply 200 "{...}"
    (Ok (Json.JDict
           (<["data" := Json.JDict (<["state" := Json.JStr "PAUSED"]> ∅)]>
            (<["code" := Json.JInt 200]> ∅)))).

Definition no_decoder (s : string) : result Json.json :=
  Raise (Exn JSONDecodeError "Expecting value").

Definition no_repr (v : Json.json) : string := "".

(** Providers whose Kie.ai status check takes 1 and gives [status_data]. *)
Definition kie_status_is (status_data : dict) : providers :=
  {| kie_submit_image_to_video_job := fun _ _ => (2%Z, job "kie_abc123");
     fal_submit_image_to_video_job := fun _ _ => (3%Z, job "fal_xyz789");
     kie_check_status := fun _ _ _ => (1%Z, Ok status_data);
     fal_check_status := fun _ _ _ => still_processing |}.

Definition gateway_failure : dict :=
  <["error" := VStr "Kie.ai status check failed: Bad Gateway"]>
  (<["result_url" := VNone]> (<["status" := VStr "FAILED"]> ∅)).

(** ** The status of a Fal.ai job *)

(** The first of the two models the Fal.ai polling loop tries. *)
Definition first_model : string := "fal-ai/bytedance/seedream/v4/text-to-image".

(** Every status check for [job_id] made so far asked about the first
    model. *)
Definition asks_first_model_only (job_id : string) (w : world) : Prop :=
  forall model, In (FalStatus job_id model) (calls w) -> model = first_model.

(** At time [t] the Fal.ai status check of [self] ends as
    [FalProvider.check_status] does on what the SDK answers then. *)
Definition fal_answers (self : providers) (sdk : FalClient.client)
    (repr : Json.json -> string) (t : Z) (job_id model : string) : Prop :=
  match snd (FalClient.check_status sdk repr job_id model []) with
  | Ok status_data =>
      exists d, snd (fal_check_status self t job_id model) = Ok d /\
                same_dict d status_data = true
  | Raise e => snd (fal_check_status self t job_id model) = Raise e
  end.

(** At time [t] the status probe fails for every candidate model: whichever
    of the models to try the SDK is asked about, the call raises. *)
Definition probes_fail (self : providers) (job_id : string) (t : Z) : Prop :=
  exists sdk repr,
    forall model, In model FalProvider.models_to_try ->
      fal_answers self sdk repr t job_id model /\
      exists e, FalClient.status sdk model job_id = Raise e.

(** What [FalProvider.check_status] returns when the SDK raises, and
    providers whose Fal.ai status check takes 1 and returns just that. *)
Definition assumed_processing : dict :=
  <["error" := VNone]>
  (<["result_url" := VNone]> (<["status" := VStr "PROCESSING"]> ∅)).

Definition fal_out_of_reach : providers :=
  {| kie_submit_image_to_video_job := fun _ _ => (2%Z, job "kie_abc123");
     fal_submit_image_to_video_job := fun _ _ => (3%Z, job "fal_xyz789");
     kie_check_status := fun _ _ _ => still_processing;
     fal_check_status := fun _ _ _ => (1%Z, Ok assumed_processing) |}.

(** Where the polling run on these providers stands when its last round
    begins. *)
Definition out_of_reach_last_round : world :=
  World 18 [FalStatus "job-1" first_model; Sleep 5;
            FalStatus "job-1" first_model; Sleep 5;
            FalStatus "job-1" first_model; Sleep 5].

(** ** Submissions of the video stage *)

(** Kie.ai accepts a task and names it. *)
Definition kie_accepts : KieClient.http :=
  kie_reply 200 "{...}"
    (Ok (Json.JDict
           (<["data" := Json.JDict (<["taskId" := Json.JStr "task-1"]> ∅)]>
            (<["code" := Json.JInt 200]> ∅)))).

(** ** The webhook notifier *)

(** A request of the notifier, [client.post]. *)
Definition is_post (ev : PipelineOrchestrator.event) : bool :=
  match ev with
  | PipelineOrchestrator.Post _ _ _ => true
  | _ => false
  end.
(** * Properties *)

(** ** Strings *)

Lemma string_app_assoc (a b c : string) : (a ++ b) ++ c = a ++ b ++ c.
Proof.
  induction a as [|x a IH]; [reflexivity|].
  change (String x ((a ++ b) ++ c) = String x (a ++ b ++ c)). now rewrite IH.
Qed.

Lemma prefix_app (a b : string) : String.prefix a (a ++ b) = true.
Proof.
  induction a as [|c a IH]; simpl.
  - now destruct b.
  - destruct (Ascii.ascii_dec c c); [exact IH | congruence].
Qed.

Lemma str_in_prefix (n h : string) : String.prefix n h = true -> str_in n h = true.
Proof. intros H. destruct h; cbn [str_in]; rewrite H; reflexivity. Qed.

Lemma str_in_app_r (n a b : string) : str_in n b = true -> str_in n (a ++ b) = true.
Proof.
  intros H. induction a as [|c a IH]; [exact H|].
  change (String c a ++ b) with (String c (a ++ b)). cbn [str_in].
  rewrite IH. apply orb_true_r.
Qed.

Lemma str_in_app_head (n b : string) : str_in n (n ++ b) = true.
Proof. apply str_in_prefix, prefix_app. Qed.

(** A string occurs in every text built around it. *)
Lemma str_in_middle (a n b : string) : str_in n (a ++ n ++ b) = true.
Proof. apply str_in_app_r, str_in_app_head. Qed.

Lemma str_in_end (a n : string) : str_in n (a ++ n) = true.
Proof.
  apply str_in_app_r, str_in_prefix.
  induction n as [|c n IH]; simpl; [reflexivity|].
  destruct (Ascii.ascii_dec c c); [exact IH | congruence].
Qed.

(** ** The error classifier *)

Lemma error_info_lookup (t : ErrorType) (msg : string) (r c : bool) (d : string) :
  error_info t msg r c d !! "error_type" = Some (VErrorType t) /\
  error_info t msg r c d !! "error_message" = Some (VStr msg) /\
  error_info t msg r c d !! "is_refundable" = Some (VBool r) /\
  error_info t msg r c d !! "can_retry" = Some (VBool c) /\
  error_info t msg r c d !! "technical_details" = Some (VStr d).
Proof. repeat split; reflexivity. Qed.

Lemma timeout_type_not_ValueError (c : exc_class) :
  declared_timeout_type c = true -> is_ValueError c = false.
Proof. destruct c; cbv; intros H; first [reflexivity | discriminate H]. Qed.

Lemma timeout_type_is_timeout (e : exn) (s : string) :
  declared_timeout_type (exn_class e) = true -> _is_timeout_error e s = true.
Proof.
  unfold declared_timeout_type, _is_timeout_error. intros H.
  destruct (is_asyncio_TimeoutError (exn_class e)); [reflexivity|].
  destruct (is_builtin_TimeoutError (exn_class e)); [reflexivity|].
  simpl in *. now rewrite H.
Qed.

(** C1, as stated, fails: a builtin [TimeoutError] whose message has the word
    "invalid" in it is a declared timeout type, and [classify_error] files it
    under VALIDATION_ERROR (not refundable), because the validation test comes
    first and scans the message of every exception. *)
Lemma classify_timeout_with_validation_word :
  let e := Exn BuiltinTimeoutError "invalid response from upstream" in
  declared_timeout_type (exn_class e) = true /\
  classify_error e None !! "error_type" = Some (VErrorType VALIDATION_ERROR) /\
  classify_error e None !! "error_type" <> Some (VErrorType TIMEOUT) /\
  classify_error e None !! "is_refundable" = Some (VBool false).
Proof. cbv zeta. repeat split; compute_done. Qed.

(** C1, amended: an exception of a declared timeout type whose lower-cased
    message contains none of the validation indicators is classified TIMEOUT,
    refundable and retryable, whatever else its message says. *)
Theorem classify_timeout_type (e : exn) (context : option string) :
  declared_timeout_type (exn_class e) = true ->
  any_in validation_indicators (lower (exn_str e)) = false ->
  classify_error e context !! "error_type" = Some (VErrorType TIMEOUT) /\
  classify_error e context !! "is_refundable" = Some (VBool true) /\
  classify_error e context !! "can_retry" = Some (VBool true).
Proof.
  intros Hty Hval. unfold classify_error, _is_validation_error.
  rewrite (timeout_type_not_ValueError _ Hty), Hval.
  rewrite (timeout_type_is_timeout _ _ Hty).
  repeat split; reflexivity.
Qed.

Lemma classify_timeout_type_witness :
  let e := Exn HttpxReadTimeout "Kie.ai API error while reading" in
  classify_error e (Some "stage3") !! "error_type" = Some (VErrorType TIMEOUT) /\
  classify_error e (Some "stage3") !! "is_refundable" = Some (VBool true) /\
  classify_error e (Some "stage3") !! "can_retry" = Some (VBool true).
Proof.
  apply (classify_timeout_type (Exn HttpxReadTimeout "Kie.ai API error while reading")
           (Some "stage3")); compute_done.
Defined.

Lemma error_info_dom (t : ErrorType) (msg : string) (r c : bool) (d : string) :
  dom (error_info t msg r c d) =
    ({[ "error_type"; "error_message"; "is_refundable"; "can_retry";
        "technical_details" ]} : gset string).
Proof. unfold error_info. rewrite !dom_insert_L, dom_empty_L. set_solver. Qed.

Lemma error_info_well_formed (t : ErrorType) (msg : string) (r c : bool) (d : string) :
  (r = false <-> t = VALIDATION_ERROR \/ t = USER_ERROR) ->
  (c = false <-> t = USER_ERROR) ->
  well_formed_info (error_info t msg r c d).
Proof.
  intros Hr Hc. exists t, msg, d, r, c.
  destruct (error_info_lookup t msg r c d) as (H1 & H2 & H3 & H4 & H5).
  pose proof (error_info_dom t msg r c d) as H6.
  tauto.
Qed.

(** Every branch of [classify_error] builds its dictionary with
    [error_info], with flags that fit the error type. *)
Lemma classify_error_is_info (e : exn) (context : option string) :
  exists t msg r c d,
    classify_error e context = error_info t msg r c d /\
    (r = false <-> t = VALIDATION_ERROR \/ t = USER_ERROR) /\
    (c = false <-> t = USER_ERROR).
Proof.
  unfold classify_error.
  destruct (_is_validation_error e _);
    [|destruct (_is_timeout_error e _);
      [|destruct (_is_service_error e _);
        [|destruct (_is_user_error e _)]]];
    eexists _, _, _, _, _; (split; [reflexivity|]);
    split; split; intros H; first [reflexivity | discriminate H | now left | now right
                                   | destruct H; discriminate ].
Qed.

(** C10: [classify_error] always returns a dictionary with exactly the five
    keys [error_type], [error_message], [is_refundable], [can_retry] and
    [technical_details]; [is_refundable] is false exactly for
    VALIDATION_ERROR and USER_ERROR, and [can_retry] is false exactly for
    USER_ERROR. *)
Theorem classify_error_shape (e : exn) (context : option string) :
  well_formed_info (classify_error e context).
Proof.
  destruct (classify_error_is_info e context) as (t & msg & r & c & d & -> & Hr & Hc).
  now apply error_info_well_formed.
Qed.

(** ** The fallback coordinator *)

Section Veo3Facts.

Import Veo3Provider.

Variable self : providers.
Variables (image_url prompt : string) (use_fast : bool) (duration : Z)
          (aspect_ratio : string) (webhook_url : option string).

Local Abbreviation kie := (_submit_to_kie self image_url prompt use_fast duration
                                       aspect_ratio webhook_url).
Local Abbreviation fal := (_submit_to_fal self image_url prompt duration
                                       aspect_ratio webhook_url use_fast).
Local Abbreviation submit := (submit_veo3_job self image_url prompt use_fast duration
                                           aspect_ratio webhook_url).

Lemma submissions_app (cs : list call) (c : call) :
  kie_submissions (cs ++ [c]) =
    (kie_submissions cs + match c with KieSubmit _ => 1 | _ => 0 end)%nat /\
  fal_submissions (cs ++ [c]) =
    (fal_submissions cs + match c with FalSubmit _ => 1 | _ => 0 end)%nat.
Proof.
  unfold kie_submissions, fal_submissions.
  rewrite !List.filter_app, !List.length_app. split; destruct c; reflexivity.
Qed.

(** A Kie.ai submission makes one call, to Kie.ai, however it ends; when it
    returns, the dictionary names the job and the provider. *)
Lemma submit_to_kie_calls (w : world) :
  exists r, calls (fst (kie w)) = (calls w ++ [KieSubmit r])%list.
Proof.
  unfold _submit_to_kie, bind, await_call, lift, ret. eexists.
  destruct (snd (kie_submit_image_to_video_job self (now w) _)) as [d|e];
    [destruct (getitem d "job_id")|]; reflexivity.
Qed.

Lemma submit_to_fal_calls (w : world) :
  exists r, calls (fst (fal w)) = (calls w ++ [FalSubmit r])%list.
Proof.
  unfold _submit_to_fal, bind, await_call, lift, ret. eexists.
  destruct (snd (fal_submit_image_to_video_job self (now w) _)) as [d|e];
    [destruct (getitem d "job_id")|]; reflexivity.
Qed.

Lemma submit_to_kie_ok (w w1 : world) (r : dict) :
  kie w = (w1, Ok r) ->
  r !! "provider" = Some (VStr "kie") /\ is_Some (r !! "job_id") /\
  r !! "fallback_triggered" = None /\ r !! "primary_provider" = None.
Proof.
  unfold _submit_to_kie, bind, await_call, lift, ret.
  destruct (snd (kie_submit_image_to_video_job self (now w) _)) as [d|e];
    [destruct (getitem d "job_id")|]; intros [= <- <-];
    repeat split; try reflexivity. eexists; reflexivity.
Qed.

Lemma submit_to_fal_ok (w w1 : world) (r : dict) :
  fal w = (w1, Ok r) ->
  r !! "provider" = Some (VStr "fal") /\ is_Some (r !! "job_id") /\
  r !! "fallback_triggered" = None /\ r !! "primary_provider" = None.
Proof.
  unfold _submit_to_fal, bind, await_call, lift, ret.
  destruct (snd (fal_submit_image_to_video_job self (now w) _)) as [d|e];
    [destruct (getitem d "job_id")|]; intros [= <- <-];
    repeat split; try reflexivity. eexists; reflexivity.
Qed.

(** What the first [try] block does, by cases on the primary attempt. *)
Lemma try_primary_in_time (timeout : Z) (w w1 : world) (r : dict) :
  kie w = (w1, Ok r) -> (now w1 - now w <= timeout)%Z ->
  try_primary self image_url prompt use_fast duration aspect_ratio webhook_url
              timeout w
  = (w1, Ok (inl (<["primary_provider" := VStr "kie"]>
                  (<["fallback_triggered" := VBool false]> r)))).
Proof.
  intros Hk Hle. unfold try_primary, try_except, bind, wait_for, ret.
  rewrite Hk. apply Z.leb_le in Hle. rewrite Hle. reflexivity.
Qed.

Lemma try_primary_failed (timeout : Z) (w : world) :
  primary_failed (kie w) w timeout ->
  try_primary self image_url prompt use_fast duration aspect_ratio webhook_url
              timeout w
  = (after_primary (kie w) w timeout,
     Ok (inr (primary_error_text (kie w) w timeout))).
Proof.
  unfold primary_failed, after_primary, primary_error_text,
         try_primary, try_except, bind, wait_for, ret.
  destruct (kie w) as [w1 r1]. cbn [fst snd].
  destruct (Z.leb_spec (now w1 - now w) timeout) as [Hle|Hgt].
  - intros [Hlt | [e ->]]; [lia|].
    replace (timeout <? now w1 - now w)%Z with false
      by (symmetry; apply Z.ltb_ge; lia).
    cbn. destruct (is_asyncio_TimeoutError (exn_class e)); reflexivity.
  - intros _. apply Z.ltb_lt in Hgt. rewrite Hgt.
    destruct r1; reflexivity.
Qed.

Lemma try_primary_inl (timeout : Z) (w w' : world) (res : dict) :
  try_primary self image_url prompt use_fast duration aspect_ratio webhook_url
              timeout w = (w', Ok (inl res)) ->
  ~ primary_failed (kie w) w timeout /\
  res !! "fallback_triggered" = Some (VBool false).
Proof.
  unfold primary_failed, try_primary, try_except, bind, wait_for, ret.
  destruct (kie w) as [w1 r1]. cbn [fst snd].
  destruct (Z.leb_spec (now w1 - now w) timeout) as [Hle|Hgt].
  - destruct r1 as [r|e].
    + intros [= <- <-]. split.
      * intros [Hlt | [e He]]; [lia | discriminate].
      * rewrite lookup_insert_ne by discriminate. apply lookup_insert_eq.
    + destruct (is_asyncio_TimeoutError (exn_class e)); discriminate.
  - cbn. discriminate.
Qed.


(** A primary attempt either failed or returned in time. *)
Lemma classic_primary (timeout : Z) (w : world) :
  primary_failed (kie w) w timeout \/
  exists w1 r, kie w = (w1, Ok r) /\ (now w1 - now w <= timeout)%Z.
Proof.
  unfold primary_failed. destruct (kie w) as [w1 [r|e]]; cbn [fst snd].
  - destruct (Z.leb_spec (now w1 - now w) timeout); [right; eauto | left; left; lia].
  - left; right; eauto.
Qed.

Lemma calls_after_primary (timeout : Z) (w : world) :
  exists r, calls (after_primary (kie w) w timeout) = (calls w ++ [KieSubmit r])%list.
Proof.
  destruct (submit_to_kie_calls w) as [r Hr]. exists r.
  unfold after_primary. destruct (_ <=? _)%Z; exact Hr.
Qed.

(** The run of [submit_veo3_job] when the primary attempt failed: the
    fallback submission, started after the primary, decides. *)
Lemma submit_after_failed_primary (timeout : Z) (w : world) :
  primary_failed (kie w) w timeout ->
  submit "kie" timeout w =
    match fal (after_primary (kie w) w timeout) with
    | (w2, Ok result) =>
        (w2, Ok (<["primary_error" := VStr (primary_error_text (kie w) w timeout)]>
                 (<["primary_provider" := VStr "kie"]>
                 (<["fallback_triggered" := VBool true]> result))))
    | (w2, Raise fal_error) =>
        (w2, Raise (Exception
               ("Veo3 video generation failed on all providers." ++ newline ++
                "Primary (Kie.ai): " ++ primary_error_text (kie w) w timeout ++
                newline ++ "Fallback (Fal.ai): " ++ exn_str fal_error)))
    end.
Proof.
  intros Hf. unfold submit_veo3_job. cbn [String.eqb Ascii.eqb Bool.eqb].
  unfold bind at 1. rewrite (try_primary_failed _ _ Hf).
  unfold try_except, bind, ret, raise.
  destruct (fal _) as [w2 [r|e]]; reflexivity.
Qed.

(** C2: when the Kie.ai submission returns within [fallback_timeout],
    [submit_veo3_job] returns its result with [fallback_triggered] false and
    [primary_provider] "kie", and the run has made one call to Kie.ai and
    none to Fal.ai. *)
Theorem primary_in_time_no_fallback (timeout : Z) (w w1 : world) (r : dict) :
  kie w = (w1, Ok r) ->
  (now w1 - now w <= timeout)%Z ->
  exists res,
    submit "kie" timeout w = (w1, Ok res) /\
    res !! "fallback_triggered" = Some (VBool false) /\
    res !! "primary_provider" = Some (VStr "kie") /\
    res !! "provider" = Some (VStr "kie") /\
    res !! "job_id" = r !! "job_id" /\
    fal_submissions (calls w1) = fal_submissions (calls w) /\
    kie_submissions (calls w1) = S (kie_submissions (calls w)).
Proof.
  intros Hk Hle. eexists. split.
  - unfold submit_veo3_job. cbn [String.eqb Ascii.eqb Bool.eqb].
    unfold bind at 1. rewrite (try_primary_in_time _ _ _ _ Hk Hle). reflexivity.
  - destruct (submit_to_kie_ok _ _ _ Hk) as (Hp & _ & _ & _).
    destruct (submit_to_kie_calls w) as [rq Hc]. rewrite Hk in Hc. cbn in Hc.
    rewrite Hc. destruct (submissions_app (calls w) (KieSubmit rq)) as [-> ->].
    repeat split; try lia.
    + rewrite lookup_insert_ne by discriminate. apply lookup_insert_eq.
    + apply lookup_insert_eq.
    + rewrite !lookup_insert_ne by discriminate. exact Hp.
    + rewrite !lookup_insert_ne by discriminate. reflexivity.
Qed.

(** C3: when the Kie.ai submission takes longer than [fallback_timeout] or
    raises, the run makes exactly one Fal.ai submission, and if that one
    returns, the result has [fallback_triggered] true, [primary_provider]
    "kie" and the primary's failure in [primary_error].  Conversely a result
    with [fallback_triggered] true, for any preferred provider, comes from a
    run whose Kie.ai submission ran out of time or raised. *)
Theorem fallback_iff_primary_failed :
  (forall (timeout : Z) (w : world),
     primary_failed (kie w) w timeout ->
     let started := after_primary (kie w) w timeout in
     fst (submit "kie" timeout w) = fst (fal started) /\
     fal_submissions (calls (fst (submit "kie" timeout w))) =
       S (fal_submissions (calls w)) /\
     forall r, snd (fal started) = Ok r ->
       exists res,
         snd (submit "kie" timeout w) = Ok res /\
         res !! "fallback_triggered" = Some (VBool true) /\
         res !! "primary_provider" = Some (VStr "kie") /\
         res !! "primary_error" =
           Some (VStr (primary_error_text (kie w) w timeout)) /\
         res !! "provider" = Some (VStr "fal")) /\
  (forall (preferred_provider : string) (timeout : Z) (w w' : world) (res : dict),
     submit preferred_provider timeout w = (w', Ok res) ->
     res !! "fallback_triggered" = Some (VBool true) ->
     preferred_provider <> "fal" /\ primary_failed (kie w) w timeout).
Proof.
  split.
  - intros timeout w Hf started.
    rewrite (submit_after_failed_primary _ _ Hf). fold started.
    destruct (submit_to_fal_calls started) as [rf Hrf].
    destruct (calls_after_primary timeout w) as [rk Hrk]. fold started in Hrk.
    destruct (fal started) as [w2 r2] eqn:Hfal. cbn [fst snd] in *.
    assert (Hn : fal_submissions (calls w2) = S (fal_submissions (calls w))).
    { rewrite Hrf, Hrk.
      destruct (submissions_app (calls w ++ [KieSubmit rk]) (FalSubmit rf)) as [_ ->].
      destruct (submissions_app (calls w) (KieSubmit rk)) as [_ ->]. lia. }
    destruct r2 as [r|e]; cbn [fst snd]; (split; [reflexivity|]); (split; [exact Hn|]).
    + intros r' [= <-]. destruct (submit_to_fal_ok _ _ _ Hfal) as (Hp & _).
      eexists. split; [reflexivity|]. repeat split.
      * rewrite !lookup_insert_ne by discriminate. apply lookup_insert_eq.
      * rewrite lookup_insert_ne by discriminate. apply lookup_insert_eq.
      * apply lookup_insert_eq.
      * rewrite !lookup_insert_ne by discriminate. exact Hp.
    + intros r' [=].
  - intros preferred timeout w w' res. unfold submit_veo3_job.
    destruct (String.eqb_spec preferred "fal") as [->|Hne].
    + unfold bind, ret. destruct (fal w) as [w2 [r|e]]; [|discriminate].
      intros [= <- <-]. rewrite lookup_insert_ne by discriminate.
      rewrite lookup_insert_eq. discriminate.
    + unfold bind at 1.
      destruct (try_primary _ _ _ _ _ _ _ _ _) as [wp [[r0|pe]|e]] eqn:Hp.
      * unfold ret. intros [= <- <-] Hft.
        destruct (try_primary_inl _ _ _ _ Hp) as [_ Hfalse]. congruence.
      * intros _ _. split; [exact Hne|].
        destruct (classic_primary timeout w) as [Hf|Hok]; [exact Hf|].
        exfalso. destruct Hok as (w1 & r & Hk & Hle).
        rewrite (try_primary_in_time _ _ _ _ Hk Hle) in Hp. discriminate.
      * discriminate.
Qed.


(** C4: when the Kie.ai submission fails and the Fal.ai submission raises,
    [submit_veo3_job] raises one [Exception] whose message holds the text
    recorded for the primary failure and the text of the fallback's
    exception; the run has made the Kie.ai call and the Fal.ai call and no
    other. *)
Theorem both_failed_aggregate_error (timeout : Z) (w : world) (fal_error : exn) :
  primary_failed (kie w) w timeout ->
  snd (fal (after_primary (kie w) w timeout)) = Raise fal_error ->
  exists msg rk rf,
    snd (submit "kie" timeout w) = Raise (Exception msg) /\
    str_in (primary_error_text (kie w) w timeout) msg = true /\
    str_in (exn_str fal_error) msg = true /\
    (forall e, snd (kie w) = Raise e ->
       (now (fst (kie w)) - now w <= timeout)%Z ->
       is_asyncio_TimeoutError (exn_class e) = false ->
       str_in (exn_str e) msg = true) /\
    calls (fst (submit "kie" timeout w)) =
      (calls w ++ [KieSubmit rk; FalSubmit rf])%list.
Proof.
  intros Hf Hfal.
  rewrite (submit_after_failed_primary _ _ Hf).
  destruct (submit_to_fal_calls (after_primary (kie w) w timeout)) as [rf Hrf].
  destruct (calls_after_primary timeout w) as [rk Hrk].
  destruct (fal _) as [w2 r2]. cbn [fst snd] in *. subst r2.
  eexists _, rk, rf. split; [reflexivity|].
  assert (Hpe : forall pe : string,
            str_in pe ("Veo3 video generation failed on all providers." ++ newline ++
                       "Primary (Kie.ai): " ++ pe ++ newline ++
                       "Fallback (Fal.ai): " ++ exn_str fal_error) = true).
  { intros pe.
    apply (str_in_app_r _ "Veo3 video generation failed on all providers.").
    apply (str_in_app_r _ newline).
    apply (str_in_app_r _ "Primary (Kie.ai): "), str_in_app_head. }
  split; [apply Hpe|]. split; [|split].
  - apply (str_in_app_r _ "Veo3 video generation failed on all providers.").
    apply (str_in_app_r _ newline).
    apply (str_in_app_r _ "Primary (Kie.ai): ").
    apply str_in_app_r, (str_in_app_r _ newline), str_in_end.
  - intros e He Hle Hty. unfold primary_error_text. rewrite He, Hty.
    replace (timeout <? now (fst (kie w)) - now w)%Z with false
      by (symmetry; apply Z.ltb_ge; lia).
    cbn [orb].
    apply (str_in_app_r _ "Veo3 video generation failed on all providers.").
    apply (str_in_app_r _ newline).
    apply (str_in_app_r _ "Primary (Kie.ai): ").
    rewrite string_app_assoc. apply str_in_middle.
  - cbn [fst]. rewrite Hrf, Hrk, <- app_assoc. reflexivity.
Qed.

End Veo3Facts.

(** The fallback coordinator on the sample providers. *)

Example scenario_A_run :
  let run := Veo3Provider.submit_veo3_job scenario_A "https://bucket/composite.png"
               "wave" false 8 "9:16" None "kie" 60 idle in
  returned run "fallback_triggered" = Some (VBool false) /\
  returned run "provider" = Some (VStr "kie") /\
  returned run "job_id" = Some (VStr "kie_abc123") /\
  fst run = scenario_A_world.
Proof. cbv zeta. repeat split; compute_done. Qed.

Example scenario_B_run :
  Veo3Provider.submit_veo3_job scenario_B "https://bucket/composite.png"
    "wave" false 8 "9:16" None "kie" 60 idle
  = (scenario_B_world, Ok scenario_B_result).
Proof. compute_done. Qed.

Lemma primary_in_time_no_fallback_witness :
  exists res,
    Veo3Provider.submit_veo3_job scenario_A "https://bucket/composite.png" "wave"
      false 8 "9:16" None "kie" 60 idle = (scenario_A_world, Ok res) /\
    res !! "fallback_triggered" = Some (VBool false) /\
    res !! "primary_provider" = Some (VStr "kie") /\
    res !! "provider" = Some (VStr "kie") /\
    res !! "job_id" = scenario_A_result !! "job_id" /\
    fal_submissions (calls scenario_A_world) = fal_submissions (calls idle) /\
    kie_submissions (calls scenario_A_world) = S (kie_submissions (calls idle)).
Proof.
  apply (primary_in_time_no_fallback scenario_A "https://bucket/composite.png"
           "wave" false 8 "9:16" None 60 idle scenario_A_world scenario_A_result).
  - compute_done.
  - compute_done.
Defined.

Lemma fallback_iff_primary_failed_witness :
  (exists res,
     snd (Veo3Provider.submit_veo3_job scenario_B "https://bucket/composite.png"
            "wave" false 8 "9:16" None "kie" 60 idle) = Ok res /\
     res !! "fallback_triggered" = Some (VBool true) /\
     res !! "primary_provider" = Some (VStr "kie") /\
     res !! "primary_error" =
       Some (VStr (primary_error_text
                     (Veo3Provider._submit_to_kie scenario_B
                        "https://bucket/composite.png" "wave" false 8 "9:16" None idle)
                     idle 60)) /\
     res !! "provider" = Some (VStr "fal")) /\
  ("kie" <> "fal" /\
   primary_failed
     (Veo3Provider._submit_to_kie scenario_B "https://bucket/composite.png" "wave"
        false 8 "9:16" None idle) idle 60).
Proof.
  pose proof (fallback_iff_primary_failed scenario_B "https://bucket/composite.png"
                "wave" false 8 "9:16" None) as [Hfwd Hback].
  split.
  - refine (proj2 (proj2 (Hfwd 60%Z idle _)) scenario_B_fallback _).
    + left. compute_done.
    + compute_done.
  - refine (Hback "kie" 60%Z idle scenario_B_world scenario_B_result _ _).
    + compute_done.
    + compute_done.
Defined.

Lemma both_failed_aggregate_error_witness :
  exists msg rk rf,
    snd (Veo3Provider.submit_veo3_job scenario_both_fail
           "https://bucket/composite.png" "wave" false 8 "9:16" None "kie" 60 idle)
      = Raise (Exception msg) /\
    str_in (primary_error_text
              (Veo3Provider._submit_to_kie scenario_both_fail
                 "https://bucket/composite.png" "wave" false 8 "9:16" None idle)
              idle 60) msg = true /\
    str_in (exn_str (Exn HttpxConnectError "connection refused")) msg = true /\
    calls (fst (Veo3Provider.submit_veo3_job scenario_both_fail
           "https://bucket/composite.png" "wave" false 8 "9:16" None "kie" 60 idle))
      = (calls idle ++ [KieSubmit rk; FalSubmit rf])%list.
Proof.
  destruct (both_failed_aggregate_error scenario_both_fail
              "https://bucket/composite.png" "wave" false 8 "9:16" None 60 idle
              (Exn HttpxConnectError "connection refused"))
    as (msg & rk & rf & H1 & H2 & H3 & _ & H5).
  - right. exists (Exception "Kie.ai API error (500): upstream down").
    compute_done.
  - compute_done.
  - exists msg, rk, rf. repeat split; assumption.
Defined.

Example both_failed_message :
  raised (Veo3Provider.submit_veo3_job scenario_both_fail
            "https://bucket/composite.png" "wave" false 8 "9:16" None "kie" 60 idle)
  = Some (Exception
      ("Veo3 video generation failed on all providers." ++ Veo3Provider.newline ++
       "Primary (Kie.ai): Kie.ai failed: Kie.ai API error (500): upstream down" ++
       Veo3Provider.newline ++ "Fallback (Fal.ai): connection refused")).
Proof. compute_done. Qed.

(** ** The polling loops *)

Lemma while_true_from_round {A} (body : M world (option A)) (n : nat) :
  forall (w0 w : world) (fuel : nat),
    round_start n body w0 = Some w ->
    while_true (n + fuel) body w0 = while_true fuel body w.
Proof.
  induction n as [|n IH]; intros w0 w fuel; cbn [round_start Nat.add while_true].
  - now intros [= ->].
  - destruct (body w0) as [w1 [[v|]|e]]; try discriminate. apply IH.
Qed.

(** A round that raises ends the loop with that exception. *)
Lemma while_true_raises {A} (body : M world (option A)) (n fuel : nat)
    (w0 w w' : world) (e : exn) :
  round_start n body w0 = Some w ->
  body w = (w', Raise e) ->
  while_true (n + S fuel) body w0 = Some (w', Raise e).
Proof.
  intros Hn Hb. rewrite (while_true_from_round _ _ _ _ _ Hn).
  cbn [while_true]. now rewrite Hb.
Qed.

(** What a loop returns was returned by one of its rounds. *)
Lemma while_true_returns {A} (body : M world (option A)) (fuel : nat) :
  forall (w0 w' : world) (r : result A),
    while_true fuel body w0 = Some (w', r) ->
    exists n w, round_start n body w0 = Some w /\
      match r with
      | Ok v => body w = (w', Ok (Some v))
      | Raise e => body w = (w', Raise e)
      end.
Proof.
  induction fuel as [|fuel IH]; intros w0 w' r; cbn [while_true]; [discriminate|].
  destruct (body w0) as [w1 [[v|]|e]] eqn:Hb.
  - intros [= <- <-]. exists 0%nat, w0. split; [reflexivity | exact Hb].
  - intros H. destruct (IH _ _ _ H) as (n & w & Hn & Hr).
    exists (S n), w. cbn [round_start]. rewrite Hb. split; assumption.
  - intros [= <- <-]. exists 0%nat, w0. split; [reflexivity | exact Hb].
Qed.

(** *** Status dictionaries of the two kinds *)

Lemma same_dict_lookup (d : dict) (status_data : gmap string Json.json)
    (key : string) (x : Json.json) :
  same_dict d status_data = true -> status_data !! key = Some x ->
  exists v, d !! key = Some v /\ same_value v x = true.
Proof.
  unfold same_dict. intros Hsame Hx. apply andb_true_iff in Hsame as [_ Hall].
  rewrite forallb_forall in Hall.
  assert (Hin : In (key, x) (map_to_list status_data)).
  { apply list_elem_of_In, elem_of_map_to_list, Hx. }
  specialize (Hall _ Hin). cbn beta iota in Hall.
  destruct (d !! key) as [v|]; [eauto | discriminate].
Qed.

Lemma same_str (v : pyval) (s : string) :
  same_value v (Json.JStr s) = true -> v = VStr s.
Proof.
  destruct v; cbn; try discriminate. intros H. apply String.eqb_eq in H. now subst.
Qed.

(** *** What to do with a status dictionary *)

Lemma on_status_completed_without_url (prefix : string) (poll_interval : Z)
    (status_data : dict) (w : world) :
  completed_without_url status_data ->
  exists e, on_status prefix poll_interval status_data w = (w, Raise e) /\
    (e = Exception "Job completed but no result URL found" \/
     e = Exn KeyError "'result_url'").
Proof.
  intros [Hs Hu]. unfold on_status, bind, lift, getitem, raise. rewrite Hs.
  rewrite bool_decide_eq_true_2 by reflexivity.
  destruct (status_data !! "result_url") as [v|].
  - rewrite Hu. cbn. eauto.
  - eauto.
Qed.

Lemma on_status_returns_url (prefix : string) (poll_interval : Z)
    (status_data : dict) (w w' : world) (v : pyval) :
  on_status prefix poll_interval status_data w = (w', Ok (Some v)) ->
  truthy v = true.
Proof.
  unfold on_status, bind, lift, getitem, raise, ret, sleep.
  destruct (status_data !! "status") as [s|]; [|discriminate].
  case_bool_decide.
  - destruct (status_data !! "result_url") as [u|]; [|discriminate].
    destruct (truthy u) eqn:Hu; cbn; [|discriminate]. now intros [= <- <-].
  - case_bool_decide; discriminate.
Qed.

(** Both exceptions of a finished job without URL are system errors. *)
Lemma no_url_is_system_error (e : exn) (context : option string) :
  e = Exception "Job completed but no result URL found" \/
  e = Exn KeyError "'result_url'" ->
  classify_error e context !! "error_type" = Some (VErrorType SYSTEM_ERROR) /\
  classify_error e context !! "is_refundable" = Some (VBool true).
Proof. intros [-> | ->]; split; compute_done. Qed.

(** Going round again after a status dictionary means having slept. *)
Lemma on_status_again (prefix : string) (poll_interval : Z)
    (status_data : dict) (w w' : world) :
  on_status prefix poll_interval status_data w = (w', Ok None) ->
  w' = World (now w + Z.max 0 poll_interval) (calls w ++ [Sleep poll_interval]).
Proof.
  unfold on_status, bind, lift, getitem, raise, ret, sleep.
  destruct (status_data !! "status") as [s|]; [|discriminate].
  case_bool_decide.
  - destruct (status_data !! "result_url") as [u|]; [|discriminate].
    destruct (truthy u); cbn; discriminate.
  - case_bool_decide; [discriminate|]. now intros [= <-].
Qed.

(** *** Loops that stop at a deadline *)

Section Deadline.

Context {A : Type} (body : M world (option A)).
Variables (start_time timeout : Z).

(** Past the deadline a round does not go on; before it, a round that goes
    round again has let the clock advance. *)
Hypothesis stops : forall w w',
  (timeout < now w - start_time)%Z -> body w <> (w', Ok None).
Hypothesis advances : forall w w',
  body w = (w', Ok None) -> (now w + 1 <= now w')%Z.

Lemma while_true_ends (k : nat) :
  forall w, (timeout - (now w - start_time) < Z.of_nat k)%Z ->
    exists r, while_true (S k) body w = Some r.
Proof.
  induction k as [|k IH]; intros w Hk; cbn [while_true].
  - destruct (body w) as [w' [[v|]|e]] eqn:Hb; eauto.
    exfalso. apply (stops w w'); [lia | exact Hb].
  - destruct (body w) as [w' [[v|]|e]] eqn:Hb; eauto.
    apply IH. pose proof (advances _ _ Hb). lia.
Qed.

Lemma while_true_more_fuel (fuel extra : nat) :
  forall w r, while_true fuel body w = Some r ->
    while_true (fuel + extra) body w = Some r.
Proof.
  induction fuel as [|fuel IH]; intros w r; cbn [while_true Nat.add]; [discriminate|].
  destruct (body w) as [w' [[v|]|e]]; auto.
Qed.

(** When every round before the deadline goes round again, the loop ends
    with what the first round after the deadline does. *)
Lemma reaches_deadline (k : nat) :
  (forall w, (now w - start_time <= timeout)%Z -> exists w', body w = (w', Ok None)) ->
  forall w, (timeout - (now w - start_time) < Z.of_nat k)%Z ->
    exists n w', round_start n body w = Some w' /\
                 (timeout < now w' - start_time)%Z.
Proof.
  intros Hgo. induction k as [|k IH]; intros w Hk.
  - exists 0%nat, w. split; [reflexivity | lia].
  - destruct (Z.le_gt_cases (now w - start_time) timeout) as [Hle|Hgt].
    + destruct (Hgo w Hle) as [w1 Hb]. pose proof (advances _ _ Hb).
      destruct (IH w1) as (n & w' & Hn & Hlt); [lia|].
      exists (S n), w'. cbn [round_start]. rewrite Hb. split; assumption.
    + exists 0%nat, w. split; [reflexivity | lia].
Qed.

End Deadline.

(** *** The Fal.ai loop *)

Section FalPolling.

Import FalProvider.

Variable self : providers.
Variables (job_id : string) (timeout poll_interval : Z).

Lemma fal_cycle_past_deadline (start_time : Z) (w : world) :
  (timeout < now w - start_time)%Z ->
  poll_cycle self start_time job_id timeout poll_interval w
  = (w, Raise (fal_timed_out job_id timeout)).
Proof.
  intros H. unfold poll_cycle, bind, loop_time. apply Z.ltb_lt in H.
  rewrite H. reflexivity.
Qed.

Lemma fal_cycle_before_deadline (start_time : Z) (w : world) :
  (now w - start_time <= timeout)%Z ->
  poll_cycle self start_time job_id timeout poll_interval w
  = (status_data <- try_models self job_id models_to_try ;;
     match status_data with
     | None => sleep poll_interval ;;; ret None
     | Some status_data =>
         if bool_decide (status_data = ∅) then sleep poll_interval ;;; ret None
         else on_status "Fal.ai job failed: " poll_interval status_data
     end) w.
Proof.
  intros H. unfold poll_cycle. unfold bind at 1. unfold loop_time.
  replace (timeout <? now w - start_time)%Z with false
    by (symmetry; apply Z.ltb_ge; lia).
  reflexivity.
Qed.

(** Probing never turns the clock back, and the first candidate is asked. *)
Lemma try_models_clock (models : list string) :
  latencies_nonneg self ->
  forall w, (now w <= now (fst (try_models self job_id models w)))%Z.
Proof.
  intros Hl. induction models as [|m ms IH]; intros w; cbn [try_models].
  - cbn. lia.
  - unfold try_except, bind, check_status, await_call, ret.
    pose proof (proj2 (Hl (now w) job_id m)) as Hm.
    destruct (snd (fal_check_status self (now w) job_id m)); cbn [fst].
    + cbn. lia.
    + etransitivity; [|apply IH]. cbn. lia.
Qed.

(** A round that goes round again has slept: the clock is past where the
    round began by the poll interval at least. *)
Lemma fal_cycle_again (start_time : Z) (w w' : world) :
  latencies_nonneg self ->
  poll_cycle self start_time job_id timeout poll_interval w = (w', Ok None) ->
  (now w + Z.max 0 poll_interval <= now w')%Z.
Proof.
  intros Hl. unfold poll_cycle, bind at 1, loop_time.
  destruct (timeout <? now w - start_time)%Z; [discriminate|].
  unfold bind at 1. pose proof (try_models_clock models_to_try Hl w) as Hc.
  destruct (try_models self job_id models_to_try w) as [w1 [[d|]|e]];
    cbn [fst] in Hc; [| |discriminate].
  - case_bool_decide.
    + unfold bind, sleep, ret. intros [= <-]. cbn. lia.
    + intros H1. apply on_status_again in H1. subst w'. cbn. lia.
  - unfold bind, sleep, ret. intros [= <-]. cbn. lia.
Qed.

(** When the SDK raises for the models to try, the status check of the
    first says PROCESSING for want of an answer: the round sleeps and goes
    round again, the one probe and the sleep are all it does. *)
Lemma fal_cycle_probes_fail (start_time : Z) (w : world) :
  probes_fail self job_id (now w) ->
  (now w - start_time <= timeout)%Z ->
  poll_cycle self start_time job_id timeout poll_interval w
  = (World (now w + fst (fal_check_status self (now w) job_id first_model)
            + Z.max 0 poll_interval)
           (calls w ++ [FalStatus job_id first_model; Sleep poll_interval]),
     Ok None).
Proof.
  intros (sdk & repr & Hsdk) Hle.
  destruct (Hsdk first_model) as [Hans [e He]]; [now left|].
  unfold fal_answers, FalClient.check_status, try_except, bind,
    FalClient.await_sdk in Hans.
  rewrite He in Hans. cbn [snd ret] in Hans. destruct Hans as (d & Hd & Hsame).
  destruct (same_dict_lookup _ _ "status" _ Hsame eq_refl) as (s & Hs & Hv).
  apply same_str in Hv as ->.
  rewrite (fal_cycle_before_deadline _ _ Hle).
  unfold models_to_try, try_models, try_except, bind at 1, bind at 1,
    check_status, await_call, ret.
  fold first_model. rewrite Hd.
  rewrite bool_decide_eq_false_2
    by (intros ->; rewrite lookup_empty in Hs; discriminate).
  unfold on_status, bind, lift, getitem, sleep, ret. rewrite Hs.
  rewrite bool_decide_eq_false_2 by discriminate.
  rewrite bool_decide_eq_false_2 by discriminate.
  cbn [now calls]. now rewrite <- app_assoc.
Qed.

End FalPolling.

(** *** The Veo3 loop *)

Section Veo3Polling.

Import Veo3Provider.

Variable self : providers.
Variables (job_id provider : string) (timeout poll_interval : Z).

Lemma veo3_cycle_past_deadline (start_time : Z) (w : world) :
  (timeout < now w - start_time)%Z ->
  poll_cycle self start_time job_id provider timeout poll_interval w
  = (w, Raise (veo3_timed_out job_id timeout)).
Proof.
  intros H. unfold poll_cycle, bind, loop_time. apply Z.ltb_lt in H.
  rewrite H. reflexivity.
Qed.

Lemma veo3_cycle_before_deadline (start_time : Z) (w : world) :
  (now w - start_time <= timeout)%Z ->
  poll_cycle self start_time job_id provider timeout poll_interval w
  = (status_data <- get_status self job_id provider ;;
     on_status "Veo3 job failed: " poll_interval status_data) w.
Proof.
  intros H. unfold poll_cycle. unfold bind at 1. unfold loop_time.
  replace (timeout <? now w - start_time)%Z with false
    by (symmetry; apply Z.ltb_ge; lia).
  reflexivity.
Qed.

Lemma get_status_clock (w : world) :
  latencies_nonneg self ->
  (now w <= now (fst (get_status self job_id provider w)))%Z.
Proof.
  intros Hl. unfold get_status, FalProvider.get_status, FalProvider.check_status.
  destruct (String.eqb provider "kie"); [|destruct (String.eqb provider "fal")].
  - cbn. pose proof (proj1 (Hl (now w) job_id "veo3")). lia.
  - cbn. pose proof (proj2 (Hl (now w) job_id "fal-ai/veo3.1/image-to-video")). lia.
  - cbn. lia.
Qed.

Lemma veo3_cycle_again (start_time : Z) (w w' : world) :
  latencies_nonneg self ->
  poll_cycle self start_time job_id provider timeout poll_interval w = (w', Ok None) ->
  (now w + Z.max 0 poll_interval <= now w')%Z.
Proof.
  intros Hl. unfold poll_cycle, bind at 1, loop_time.
  destruct (timeout <? now w - start_time)%Z; [discriminate|].
  unfold bind at 1. pose proof (get_status_clock w Hl) as Hc.
  destruct (get_status self job_id provider w) as [w1 [d|e]];
    cbn [fst] in Hc; [|discriminate].
  intros H1. apply on_status_again in H1. subst w'. cbn. lia.
Qed.

End Veo3Polling.

(** Rounds that were followed by another began before the deadline. *)
Lemma round_start_earlier {A} (body : M world (option A)) (m k : nat) :
  forall w0 w, round_start (S m + k) body w0 = Some w ->
    exists wm w', round_start m body w0 = Some wm /\ body wm = (w', Ok None).
Proof.
  induction m as [|m IH]; intros w0 w.
  - cbn [Nat.add round_start]. destruct (body w0) as [w1 [[v|]|e]] eqn:Hb;
      try discriminate. intros _. eauto.
  - change (S (S m) + k)%nat with (S (S m + k)). cbn [round_start].
    destruct (body w0) as [w1 [[v|]|e]]; try discriminate. apply IH.
Qed.

Section PollingClaims.

Variable self : providers.
Variables (job_id provider : string) (timeout poll_interval : Z).
Variable w0 : world.

Local Abbreviation fal_round :=
  (FalProvider.poll_cycle self (now w0) job_id timeout poll_interval).
Local Abbreviation veo3_round :=
  (Veo3Provider.poll_cycle self (now w0) job_id provider timeout poll_interval).
Local Abbreviation fal_wait fuel :=
  (FalProvider.wait_for_completion self fuel job_id timeout poll_interval w0).
Local Abbreviation veo3_wait fuel :=
  (Veo3Provider.wait_for_completion self fuel job_id provider timeout poll_interval w0).

Lemma fal_stops (w w' : world) :
  (timeout < now w - now w0)%Z -> fal_round w <> (w', Ok None).
Proof. intros H. now rewrite (fal_cycle_past_deadline _ _ _ _ _ _ H). Qed.

Lemma veo3_stops (w w' : world) :
  (timeout < now w - now w0)%Z -> veo3_round w <> (w', Ok None).
Proof. intros H. now rewrite (veo3_cycle_past_deadline _ _ _ _ _ _ _ H). Qed.

(** C6: both polling loops measure the deadline from loop entry.  The round
    that begins more than [timeout] after entry raises the timeout exception
    without asking for the status, and it is the first such round: every
    round before it began within the deadline.  A round that begins within
    the deadline goes on to the status check.  In the Fal.ai loop, a round
    in which the probe fails for every candidate model, the SDK raising
    where it is asked for the status, is a round like any other in which the
    job is not done: the status check of the first candidate says
    PROCESSING, the round sleeps and goes round again; the other candidate
    is not asked, and no exception comes of it.  When this happens in every
    round the run ends with the timeout exception, not with a failure of the
    job.  With a positive poll interval and replies that take no negative
    time both loops end within [timeout + 2] rounds. *)
Theorem polling_deadline_from_entry :
  (forall n w fuel,
     round_start n fal_round w0 = Some w -> (timeout < now w - now w0)%Z ->
     fal_wait (n + S fuel) = Some (w, Raise (fal_timed_out job_id timeout))) /\
  (forall n w fuel,
     round_start n veo3_round w0 = Some w -> (timeout < now w - now w0)%Z ->
     veo3_wait (n + S fuel) = Some (w, Raise (veo3_timed_out job_id timeout))) /\
  (forall m k w,
     (round_start (S m + k) fal_round w0 = Some w ->
      exists wm, round_start m fal_round w0 = Some wm /\
                 (now wm - now w0 <= timeout)%Z) /\
     (round_start (S m + k) veo3_round w0 = Some w ->
      exists wm, round_start m veo3_round w0 = Some wm /\
                 (now wm - now w0 <= timeout)%Z)) /\
  (forall w, (now w - now w0 <= timeout)%Z ->
     fal_round w
     = (status_data <- FalProvider.try_models self job_id FalProvider.models_to_try ;;
        match status_data with
        | None => sleep poll_interval ;;; ret None
        | Some status_data =>
            if bool_decide (status_data = ∅) then sleep poll_interval ;;; ret None
            else on_status "Fal.ai job failed: " poll_interval status_data
        end) w /\
     veo3_round w
     = (status_data <- Veo3Provider.get_status self job_id provider ;;
        on_status "Veo3 job failed: " poll_interval status_data) w) /\
  (forall w, (now w - now w0 <= timeout)%Z ->
     probes_fail self job_id (now w) ->
     fal_round w
     = (World (now w + fst (fal_check_status self (now w) job_id first_model)
               + Z.max 0 poll_interval)
              (calls w ++ [FalStatus job_id first_model; Sleep poll_interval]),
        Ok None)) /\
  ((forall t, probes_fail self job_id t) ->
   latencies_nonneg self -> (0 < poll_interval)%Z ->
   exists n w,
     round_start n fal_round w0 = Some w /\ (timeout < now w - now w0)%Z /\
     forall fuel,
       fal_wait (n + S fuel) = Some (w, Raise (fal_timed_out job_id timeout))) /\
  (latencies_nonneg self -> (0 < poll_interval)%Z ->
   forall fuel, (Z.to_nat timeout + 2 <= fuel)%nat ->
     (exists r, fal_wait fuel = Some r) /\ (exists r, veo3_wait fuel = Some r)).
Proof.
  assert (Hfal_adv : latencies_nonneg self -> (0 < poll_interval)%Z ->
            forall w w', fal_round w = (w', Ok None) -> (now w + 1 <= now w')%Z).
  { intros Hl Hp w w' Hb.
    pose proof (fal_cycle_again _ _ _ _ _ _ _ Hl Hb). lia. }
  assert (Hveo_adv : latencies_nonneg self -> (0 < poll_interval)%Z ->
            forall w w', veo3_round w = (w', Ok None) -> (now w + 1 <= now w')%Z).
  { intros Hl Hp w w' Hb.
    pose proof (veo3_cycle_again _ _ _ _ _ _ _ _ Hl Hb). lia. }
  repeat apply conj.
  - intros n w fuel Hn Hlt. unfold FalProvider.wait_for_completion.
    apply (while_true_raises _ _ _ _ _ _ _ Hn).
    apply fal_cycle_past_deadline, Hlt.
  - intros n w fuel Hn Hlt. unfold Veo3Provider.wait_for_completion.
    apply (while_true_raises _ _ _ _ _ _ _ Hn).
    apply veo3_cycle_past_deadline, Hlt.
  - intros m k w. split; intros H;
      destruct (round_start_earlier _ _ _ _ _ H) as (wm & w' & Hm & Hb);
      exists wm; (split; [exact Hm|]);
      destruct (Z.le_gt_cases (now wm - now w0) timeout) as [Hle|Hgt]; try exact Hle.
    + exfalso. apply (fal_stops wm w'); [lia | exact Hb].
    + exfalso. apply (veo3_stops wm w'); [lia | exact Hb].
  - intros w Hle. split.
    + apply fal_cycle_before_deadline, Hle.
    + apply veo3_cycle_before_deadline, Hle.
  - intros w Hle Hf. apply fal_cycle_probes_fail; assumption.
  - intros Hf Hl Hp.
    destruct (reaches_deadline fal_round (now w0) timeout (Hfal_adv Hl Hp)
                (Z.to_nat timeout + 1)) with (w := w0) as (n & w & Hn & Hlt).
    + intros w Hle. eexists.
      apply (fal_cycle_probes_fail self job_id timeout poll_interval (now w0) w
               (Hf (now w)) Hle).
    + lia.
    + exists n, w. repeat split; try assumption. intros fuel.
      unfold FalProvider.wait_for_completion.
      apply (while_true_raises _ _ _ _ _ _ _ Hn).
      apply fal_cycle_past_deadline, Hlt.
  - intros Hl Hp fuel Hfuel.
    replace fuel with (S (Z.to_nat timeout + 1) + (fuel - (Z.to_nat timeout + 2)))%nat
      by lia.
    unfold FalProvider.wait_for_completion, Veo3Provider.wait_for_completion. split.
    + destruct (while_true_ends fal_round (now w0) timeout fal_stops (Hfal_adv Hl Hp)
                  (Z.to_nat timeout + 1) w0) as [r Hr]; [lia|].
      exists r. now apply while_true_more_fuel.
    + destruct (while_true_ends veo3_round (now w0) timeout veo3_stops (Hveo_adv Hl Hp)
                  (Z.to_nat timeout + 1) w0) as [r Hr]; [lia|].
      exists r. now apply while_true_more_fuel.
Qed.

(** C7: a status that says COMPLETED without a result URL makes
    [wait_for_completion] raise, in the Veo3 loop and in the Fal.ai loop, and
    [classify_error] files the exception raised under SYSTEM_ERROR,
    refundable.  What [wait_for_completion] returns is never empty. *)
Theorem completed_without_url_raises (context : option string) :
  (forall n w w1 status_data fuel,
     round_start n veo3_round w0 = Some w -> (now w - now w0 <= timeout)%Z ->
     Veo3Provider.get_status self job_id provider w = (w1, Ok status_data) ->
     completed_without_url status_data ->
     exists e,
       veo3_wait (n + S fuel) = Some (w1, Raise e) /\
       classify_error e context !! "error_type" = Some (VErrorType SYSTEM_ERROR) /\
       classify_error e context !! "is_refundable" = Some (VBool true)) /\
  (forall n w w1 status_data fuel,
     round_start n fal_round w0 = Some w -> (now w - now w0 <= timeout)%Z ->
     FalProvider.try_models self job_id FalProvider.models_to_try w
       = (w1, Ok (Some status_data)) ->
     completed_without_url status_data ->
     exists e,
       fal_wait (n + S fuel) = Some (w1, Raise e) /\
       classify_error e context !! "error_type" = Some (VErrorType SYSTEM_ERROR) /\
       classify_error e context !! "is_refundable" = Some (VBool true)) /\
  (forall fuel w' v,
     veo3_wait fuel = Some (w', Ok v) \/ fal_wait fuel = Some (w', Ok v) ->
     truthy v = true).
Proof.
  repeat apply conj.
  - intros n w w1 status_data fuel Hn Hle Hs Hc.
    destruct (on_status_completed_without_url "Veo3 job failed: " poll_interval
                status_data w1 Hc) as (e & He & Hcase).
    exists e. split; [|apply no_url_is_system_error, Hcase].
    unfold Veo3Provider.wait_for_completion.
    apply (while_true_raises _ _ _ _ _ _ _ Hn).
    rewrite (veo3_cycle_before_deadline _ _ _ _ _ _ _ Hle).
    unfold bind at 1. rewrite Hs. exact He.
  - intros n w w1 status_data fuel Hn Hle Hs Hc.
    destruct (on_status_completed_without_url "Fal.ai job failed: " poll_interval
                status_data w1 Hc) as (e & He & Hcase).
    exists e. split; [|apply no_url_is_system_error, Hcase].
    unfold FalProvider.wait_for_completion.
    apply (while_true_raises _ _ _ _ _ _ _ Hn).
    rewrite (fal_cycle_before_deadline _ _ _ _ _ _ Hle).
    unfold bind at 1. rewrite Hs.
    rewrite bool_decide_eq_false_2; [exact He|].
    intros ->. destruct Hc as [Hc _]. rewrite lookup_empty in Hc. discriminate.
  - intros fuel w' v [H|H].
    + unfold Veo3Provider.wait_for_completion in H.
      destruct (while_true_returns _ _ _ _ _ H) as (n & w & Hn & Hb).
      destruct (Z.le_gt_cases (now w - now w0) timeout) as [Hle|Hgt].
      * rewrite (veo3_cycle_before_deadline _ _ _ _ _ _ _ Hle) in Hb.
        unfold bind at 1 in Hb.
        destruct (Veo3Provider.get_status self job_id provider w) as [w1 [d|e]];
          [|discriminate].
        eapply on_status_returns_url, Hb.
      * rewrite (veo3_cycle_past_deadline _ _ _ _ _ _ _ Hgt) in Hb. discriminate.
    + unfold FalProvider.wait_for_completion in H.
      destruct (while_true_returns _ _ _ _ _ H) as (n & w & Hn & Hb).
      destruct (Z.le_gt_cases (now w - now w0) timeout) as [Hle|Hgt].
      * rewrite (fal_cycle_before_deadline _ _ _ _ _ _ Hle) in Hb.
        unfold bind at 1 in Hb.
        destruct (FalProvider.try_models self job_id FalProvider.models_to_try w)
          as [w1 [[d|]|e]]; [| |discriminate].
        -- case_bool_decide; [discriminate|]. eapply on_status_returns_url, Hb.
        -- discriminate.
      * rewrite (fal_cycle_past_deadline _ _ _ _ _ _ Hgt) in Hb. discriminate.
Qed.

End PollingClaims.

(** The polling loops on the sample providers. *)

Lemma out_of_reach_probes_fail (t : Z) : probes_fail fal_out_of_reach "job-1" t.
Proof.
  exists fal_read_timeout, no_repr. intros model _. split.
  - exists assumed_processing. split; [reflexivity | compute_done].
  - eexists. reflexivity.
Qed.

Lemma out_of_reach_latencies : latencies_nonneg fal_out_of_reach.
Proof. intros t j m. cbn. lia. Qed.

Lemma polling_deadline_from_entry_witness :
  FalProvider.wait_for_completion fal_out_of_reach (3 + 1) "job-1" 12 5 idle
    = Some (out_of_reach_last_round, Raise (fal_timed_out "job-1" 12)) /\
  Veo3Provider.wait_for_completion never_done (2 + 1) "job-1" "kie" 60 30 idle
    = Some (never_done_last_round, Raise (veo3_timed_out "job-1" 60)) /\
  FalProvider.poll_cycle fal_out_of_reach (now idle) "job-1" 12 5 idle
    = (World 6 [FalStatus "job-1" first_model; Sleep 5], Ok None) /\
  (exists n w,
     round_start n (FalProvider.poll_cycle fal_out_of_reach (now idle) "job-1" 12 5) idle
       = Some w /\
     (12 < now w - now idle)%Z /\
     forall fuel,
       FalProvider.wait_for_completion fal_out_of_reach (n + S fuel) "job-1" 12 5 idle
       = Some (w, Raise (fal_timed_out "job-1" 12))) /\
  ((exists r, FalProvider.wait_for_completion fal_out_of_reach 14 "job-1" 12 5 idle
              = Some r) /\
   (exists r, Veo3Provider.wait_for_completion fal_out_of_reach 14 "job-1" "kie" 12 5 idle
              = Some r)).
Proof.
  split; [|split; [|split; [|split]]].
  - apply (proj1 (polling_deadline_from_entry fal_out_of_reach "job-1" "kie" 12 5 idle)
                 3%nat out_of_reach_last_round 0%nat); compute_done.
  - apply (proj1 (proj2 (polling_deadline_from_entry never_done "job-1" "kie" 60 30 idle))
                 2%nat never_done_last_round 0%nat); compute_done.
  - destruct (polling_deadline_from_entry fal_out_of_reach "job-1" "kie" 12 5 idle)
      as (_ & _ & _ & _ & Hprobe & _).
    apply (Hprobe idle); [compute_done | apply out_of_reach_probes_fail].
  - apply (polling_deadline_from_entry fal_out_of_reach "job-1" "kie" 12 5 idle).
    + exact out_of_reach_probes_fail.
    + exact out_of_reach_latencies.
    + lia.
  - apply (polling_deadline_from_entry fal_out_of_reach "job-1" "kie" 12 5 idle).
    + exact out_of_reach_latencies.
    + lia.
    + compute_done.
Defined.

Lemma completed_without_url_raises_witness :
  (exists e,
     Veo3Provider.wait_for_completion done_without_url (1 + 1) "job-1" "kie" 60 30 idle
       = Some (World 32 [KieStatus "job-1" "veo3"; Sleep 30; KieStatus "job-1" "veo3"],
               Raise e) /\
     classify_error e (Some "stage3") !! "error_type" = Some (VErrorType SYSTEM_ERROR) /\
     classify_error e (Some "stage3") !! "is_refundable" = Some (VBool true)) /\
  (exists e,
     FalProvider.wait_for_completion done_without_url (2 + 1) "job-1" 60 5 idle
       = Some (World 13
                 [FalStatus "job-1" "fal-ai/bytedance/seedream/v4/text-to-image"; Sleep 5;
                  FalStatus "job-1" "fal-ai/bytedance/seedream/v4/text-to-image"; Sleep 5;
                  FalStatus "job-1" "fal-ai/bytedance/seedream/v4/text-to-image"],
               Raise e) /\
     classify_error e (Some "stage3") !! "error_type" = Some (VErrorType SYSTEM_ERROR) /\
     classify_error e (Some "stage3") !! "is_refundable" = Some (VBool true)).
Proof.
  pose proof (completed_without_url_raises done_without_url "job-1" "kie" 60 30 idle
                (Some "stage3")) as (Hveo & _ & _).
  pose proof (completed_without_url_raises done_without_url "job-1" "kie" 60 5 idle
                (Some "stage3")) as (_ & Hfal & _).
  split.
  - apply (Hveo 1%nat (World 31 [KieStatus "job-1" "veo3"; Sleep 30])
             (World 32 [KieStatus "job-1" "veo3"; Sleep 30; KieStatus "job-1" "veo3"])
             no_url_status 0%nat);
      [compute_done | compute_done | compute_done |].
    split; reflexivity.
  - apply (Hfal 2%nat
             (World 12 [FalStatus "job-1" "fal-ai/bytedance/seedream/v4/text-to-image";
                        Sleep 5;
                        FalStatus "job-1" "fal-ai/bytedance/seedream/v4/text-to-image";
                        Sleep 5])
             (World 13
                 [FalStatus "job-1" "fal-ai/bytedance/seedream/v4/text-to-image"; Sleep 5;
                  FalStatus "job-1" "fal-ai/bytedance/seedream/v4/text-to-image"; Sleep 5;
                  FalStatus "job-1" "fal-ai/bytedance/seedream/v4/text-to-image"])
             no_url_status 0%nat);
      [compute_done | compute_done | compute_done |].
    split; reflexivity.
Defined.

(** ** The pipeline orchestrator *)

Section RunLogic.

Import PipelineOrchestrator.

(** *** Stepping through a computation *)

Lemma wp_ret {A} (a : A) Q E tr : Q a tr -> wp (ret a) Q E tr.
Proof. exact (fun H => H). Qed.

Lemma wp_await_step {A B} (ev : result A -> event) (o : result A)
    (k : A -> M trace B) Q E tr :
  (forall a, o = Ok a -> wp (k a) Q E (tr ++ [ev (Ok a)])) ->
  (forall e, o = Raise e -> E e (tr ++ [ev (Raise e)])%list) ->
  wp (x <- await ev o ;; k x) Q E tr.
Proof.
  intros Hok Hraise. unfold wp, bind, await.
  destruct o as [a|e]; [exact (Hok a eq_refl) | exact (Hraise e eq_refl)].
Qed.

Lemma wp_lift_step {A B} (r : result A) (k : A -> M trace B) Q E tr :
  (forall a, r = Ok a -> wp (k a) Q E tr) ->
  (forall e, r = Raise e -> E e tr) ->
  wp (x <- lift r ;; k x) Q E tr.
Proof.
  intros Hok Hraise. unfold wp, bind, lift.
  destruct r as [a|e]; [exact (Hok a eq_refl) | exact (Hraise e eq_refl)].
Qed.

Lemma wp_getitem_step {B} (d : dict) (key : string) (k : pyval -> M trace B) Q E tr :
  (forall v, d !! key = Some v -> wp (k v) Q E tr) ->
  (forall e, E e tr) ->
  wp (x <- lift (getitem d key) ;; k x) Q E tr.
Proof.
  intros Hok Hraise. apply wp_lift_step; unfold getitem.
  - intros a. destruct (d !! key) as [v|]; [|discriminate].
    intros [= <-]. now apply Hok.
  - intros e _. apply Hraise.
Qed.

Lemma wp_block_step {A B} (c : M trace A) (N : event -> Prop)
    (k : A -> M trace B) Q E tr :
  appends c N ->
  (forall l a, Forall N l -> wp (k a) Q E (tr ++ l)) ->
  (forall l e, Forall N l -> E e (tr ++ l)%list) ->
  wp (x <- c ;; k x) Q E tr.
Proof.
  intros Hc Hok Hraise. unfold wp, bind.
  destruct (Hc tr) as (l & Hl & HN). destruct (c tr) as [tr' [a|e]]; cbn in Hl; subst tr'.
  - exact (Hok l a HN).
  - exact (Hraise l e HN).
Qed.

Lemma wp_try {A} (c : M trace A) (handler : exn -> M trace A) Q E tr :
  wp c Q (fun e tr' => wp (handler e) Q E tr') tr ->
  wp (try_except c handler) Q E tr.
Proof. unfold wp, try_except. destruct (c tr) as [tr' [a|e]]; exact (fun H => H). Qed.

(** *** Blocks and what they add to the trace *)

Lemma exists_last_or_nil {X} (l : list X) :
  l = [] \/ exists l' x, l = (l' ++ [x])%list.
Proof.
  destruct l as [|x l]; [now left | right].
  destruct (@exists_last _ (x :: l)) as (l' & y & ->); [discriminate | eauto].
Qed.

Lemma appends_ret {A} (a : A) N : appends (ret a) N.
Proof. intros tr. exists []. cbn. now rewrite app_nil_r. Qed.

Lemma appends_raise {A} (e : exn) N : appends (@raise trace A e) N.
Proof. intros tr. exists []. cbn. now rewrite app_nil_r. Qed.

Lemma appends_lift {A} (r : result A) N : appends (lift r) N.
Proof. intros tr. exists []. cbn. now rewrite app_nil_r. Qed.

Lemma appends_await {A} (ev : result A -> event) (o : result A) (N : event -> Prop) :
  N (ev o) -> appends (await ev o) N.
Proof. intros H tr. exists [ev o]. cbn. split; [reflexivity | now constructor]. Qed.

Lemma appends_bind {A B} (c : M trace A) (k : A -> M trace B) N :
  appends c N -> (forall a, appends (k a) N) -> appends (x <- c ;; k x) N.
Proof.
  intros Hc Hk tr. unfold bind. destruct (Hc tr) as (l & Hl & HN).
  destruct (c tr) as [tr' [a|e]]; cbn in Hl; subst tr'.
  - destruct (Hk a (tr ++ l)%list) as (l' & Hl' & HN').
    exists (l ++ l')%list. rewrite Hl', app_assoc. split; [reflexivity|].
    now apply Forall_app.
  - exists l. now split.
Qed.

Lemma appends_try {A} (c : M trace A) (handler : exn -> M trace A) N :
  appends c N -> (forall e, appends (handler e) N) -> appends (try_except c handler) N.
Proof.
  intros Hc Hh tr. unfold try_except. destruct (Hc tr) as (l & Hl & HN).
  destruct (c tr) as [tr' [a|e]]; cbn in Hl; subst tr'.
  - exists l. now split.
  - destruct (Hh e (tr ++ l)%list) as (l' & Hl' & HN').
    exists (l ++ l')%list. rewrite Hl', app_assoc. split; [reflexivity|].
    now apply Forall_app.
Qed.

Lemma total_ret {A} (a : A) : total (@ret trace A a).
Proof. intros tr. now exists a. Qed.

Lemma total_try_ret {A} (c : M trace A) (f : exn -> A) :
  total (try_except c (fun e => ret (f e))).
Proof.
  intros tr. unfold try_except, ret. destruct (c tr) as [tr' [a|e]]; cbn; eauto.
Qed.


(** *** Order and cleanliness of traces *)

Lemma stored_app tr l kind url : stored tr kind url -> stored (tr ++ l) kind url.
Proof.
  intros (s & u & g & d & Hin & Hd). exists s, u, g, d. split; [|exact Hd].
  apply in_or_app. now left.
Qed.

Lemma stored_upload tr kind source user_id generation_id d url :
  d !! "s3_url" = Some url ->
  stored (tr ++ [Upload kind source user_id generation_id (Ok d)]) kind url.
Proof.
  intros Hd. exists source, user_id, generation_id, d. split; [|exact Hd].
  apply in_or_app. right. now left.
Qed.

Lemma event_ok_later chained tr l ev :
  event_ok chained tr ev -> event_ok chained (tr ++ l) ev.
Proof.
  destruct ev; cbn; auto using stored_app;
    intros [H Hc]; (split; [|exact Hc]);
    intros key kind u Hin Hd; apply stored_app; eauto.
Qed.

Lemma ordered_nil chained : ordered chained [].
Proof. intros before ev after H. now destruct before. Qed.

Lemma ordered_snoc chained tr ev :
  ordered chained tr -> event_ok chained tr ev -> ordered chained (tr ++ [ev]).
Proof.
  intros Htr Hev before ev' after Heq.
  destruct (exists_last_or_nil after) as [-> | (after' & last & ->)].
  - apply app_inj_tail in Heq as [<- <-]. exact Hev.
  - change (before ++ ev' :: after' ++ [last])%list
      with (before ++ (ev' :: after') ++ [last])%list in Heq.
    rewrite app_assoc in Heq. apply app_inj_tail in Heq as [-> _].
    now apply (Htr before ev' after').
Qed.

Lemma ordered_app chained tr l :
  ordered chained tr -> Forall (event_ok chained tr) l -> ordered chained (tr ++ l).
Proof.
  revert tr. induction l as [|ev l IH]; intros tr Htr Hl.
  - now rewrite app_nil_r.
  - inversion Hl as [|? ? Hev Hl']; subst.
    change (tr ++ ev :: l)%list with (tr ++ [ev] ++ l)%list. rewrite app_assoc.
    apply IH; [now apply ordered_snoc|].
    eapply Forall_impl; [exact Hl'|]. intros ev'. apply event_ok_later.
Qed.

Lemma enrichment_event_ok chained tr ev : enrichment ev = true -> event_ok chained tr ev.
Proof. destruct ev; cbn; first [discriminate | intros _; exact I]. Qed.

Lemma enrichment_clean ev :
  enrichment ev = true -> critical_failure ev = None /\ ~ failure_post ev.
Proof. destruct ev; cbn; first [discriminate | intros _; split; [reflexivity | tauto]]. Qed.

End RunLogic.

Section Tracking.

Import PipelineOrchestrator.

Variable self : collaborators.
Variable chained : bool.

Lemma on_track_nil : on_track chained [].
Proof. split; [apply ordered_nil | constructor]. Qed.

Lemma on_track_snoc tr ev :
  on_track chained tr -> event_ok chained tr ev ->
  critical_failure ev = None -> ~ failure_post ev ->
  on_track chained (tr ++ [ev]).
Proof.
  intros [Ho Hc] Hev Hcf Hfp. split; [now apply ordered_snoc|].
  apply Forall_app. split; [exact Hc | now repeat constructor].
Qed.

Lemma on_track_enrichment tr l :
  on_track chained tr -> Forall (fun ev => enrichment ev = true) l ->
  on_track chained (tr ++ l).
Proof.
  intros [Ho Hc] Hl. split.
  - apply ordered_app; [exact Ho|].
    eapply Forall_impl; [exact Hl|]. intros ev. apply enrichment_event_ok.
  - apply Forall_app. split; [exact Hc|].
    eapply Forall_impl; [exact Hl|]. intros ev. apply enrichment_clean.
Qed.

Lemma on_track_nothing tr l :
  on_track chained tr -> Forall (fun _ => False) l -> on_track chained (tr ++ l).
Proof. intros H Hl. destruct Hl as [|ev l []]. now rewrite app_nil_r. Qed.

Lemma on_track_notify tr data :
  on_track chained tr ->
  data !! "status" <> Some (VStr "FAILED") ->
  report_ok tr data ->
  on_track chained (tr ++ [Notify data]).
Proof.
  intros H Hs Hd. apply on_track_snoc; [exact H | exact Hd | reflexivity | exact Hs].
Qed.

Lemma derailed_snoc tr ev e :
  on_track chained tr -> event_ok chained tr ev -> critical_failure ev = Some e ->
  derailed chained e (tr ++ [ev]).
Proof.
  intros [Ho Hc] Hev Hcf. split; [now apply ordered_snoc|].
  right. exists tr, ev. auto.
Qed.

Lemma derailed_on_track tr e : on_track chained tr -> derailed chained e tr.
Proof. intros [Ho Hc]. split; [exact Ho | now left]. Qed.

(** *** Webhooks *)

(** Reading [settings.PYTHON_API_KEY] raises: the class declares no such
    field. *)
Lemma webhook_headers_raise :
  webhook_headers self
  = Raise (Exn AttributeError "'Settings' object has no attribute 'PYTHON_API_KEY'").
Proof. reflexivity. Qed.

(** The [try] block returns, whatever the headers and the sink: it makes
    the request once when the headers are there, and not at all when
    building them raised. *)
Lemma post_webhook_run headers data tr :
  post_webhook self headers data tr
  = ((tr ++ match headers with
            | Ok h => [Post (webhook_url self) data
                            (http_post self (webhook_url self) data h)]
            | Raise _ => []
            end)%list, Ok tt).
Proof.
  unfold post_webhook, try_except, bind, lift, await, ret.
  destruct headers as [h|e]; cbn.
  - destruct (http_post self (webhook_url self) data h); reflexivity.
  - now rewrite app_nil_r.
Qed.

Lemma send_webhook_run data tr :
  _send_webhook self data tr = ((tr ++ [Notify data])%list, Ok tt).
Proof.
  unfold _send_webhook, called, bind. cbn [fst snd].
  destruct (negb (truthy (webhook_url self))); [reflexivity|].
  rewrite post_webhook_run, webhook_headers_raise. now rewrite app_nil_r.
Qed.

Lemma wp_webhook_step {B} data (k : M trace B) Q E tr :
  wp k Q E (tr ++ [Notify data]) ->
  wp (_send_webhook self data ;;; k) Q E tr.
Proof. unfold wp, bind. now rewrite send_webhook_run. Qed.

End Tracking.

(** Follows a block and shows what kind of events it adds. *)
Ltac adds_only :=
  repeat first
    [ progress unfold PipelineOrchestrator.analyze_if_configured,
        PipelineOrchestrator.analyze_and_enhance,
        PipelineOrchestrator.enhance_if_possible
    | apply appends_ret | apply appends_raise | apply appends_lift
    | apply appends_await; reflexivity
    | apply appends_bind; [|intros ?]
    | apply appends_try; [|intros ?]
    | match goal with
      | |- PipelineOrchestrator.appends (if ?b then _ else _) _ => destruct b
      | |- PipelineOrchestrator.appends (match ?x with _ => _ end) _ => destruct x
      end ].

(** One step along the main line of an entry point, with the invariant
    [H] of the trace so far at hand. *)
Ltac solve_stored :=
  repeat first [ eassumption | eapply stored_upload; eassumption | apply stored_app ].

Ltac carries key kind :=
  exists key, kind;
  split; [ cbn [PipelineOrchestrator.artifact_keys In]; tauto
         | split; [ reflexivity | vm_compute; eexists; reflexivity ] ].

Ltac report_complete :=
  let n := fresh "n" in let Hs := fresh "Hs" in let Hn := fresh "Hn" in
  intros n [Hs Hn]; vm_compute in Hs;
  first
    [ discriminate Hs
    | destruct Hn as [Hn|Hn]; vm_compute in Hn;
      first
        [ discriminate Hn
        | injection Hn as <-;
          first [ carries "person_url"%string PipelineOrchestrator.PersonImage
                | carries "generated_person_url"%string PipelineOrchestrator.PersonImage
                | carries "composite_url"%string PipelineOrchestrator.CompositeImage
                | carries "composite_image_url"%string
                    PipelineOrchestrator.CompositeImage
                | carries "video_url"%string PipelineOrchestrator.Video ] ] ].

Ltac report_stored :=
  let key := fresh "key" in let kind := fresh "kind" in let u := fresh "u" in
  let Hin := fresh "Hin" in let Hl := fresh "Hl" in
  split; [ | report_complete ];
  intros key kind u Hin Hl;
  cbn [PipelineOrchestrator.artifact_keys In] in Hin;
  repeat (destruct Hin as [Hin|Hin];
          [ injection Hin as <- <-; vm_compute in Hl;
            first [ discriminate Hl | injection Hl as <-; solve_stored ]
          | ]);
  contradiction.

Ltac event_is_ok :=
  cbn [PipelineOrchestrator.event_ok PipelineOrchestrator.edit_base_image_url
       PipelineOrchestrator.veo3_image_url];
  first [ exact I | discriminate | intros _; solve_stored ].

(** Walks along the main line of an entry point's steps; [H] is the
    invariant of the trace so far. *)
Ltac extend_invariant H' tac :=
  lazymatch goal with
  | |- PipelineOrchestrator.wp _ _ _ ?tr' =>
      assert (H' : PipelineOrchestrator.on_track _ tr') by tac
  end.

Ltac track H :=
  cbv zeta;
  lazymatch goal with
  | |- PipelineOrchestrator.wp (ret _) _ _ _ => exact H
  | |- PipelineOrchestrator.wp (bind (PipelineOrchestrator.await _ _) _) _ _ _ =>
      apply wp_await_step;
      [ let a := fresh "a" in let Ho := fresh "Ho" in
        let H' := fresh "Htrack" in
        intros a Ho;
        extend_invariant H'
          ltac:(apply on_track_snoc;
                [ exact H | event_is_ok | reflexivity | exact (fun contra => contra) ]);
        track H'
      | let e := fresh "e" in let Ho := fresh "Ho" in
        intros e Ho; apply derailed_snoc; [ exact H | event_is_ok | reflexivity ] ]
  | |- PipelineOrchestrator.wp (bind (lift (getitem _ _)) _) _ _ _ =>
      apply wp_getitem_step;
      [ let v := fresh "v" in let Hv := fresh "Hv" in intros v Hv; track H
      | intros ?; apply derailed_on_track; exact H ]
  | |- PipelineOrchestrator.wp (bind (lift _) _) _ _ _ =>
      apply wp_lift_step;
      [ intros ? ?; track H
      | intros ? ?; apply derailed_on_track; exact H ]
  | |- PipelineOrchestrator.wp (bind (PipelineOrchestrator._send_webhook _ _) _) _ _ _ =>
      apply wp_webhook_step;
      let H' := fresh "Htrack" in
      extend_invariant H'
        ltac:(apply on_track_notify;
              [ exact H | vm_compute; discriminate | report_stored ]);
      track H'
  | |- PipelineOrchestrator.wp (let '(_, _) := ?p in _) _ _ _ =>
      destruct p; track H
  | |- PipelineOrchestrator.wp (bind _ _) _ _ _ =>
      (* a block: a prompt being built, or enrichment *)
      first
        [ apply (wp_block_step _ (fun _ => False));
          [ solve [adds_only]
          | let l := fresh "l" in let Hl := fresh "Hl" in
            let H' := fresh "Htrack" in
            intros l ? Hl;
            extend_invariant H' ltac:(apply on_track_nothing; [exact H | exact Hl]);
            track H'
          | intros ? ? ?; apply derailed_on_track, on_track_nothing; assumption ]
        | apply (wp_block_step _ (fun ev => PipelineOrchestrator.enrichment ev = true));
          [ solve [adds_only]
          | let l := fresh "l" in let Hl := fresh "Hl" in
            let H' := fresh "Htrack" in
            intros l ? Hl;
            extend_invariant H' ltac:(apply on_track_enrichment; [exact H | exact Hl]);
            track H'
          | intros ? ? ?; apply derailed_on_track, on_track_enrichment; assumption ] ]
  end.

Section EntryPoints.

Import PipelineOrchestrator.

Variable self : collaborators.

Lemma person_only_well_behaved generation_id user_id stage1_mode person_prompt
    person_fields :
  well_behaved false
    (generate_person_only_steps self generation_id user_id stage1_mode
       person_prompt person_fields).
Proof.
  unfold well_behaved, generate_person_only_steps.
  pose proof (on_track_nil false) as H0.
  track H0.
Qed.

Lemma composite_only_well_behaved generation_id user_id person_image_url
    product_image_url composite_prompt :
  well_behaved false
    (generate_composite_only_steps self generation_id user_id person_image_url
       product_image_url composite_prompt).
Proof.
  unfold well_behaved, generate_composite_only_steps.
  pose proof (on_track_nil false) as H0.
  track H0.
Qed.

Lemma video_only_well_behaved generation_id user_id composite_image_url
    video_prompt veo3_mode duration aspect_ratio product_image_url :
  well_behaved false
    (generate_video_only_steps self generation_id user_id composite_image_url
       video_prompt veo3_mode duration aspect_ratio product_image_url).
Proof.
  unfold well_behaved, generate_video_only_steps.
  pose proof (on_track_nil false) as H0.
  track H0.
Qed.

Lemma ugc_video_well_behaved generation_id user_id stage1_mode product_image_url
    video_prompt person_prompt person_fields composite_prompt veo3_mode duration
    aspect_ratio :
  well_behaved true
    (generate_ugc_video_steps self generation_id user_id stage1_mode
       product_image_url video_prompt person_prompt person_fields composite_prompt
       veo3_mode duration aspect_ratio).
Proof.
  unfold well_behaved, generate_ugc_video_steps.
  pose proof (on_track_nil true) as H0.
  track H0.
Qed.

Lemma person_and_composite_well_behaved generation_id user_id stage1_mode
    person_prompt person_fields product_image_url composite_prompt :
  well_behaved true
    (generate_person_and_composite_steps self generation_id user_id stage1_mode
       person_prompt person_fields product_image_url composite_prompt).
Proof.
  unfold well_behaved, generate_person_and_composite_steps.
  pose proof (on_track_nil true) as H0.
  track H0.
Qed.

End EntryPoints.

Section Runs.

Import PipelineOrchestrator.

Variable self : collaborators.

(** *** The failure webhook *)

Lemma failure_payload_run (call : invocation) (e : exn) (tr : trace) :
  failure_payload (generation_of call) e (stage_of (entry_point_of call))
    (error_field_of (entry_point_of call)) tr
  = (tr, Ok (classification_payload (generation_of call) e
               (stage_of (entry_point_of call))
               (error_field_of (entry_point_of call)))).
Proof.
  unfold failure_payload, classification_payload.
  assert (Hctx : forall ep,
            match stage_given (stage_of ep) with
            | Some n => Some ("stage" ++ pretty n)
            | None => None
            end
            = match stage_of ep with
              | Some n => Some ("stage" ++ pretty n)
              | None => None
              end) by (intros []; reflexivity).
  rewrite Hctx.
  destruct (classify_error_is_info e
              (match stage_of (entry_point_of call) with
               | Some n => Some ("stage" ++ pretty n)
               | None => None
               end)) as (t & msg & r & c & d & -> & _).
  destruct (error_info_lookup t msg r c d) as (H1 & H2 & H3 & H4 & H5).
  unfold bind, lift, getitem, ret. rewrite H1, H2, H3, H4, H5.
  destruct (entry_point_of call); cbn; rewrite ?H5; reflexivity.
Qed.

Lemma reporting_failure_run {A} (call : invocation) (steps : M trace A) (tr : trace) :
  reporting_failure self (generation_of call) (stage_of (entry_point_of call))
    (error_field_of (entry_point_of call)) steps tr
  = match steps tr with
    | (tr', Ok a) => (tr', Ok a)
    | (tr', Raise e) => ((tr' ++ failure_report call e)%list, Raise e)
    end.
Proof.
  unfold reporting_failure, try_except, _send_failure_webhook.
  destruct (steps tr) as [tr' [a|e]]; [reflexivity|].
  unfold bind at 1. unfold bind at 1. rewrite failure_payload_run.
  rewrite send_webhook_run. reflexivity.
Qed.

Lemma invoke_steps (call : invocation) :
  invoke self call
  = reporting_failure self (generation_of call) (stage_of (entry_point_of call))
      (error_field_of (entry_point_of call)) (steps_of self call).
Proof. destruct call; reflexivity. Qed.

Lemma run_invoke (call : invocation) :
  run (invoke self call)
  = match run (steps_of self call) with
    | (tr', Ok a) => (tr', Ok a)
    | (tr', Raise e) => ((tr' ++ failure_report call e)%list, Raise e)
    end.
Proof. unfold run. rewrite invoke_steps. apply reporting_failure_run. Qed.

End Runs.

Section PipelineClaims.

Import PipelineOrchestrator.

Variable self : collaborators.

Lemma steps_well_behaved (call : invocation) :
  well_behaved (chains_stages (entry_point_of call)) (steps_of self call).
Proof.
  destruct call; cbn [steps_of entry_point_of chains_stages].
  - apply ugc_video_well_behaved.
  - apply person_only_well_behaved.
  - apply composite_only_well_behaved.
  - apply video_only_well_behaved.
  - apply person_and_composite_well_behaved.
Qed.

(** *** What the failure webhook carries *)

Lemma classification_payload_lookup (call : invocation) (e : exn) :
  let ep := entry_point_of call in
  let payload :=
    classification_payload (generation_of call) e (stage_of ep) (error_field_of ep) in
  let info :=
    classify_error e (match stage_of ep with
                      | Some n => Some ("stage" ++ pretty n)
                      | None => None
                      end) in
  payload !! "generation_id" = Some (VStr (generation_of call)) /\
  payload !! "status" = Some (VStr "FAILED") /\
  payload !! "error_type" = info !! "error_type" /\
  payload !! "error_message" = info !! "error_message" /\
  payload !! "is_refundable" = info !! "is_refundable" /\
  payload !! "can_retry" = info !! "can_retry" /\
  payload !! "current_stage" = VInt <$> stage_of ep /\
  payload !! "stage" = None /\
  (forall key kind, In (key, kind) artifact_keys -> payload !! key = None).
Proof.
  intros ep payload info. subst payload info. unfold classification_payload.
  destruct (classify_error_is_info e
              (match stage_of ep with
               | Some n => Some ("stage" ++ pretty n)
               | None => None
               end)) as (t & msg & r & c & d & -> & _).
  destruct (error_info_lookup t msg r c d) as (H1 & H2 & H3 & H4 & H5).
  rewrite H1, H2, H3, H4, H5. cbn [default].
  repeat split;
    try (intros key kind Hin; cbn [artifact_keys In] in Hin;
         repeat (destruct Hin as [Hin|Hin]; [injection Hin as <- <-|]);
         [..|contradiction]);
    destruct ep; reflexivity.
Qed.

Lemma failure_report_is_notice (call : invocation) (e : exn) :
  Forall (fun ev => failure_post ev /\ critical_failure ev = None /\
                    forall chained tr, event_ok chained tr ev)
         (failure_report call e).
Proof.
  unfold failure_report.
  destruct (classification_payload_lookup call e) as (_ & Hs & _ & _ & _ & _ & _ & _ & Hk).
  apply Forall_cons. split; [|constructor].
  split; [exact Hs|]. split; [reflexivity|].
  intros chained tr. split.
  - intros key kind url Hin Hl. rewrite (Hk _ _ Hin) in Hl. discriminate.
  - intros n [Hc _]. rewrite Hs in Hc. discriminate.
Qed.

(** *** Where a trace can be cut *)

Lemma cut_at_failure (P : event -> Prop) (l1 l2 before after : trace) (x ev : event) :
  Forall P l1 -> Forall P l2 -> ~ P ev ->
  (l1 ++ x :: l2 = before ++ ev :: after)%list ->
  before = l1 /\ ev = x /\ after = l2.
Proof.
  revert before. induction l1 as [|y l1 IH]; intros before H1 H2 Hev Heq.
  - destruct before as [|b before]; cbn in Heq.
    + injection Heq as <- <-. auto.
    + injection Heq as -> ->. exfalso. apply Hev.
      rewrite Forall_app in H2. destruct H2 as [_ H2]. now inversion H2.
  - inversion H1 as [|? ? Hy H1']; subst. destruct before as [|b before]; cbn in Heq.
    + injection Heq as <- _. contradiction.
    + injection Heq as <- Heq. destruct (IH before H1' H2 Hev Heq) as (-> & -> & ->). auto.
Qed.

Lemma no_cut (P : event -> Prop) (l before after : trace) (ev : event) :
  Forall P l -> ~ P ev -> l <> (before ++ ev :: after)%list.
Proof.
  intros Hl Hev ->. rewrite Forall_app in Hl. destruct Hl as [_ Hl]. now inversion Hl.
Qed.

(** *** The run of an entry point, in full *)

Lemma invoke_run (call : invocation) :
  (exists d, run (invoke self call) = (fst (run (steps_of self call)), Ok d) /\
             on_track (chains_stages (entry_point_of call))
                      (fst (run (steps_of self call)))) \/
  (exists e, run (invoke self call)
             = ((fst (run (steps_of self call)) ++ failure_report call e)%list,
                Raise e) /\
             derailed (chains_stages (entry_point_of call)) e
                      (fst (run (steps_of self call)))).
Proof.
  pose proof (steps_well_behaved call) as Hwb.
  rewrite run_invoke. unfold well_behaved, wp in Hwb. unfold run.
  destruct (steps_of self call []) as [tr [d|e]]; cbn [fst]; eauto.
Qed.

Lemma clean_no_failure (tr before after : trace) (ev : event) (e : exn) :
  clean tr -> critical_failure ev = Some e -> tr <> (before ++ ev :: after)%list.
Proof.
  intros Hc Hev. apply (no_cut (fun ev => critical_failure ev = None)).
  - eapply Forall_impl; [exact Hc|]. now intros ? [? _].
  - rewrite Hev. discriminate.
Qed.

Lemma invoke_ordered (call : invocation) :
  ordered (chains_stages (entry_point_of call)) (fst (run (invoke self call))).
Proof.
  destruct (invoke_run call) as [(d & -> & Ho & _) | (e & -> & Ho & _)]; cbn [fst].
  - exact Ho.
  - apply ordered_app; [exact Ho|].
    eapply Forall_impl; [apply failure_report_is_notice|].
    intros ev (_ & _ & Hev). apply Hev.
Qed.

(** C5, amended: in every entry point, a submission, a wait for completion
    or an upload that raises [e] is the last thing the run does before it
    reports: nothing failed and no failure was reported before it, what
    follows it is one call of the webhook notifier [_send_webhook] with the
    failure payload and nothing else (no second attempt, no further call to
    a provider or to storage), and the run raises [e] itself.  The payload
    has status FAILED and the classification of [e] in it; it has a current
    stage exactly in the three single-stage entry points, which pass their
    stage number, and none in the full run and in the run of stages 1 and 2,
    which pass no stage. *)
Theorem failure_webhook_classified (call : invocation) (before after : trace)
    (ev : event) (e : exn) :
  fst (run (invoke self call)) = (before ++ ev :: after)%list ->
  critical_failure ev = Some e ->
  let ep := entry_point_of call in
  let payload :=
    classification_payload (generation_of call) e (stage_of ep) (error_field_of ep) in
  let info :=
    classify_error e (match stage_of ep with
                      | Some n => Some ("stage" ++ pretty n)
                      | None => None
                      end) in
  snd (run (invoke self call)) = Raise e /\
  clean before /\
  after = [Notify payload] /\
  payload !! "status" = Some (VStr "FAILED") /\
  (forall key, In key ["error_type"; "is_refundable"; "can_retry"; "error_message"] ->
     is_Some (info !! key) /\ payload !! key = info !! key) /\
  payload !! "current_stage" = VInt <$> stage_of ep.
Proof.
  intros Htr Hev ep payload info.
  destruct (classification_payload_lookup call e)
    as (_ & Hstatus & Htype & Hmsg & Hrefund & Hretry & Hstage & _).
  fold ep in Hstatus, Htype, Hmsg, Hrefund, Hretry, Hstage.
  fold payload in Hstatus, Htype, Hmsg, Hrefund, Hretry, Hstage.
  fold info in Htype, Hmsg, Hrefund, Hretry.
  assert (Hrun : snd (run (invoke self call)) = Raise e /\ clean before /\
                 after = [Notify payload]).
  { destruct (invoke_run call) as [(d & Hr & _ & Hc) | (e' & Hr & _ & Hf)];
      rewrite Hr in Htr |- *; cbn [fst snd] in Htr |- *.
    - destruct (clean_no_failure _ before after _ _ Hc Hev Htr).
    - destruct Hf as [Hc | (tr0 & ev0 & Htr0 & Hc & Hev0)].
      + exfalso. revert Htr.
        apply (no_cut (fun ev => critical_failure ev = None)).
        * apply Forall_app. split.
          -- eapply Forall_impl; [exact Hc|]. now intros ? [? _].
          -- eapply Forall_impl; [apply failure_report_is_notice|]. now intros ? (_ & ? & _).
        * rewrite Hev. discriminate.
      + rewrite Htr0, <- app_assoc in Htr. cbn [app] in Htr.
        apply (cut_at_failure (fun ev => critical_failure ev = None)) in Htr
          as (-> & -> & ->).
        * rewrite Hev0 in Hev. injection Hev as <-. auto.
        * eapply Forall_impl; [exact Hc|]. now intros ? [? _].
        * eapply Forall_impl; [apply failure_report_is_notice|]. now intros ? (_ & ? & _).
        * rewrite Hev. discriminate. }
  destruct Hrun as (Hres & Hclean & Hafter).
  repeat split; try assumption.
  - destruct (classify_error_is_info e
                (match stage_of ep with
                 | Some n => Some ("stage" ++ pretty n)
                 | None => None
                 end)) as (t & msg & r & c & d & Hinfo & _).
    subst info. rewrite Hinfo.
    destruct (error_info_lookup t msg r c d) as (H1 & H2 & H3 & H4 & _).
    cbn [In] in H. destruct H as [<-|[<-|[<-|[<-|[]]]]]; eauto.
  - cbn [In] in H. destruct H as [<-|[<-|[<-|[<-|[]]]]]; assumption.
Qed.

(** C9: in every run of an entry point, whatever the webhook notifier is
    called with as an artifact URL, and whatever a request of its carries,
    is the URL an upload to storage returned earlier in the run, before the
    call began; a payload that reports stage [n] completed has the stored
    artifact of stage [n] in it; and where stages follow one another in a
    run, stage 2 is submitted with the stored person image and stage 3 with
    the stored composite image, after the upload that stored it. *)
Theorem progress_webhook_after_storage (call : invocation) (before after : trace)
    (ev : event) :
  fst (run (invoke self call)) = (before ++ ev :: after)%list ->
  match ev with
  | Notify data | Post _ data _ =>
      (forall key kind url,
          In (key, kind) artifact_keys -> data !! key = Some url ->
          stored before kind url) /\
      (forall n, reports_completion data n ->
          exists key kind url,
            stage_asset n = Some kind /\ data !! key = Some url /\
            stored before kind url)
  | SubmitImageEdit job _ =>
      chains_stages (entry_point_of call) = true ->
      stored before PersonImage (edit_base_image_url job)
  | SubmitVeo3 job _ =>
      chains_stages (entry_point_of call) = true ->
      stored before CompositeImage (veo3_image_url job)
  | _ => True
  end.
Proof.
  intros Htr. pose proof (invoke_ordered call _ _ _ Htr) as Hev.
  destruct ev; cbn [event_ok] in Hev; try exact I; try exact Hev;
    destruct Hev as [Hs Hc]; (split; [exact Hs|]);
    intros n Hn; destruct (Hc n Hn) as (key & kind & Hin & Hkind & u & Hu);
    exists key, kind, u; eauto.
Qed.

End PipelineClaims.

(** *** The claims on the sample runs *)

(** C5, as stated, fails in the full run: with the text-to-image service
    down the stage-1 submission raises, the notifier is called once with the
    failure payload and the exception is raised again, but the payload names
    no stage: [generate_ugc_video] passes no stage number to
    [_send_failure_webhook]. *)
Lemma full_run_failure_names_no_stage :
  let payload := PipelineOrchestrator.classification_payload "gen-1"
                   PipelineOrchestrator.service_down None None in
  PipelineOrchestrator.run
    (PipelineOrchestrator.invoke PipelineOrchestrator.stage1_down
       PipelineOrchestrator.sample_full_run)
  = ([ PipelineOrchestrator.sample_stage1_started;
       PipelineOrchestrator.sample_failed_submission;
       PipelineOrchestrator.Notify payload ],
     Raise PipelineOrchestrator.service_down) /\
  PipelineOrchestrator.critical_failure PipelineOrchestrator.sample_failed_submission
  = Some PipelineOrchestrator.service_down /\
  payload !! "status" = Some (VStr "FAILED") /\
  payload !! "current_stage" = None /\
  payload !! "stage" = None /\
  dom payload = ({[ "generation_id"; "status"; "error_type"; "error_message";
                    "is_refundable"; "can_retry" ]} : gset string).
Proof. cbv zeta. repeat split; compute_done. Qed.

Import PipelineOrchestrator.

(** The stage-1-only run with the text-to-image service down: the failure
    is reported once, as a refundable service error of stage 1. *)
Lemma failure_webhook_classified_witness :
  let payload := classification_payload "gen-1" service_down (Some 1%Z)
                   (Some "stage1_error") in
  run (invoke stage1_down sample_person_run)
  = ([sample_failed_submission; Notify payload], Raise service_down) /\
  payload !! "error_type" = Some (VErrorType SERVICE_ERROR) /\
  payload !! "is_refundable" = Some (VBool true) /\
  payload !! "current_stage" = Some (VInt 1).
Proof.
  assert (Htr : fst (run (invoke stage1_down sample_person_run))
                = ([] ++ sample_failed_submission
                      :: [Notify (classification_payload "gen-1" service_down
                                    (Some 1%Z) (Some "stage1_error"))])%list)
    by compute_done.
  assert (Hev : critical_failure sample_failed_submission = Some service_down)
    by reflexivity.
  destruct (failure_webhook_classified stage1_down sample_person_run _ _ _ _ Htr Hev)
    as (Hres & _ & _ & _ & _ & Hstage).
  cbv zeta. split; [|split; [compute_done|split; [compute_done | exact Hstage]]].
  rewrite (surjective_pairing (run (invoke stage1_down sample_person_run))).
  now rewrite Htr, Hres.
Defined.

(** The full run where all is well: the fifth thing it does is call the
    notifier with the person image, which the upload before it has
    stored. *)
Lemma progress_webhook_after_storage_witness :
  let tr := fst (run (invoke all_well sample_full_run)) in
  tr = (take 4 tr ++ sample_stage1_report :: drop 5 tr)%list /\
  stored (take 4 tr) PersonImage sample_person_url.
Proof.
  cbv zeta.
  assert (Htr : fst (run (invoke all_well sample_full_run))
                = (take 4 (fst (run (invoke all_well sample_full_run)))
                   ++ sample_stage1_report
                   :: drop 5 (fst (run (invoke all_well sample_full_run))))%list)
    by compute_done.
  split; [exact Htr|].
  destruct (progress_webhook_after_storage all_well sample_full_run _ _ _ Htr)
    as [Hstored _].
  apply (Hstored "person_url"); [cbn; tauto | compute_done].
Defined.

(** *** Runs that differ only in what best-effort collaborators do *)

Section Simulation.

Import PipelineOrchestrator.

Variable obs : trace -> trace.
Hypothesis obs_app : forall tr l, obs (tr ++ l)%list = (obs tr ++ obs l)%list.

Lemma sim_ret {A B} (R : A -> B -> Prop) a b : R a b -> sim obs R (ret a) (ret b).
Proof. intros H tr. now split. Qed.

Lemma sim_ret_eq {A} (a : A) : sim obs eq (ret a) (ret a).
Proof. now apply sim_ret. Qed.

Lemma sim_raise {A B} (R : A -> B -> Prop) e : sim obs R (raise e) (raise e).
Proof. intros tr. now split. Qed.

Lemma sim_lift {A} (r1 r2 : result A) : r1 = r2 -> sim obs eq (lift r1) (lift r2).
Proof. intros <- tr. split; [reflexivity|]. cbn. now destruct r1. Qed.

Lemma sim_await {A} (ev : result A -> event) (o1 o2 : result A) :
  o1 = o2 -> obs [ev o1] = [ev o1] -> sim obs eq (await ev o1) (await ev o2).
Proof.
  intros <- Hev tr. unfold await. cbn [fst snd]. rewrite obs_app, Hev.
  split; [reflexivity|]. now destruct o1.
Qed.

Lemma sim_bind {A1 A2 B1 B2} (R : A1 -> A2 -> Prop) (R' : B1 -> B2 -> Prop)
    (c1 : M trace A1) (c2 : M trace A2) k1 k2 :
  sim obs R c1 c2 -> (forall a b, R a b -> sim obs R' (k1 a) (k2 b)) ->
  sim obs R' (bind c1 k1) (bind c2 k2).
Proof.
  intros Hc Hk tr. unfold bind. destruct (Hc tr) as [Htr Hres].
  destruct (c1 tr) as [tr1 [a|e1]], (c2 (obs tr)) as [tr2 [b|e2]];
    cbn in Htr, Hres; try contradiction; subst.
  - apply (Hk a b Hres).
  - now split.
Qed.

Lemma sim_try {A B} (R : A -> B -> Prop) (c1 : M trace A) (c2 : M trace B) h1 h2 :
  sim obs R c1 c2 -> (forall e, sim obs R (h1 e) (h2 e)) ->
  sim obs R (try_except c1 h1) (try_except c2 h2).
Proof.
  intros Hc Hh tr. unfold try_except. destruct (Hc tr) as [Htr Hres].
  destruct (c1 tr) as [tr1 [a|e1]], (c2 (obs tr)) as [tr2 [b|e2]];
    cbn in Htr, Hres; try contradiction; subst.
  - now split.
  - apply Hh.
Qed.

(** A block that only adds what [obs] does not show, and returns. *)
Lemma sim_silent {A B} (R : A -> B -> Prop) (c1 : M trace A) (b : B) :
  (forall tr, exists l a, c1 tr = ((tr ++ l)%list, Ok a) /\ obs l = [] /\ R a b) ->
  sim obs R c1 (ret b).
Proof.
  intros H tr. destruct (H tr) as (l & a & -> & Hl & HR). cbn.
  rewrite obs_app, Hl, app_nil_r. now split.
Qed.

Section Webhooks.

Variables self1 self2 : collaborators.
Hypothesis notice_shown : forall data, obs [Notify data] = [Notify data].

Lemma sim_send_webhook data :
  sim obs eq (_send_webhook self1 data) (_send_webhook self2 data).
Proof.
  intros tr. rewrite !send_webhook_run. cbn [fst snd].
  rewrite obs_app, notice_shown. now split.
Qed.

(** From the steps of an entry point to the entry point. *)
Lemma sim_invoke (call : invocation) :
  sim obs eq (steps_of self1 call) (steps_of self2 call) ->
  obs (fst (run (invoke self1 call))) = fst (run (invoke self2 call)) /\
  snd (run (invoke self1 call)) = snd (run (invoke self2 call)).
Proof.
  intros Hsim. rewrite !run_invoke. unfold run.
  assert (Hnil : obs [] = []).
  { pose proof (f_equal List.length (obs_app [] [])) as H.
    rewrite length_app in H. cbn [app] in H.
    destruct (obs []); [reflexivity | cbn in H; lia]. }
  destruct (Hsim []) as [Htr Hres]. rewrite Hnil in Htr, Hres.
  destruct (steps_of self1 call []) as [tr1 [a|e1]],
           (steps_of self2 call []) as [tr2 [b|e2]];
    cbn in Htr, Hres; try contradiction; subst; cbn [fst snd].
  - now split.
  - split; [|reflexivity]. unfold failure_report. now rewrite obs_app, notice_shown.
Qed.

End Webhooks.

End Simulation.

(** What the view without enrichment shows. *)
Lemma without_enrichment_app (tr l : PipelineOrchestrator.trace) :
  PipelineOrchestrator.without_enrichment (tr ++ l)%list
  = (PipelineOrchestrator.without_enrichment tr
     ++ PipelineOrchestrator.without_enrichment l)%list.
Proof. apply List.filter_app. Qed.

Lemma without_enrichment_nil (l : PipelineOrchestrator.trace) :
  Forall (fun ev => PipelineOrchestrator.enrichment ev = true) l ->
  PipelineOrchestrator.without_enrichment l = [].
Proof.
  induction 1 as [|ev l Hev _ IH]; [reflexivity|].
  unfold PipelineOrchestrator.without_enrichment in *. cbn. now rewrite Hev.
Qed.

(** Walks along two runs of the same steps; [Happ] says that the view
    distributes over traces, [block] knows the steps that differ. *)
Ltac simulate Happ prepare block :=
  cbv zeta; try prepare;
  first
    [ block
    | lazymatch goal with
      | |- PipelineOrchestrator.sim _ _ (ret _) (ret _) =>
          first [ apply sim_ret_eq | apply sim_ret; reflexivity ]
      | |- PipelineOrchestrator.sim _ _ (raise _) (raise _) => apply sim_raise
      | |- PipelineOrchestrator.sim _ _ (lift _) (lift _) => apply sim_lift; reflexivity
      | |- PipelineOrchestrator.sim _ _ (PipelineOrchestrator.await _ _)
                                        (PipelineOrchestrator.await _ _) =>
          apply (sim_await _ Happ); reflexivity
      | |- PipelineOrchestrator.sim _ _ (try_except _ _) (try_except _ _) =>
          apply sim_try; [ simulate Happ prepare block | intros ?; simulate Happ prepare block ]
      | |- PipelineOrchestrator.sim _ _ (bind _ _) (bind _ _) =>
          eapply sim_bind;
          [ simulate Happ prepare block
          | let H := fresh in
            intros ? ? H; cbv beta in H; destruct_and?; subst;
            simulate Happ prepare block ]
      | |- PipelineOrchestrator.sim _ _ (if ?b then _ else _) _ =>
          destruct b; simulate Happ prepare block
      | |- PipelineOrchestrator.sim _ _ (match ?x with _ => _ end) _ =>
          destruct x; cbn [fst snd] in *; subst; simulate Happ prepare block
      | |- PipelineOrchestrator.sim _ _ _ (match ?y with _ => _ end) =>
          destruct y; cbn [fst snd] in *; subst; simulate Happ prepare block
      end ].

Section Delivery.

Import PipelineOrchestrator.

Variable self : collaborators.
Variable url : pyval.
Variable post : pyval -> dict -> dict -> result Z.

Local Abbreviation other := (with_webhook_url (with_http_post self post) url).

Lemma steps_whatever_delivery (call : invocation) :
  sim (fun tr => tr) eq (steps_of self call) (steps_of other call).
Proof.
  destruct call; cbn [steps_of];
    unfold generate_ugc_video_steps, generate_person_only_steps,
      generate_composite_only_steps, generate_video_only_steps,
      generate_person_and_composite_steps;
    simulate (fun tr l : trace => eq_refl (tr ++ l)%list)
      ltac:(progress
              (unfold analyze_if_configured, enhance_if_possible, analyze_and_enhance;
               change (openrouter other) with (openrouter self)))
      ltac:(apply (sim_send_webhook _ (fun tr l : trace => eq_refl (tr ++ l)%list)
                     _ _ (fun data => eq_refl))).
Qed.

End Delivery.

Section Enrichment.

Import PipelineOrchestrator.

Variable self : collaborators.
Hypothesis enrichment_down : enrichment_fails self.

Lemma notice_without_enrichment data :
  without_enrichment [Notify data] = [Notify data].
Proof. reflexivity. Qed.

(** The analysis fails: no product information, as without the collaborator. *)
Lemma sim_analysis_fails wanted url :
  sim without_enrichment (fun a b => a = None /\ b = None)
        (analyze_if_configured self wanted url)
        (analyze_if_configured (without_openrouter self) wanted url).
Proof.
  change (analyze_if_configured (without_openrouter self) wanted url)
    with (ret (S := trace) (@None dict)).
  apply (sim_silent _ without_enrichment_app). intros tr.
  unfold analyze_if_configured. pose proof enrichment_down as H.
  unfold enrichment_fails in H.
  destruct (openrouter self) as [gpt|]; [destruct wanted|].
  - destruct H as (Ha & _). destruct (Ha url) as [e He].
    exists [AnalyzeProductImage url (Raise e)], None.
    unfold try_except, bind, await. rewrite He. auto.
  - exists [], None. unfold ret. rewrite app_nil_r. auto.
  - exists [], None. unfold ret. rewrite app_nil_r. auto.
Qed.

(** An enhancement fails: the prompt stays as it was. *)
Lemma sim_enhance_fails product_info product_info' prompt enhance enhance' :
  (forall gpt info, openrouter self = Some gpt ->
     exists ev o, enhance gpt info = await ev o /\
                  (exists e, o = Raise e) /\ enrichment (ev o) = true) ->
  sim without_enrichment eq (enhance_if_possible self product_info prompt enhance)
           (enhance_if_possible (without_openrouter self) product_info' prompt enhance').
Proof.
  intros Henh.
  change (enhance_if_possible (without_openrouter self) product_info' prompt enhance')
    with (ret (S := trace) prompt).
  apply (sim_silent _ without_enrichment_app). intros tr.
  unfold enhance_if_possible.
  destruct (openrouter self) as [gpt|];
    [destruct product_info as [info|]; [destruct (dict_truthy (Some info))|]|];
    try solve [exists [], prompt; unfold ret; rewrite app_nil_r; auto].
  destruct (Henh gpt info eq_refl) as (ev & o & -> & [e ->] & Hev).
  exists [ev (Raise e)], prompt. unfold try_except, await, ret. cbn.
  unfold without_enrichment. cbn. rewrite Hev. auto.
Qed.

(** The first block of the multi-stage entry points: whether the analysis
    or the enhancement fails, the person prompt stays as it was. *)
Lemma sim_analyze_and_enhance_fails gpt analysis prompt :
  openrouter self = Some gpt ->
  appends analysis (fun ev => enrichment ev = true) ->
  sim without_enrichment (fun x y => snd x = snd y)
        (analyze_and_enhance gpt analysis prompt)
        (ret (S := trace) (@None dict, prompt)).
Proof.
  intros Hgpt Happ. apply (sim_silent _ without_enrichment_app). intros tr.
  pose proof enrichment_down as H. unfold enrichment_fails in H. rewrite Hgpt in H.
  destruct H as (_ & Hp & _).
  unfold analyze_and_enhance, bind, try_except, ret.
  destruct (Happ tr) as (l & Hl & HN).
  destruct (analysis tr) as [tr1 [info|e]]; cbn [fst] in Hl; subst tr1.
  - destruct (Hp prompt info) as [e He]. unfold await. rewrite He.
    exists (l ++ [EnhancePersonPrompt prompt info (Raise e)])%list, (Some info, prompt).
    rewrite app_assoc. repeat split.
    apply without_enrichment_nil, Forall_app. split; [exact HN | now repeat constructor].
  - exists l, (None, prompt). repeat split. now apply without_enrichment_nil.
Qed.

Lemma sim_first_block (body : openrouter_provider -> M trace (option dict * pyval))
    prompt :
  (forall gpt, openrouter self = Some gpt ->
     sim without_enrichment (fun x y => snd x = snd y) (body gpt)
           (ret (S := trace) (@None dict, prompt))) ->
  sim without_enrichment (fun x y => snd x = snd y)
        (match openrouter self with
         | Some gpt => body gpt
         | None => ret (None, prompt)
         end)
        (ret (S := trace) (@None dict, prompt)).
Proof.
  intros H. destruct (openrouter self) as [gpt|]; [now apply H|].
  now apply sim_ret.
Qed.

Lemma enhancement_fails gpt :
  openrouter self = Some gpt ->
  (forall p info, exists e, enhance_person_prompt gpt p info = Raise e) /\
  (forall person info p, exists e, enhance_composite_prompt gpt person info p = Raise e) /\
  (forall composite p kind, exists e, enhance_video_prompt gpt composite p kind = Raise e).
Proof.
  intros Hgpt. pose proof enrichment_down as H. unfold enrichment_fails in H.
  rewrite Hgpt in H. tauto.
Qed.

Lemma steps_without_enrichment (call : invocation) :
  sim without_enrichment eq (steps_of self call) (steps_of (without_openrouter self) call).
Proof.
  destruct call; cbn [steps_of];
    unfold generate_ugc_video_steps, generate_person_only_steps,
      generate_composite_only_steps, generate_video_only_steps,
      generate_person_and_composite_steps;
    simulate without_enrichment_app
      ltac:(progress
              (change (openrouter (without_openrouter self))
                 with (@None openrouter_provider);
               cbv beta iota))
      ltac:(first
        [ apply (sim_send_webhook _ without_enrichment_app _ _ notice_without_enrichment)
        | apply sim_analysis_fails
        | apply sim_enhance_fails;
          let gpt := fresh "gpt" in let Hgpt := fresh "Hgpt" in
          intros gpt ? Hgpt; cbv zeta; eexists _, _;
          split; [reflexivity|]; split; [|reflexivity];
          destruct (enhancement_fails gpt Hgpt) as (? & ? & ?); solve [eauto]
        | apply sim_first_block;
          let gpt := fresh "gpt" in let Hgpt := fresh "Hgpt" in
          intros gpt Hgpt; cbv beta;
          repeat match goal with
                 | |- sim _ _ (if ?b then _ else _) _ => destruct b
                 end;
          first [ apply sim_ret; reflexivity
                | apply (sim_analyze_and_enhance_fails _ _ _ Hgpt); solve [adds_only] ] ]).
Qed.

End Enrichment.

(** *** Best-effort steps *)

Section BestEffort.

Import PipelineOrchestrator.

Variable self : collaborators.

(** The enrichment blocks never raise, and fall back when the collaborator
    does. *)
Lemma analyze_if_configured_caught wanted url tr :
  (exists info, snd (analyze_if_configured self wanted url tr) = Ok info) /\
  ((forall gpt, exists e, analyze_product_image gpt url = Raise e) ->
   snd (analyze_if_configured self wanted url tr) = Ok None).
Proof.
  unfold analyze_if_configured.
  destruct (openrouter self) as [gpt|]; [destruct wanted|]; cbn; eauto.
  unfold try_except, bind, await, ret.
  split.
  - destruct (analyze_product_image gpt url); cbn; eauto.
  - intros H. destruct (H gpt) as [e ->]. reflexivity.
Qed.

Lemma enhance_if_possible_caught product_info prompt enhance tr :
  (exists p, snd (enhance_if_possible self product_info prompt enhance tr) = Ok p) /\
  ((forall gpt info, exists e, snd (enhance gpt info tr) = Raise e) ->
   snd (enhance_if_possible self product_info prompt enhance tr) = Ok prompt).
Proof.
  unfold enhance_if_possible.
  destruct (openrouter self) as [gpt|];
    [destruct product_info as [info|]; [destruct (dict_truthy (Some info))|]|];
    cbn; eauto.
  unfold try_except, ret. split.
  - destruct (enhance gpt info tr) as [tr' [p|e]]; cbn; eauto.
  - intros H. destruct (H gpt info) as [e He].
    destruct (enhance gpt info tr) as [tr' [p|e']]; cbn in *; congruence.
Qed.

Lemma analyze_and_enhance_caught gpt analysis prompt tr :
  (exists enriched, snd (analyze_and_enhance gpt analysis prompt tr) = Ok enriched) /\
  ((exists e, snd (analysis tr) = Raise e) ->
   snd (analyze_and_enhance gpt analysis prompt tr) = Ok (None, prompt)) /\
  ((forall info, exists e, enhance_person_prompt gpt prompt info = Raise e) ->
   exists product_info,
     snd (analyze_and_enhance gpt analysis prompt tr) = Ok (product_info, prompt)).
Proof.
  unfold analyze_and_enhance, bind, try_except, await, ret.
  destruct (analysis tr) as [tr' [info|e]]; cbn.
  - destruct (enhance_person_prompt gpt prompt info) as [p|e] eqn:Hp; cbn.
    + split; [eauto|]. split; [intros [e He]; discriminate|].
      intros H. destruct (H info) as [e He]. congruence.
    + split; [eauto|]. split; [intros [e' He]; discriminate | eauto].
  - split; [eauto|]. split; eauto.
Qed.

(** C8: what the best-effort collaborators do never changes how a run ends.
    The webhook notifier returns for every payload without raising, and is
    not called again for it.  Its [try] block drops whatever is raised in
    it, be it in building the headers or in the request, and whatever the
    status of the response; it makes the request once at most.  In this
    code building the headers raises at every call, [Settings] having no
    field [PYTHON_API_KEY]; this failure is dropped like any other.  So
    whatever the webhook sink would answer, and whether a webhook URL is
    configured or not, the run returns or raises the same and makes the same
    calls in the same order.  When every call to the enrichment collaborator
    raises, the run returns or raises what it does without an enrichment
    collaborator, and apart from the enrichment calls it makes the same
    calls with the same arguments, the prompts among them.  And whichever
    single call fails: no enrichment block ever raises; a failed analysis
    leaves no product information, a failed enhancement leaves the prompt as
    it was. *)
Theorem best_effort_failures_change_nothing (call : invocation) :
  (forall data tr,
      _send_webhook self data tr = ((tr ++ [Notify data])%list, Ok tt)) /\
  (forall headers data tr,
      post_webhook self headers data tr
      = ((tr ++ match headers with
                | Ok h => [Post (webhook_url self) data
                                (http_post self (webhook_url self) data h)]
                | Raise _ => []
                end)%list, Ok tt)) /\
  (exists e, webhook_headers self = Raise e) /\
  (forall url post,
      run (invoke self call)
      = run (invoke (with_webhook_url (with_http_post self post) url) call)) /\
  (enrichment_fails self ->
   same_run without_enrichment self (without_openrouter self) call) /\
  (forall tr wanted url,
      (exists info, snd (analyze_if_configured self wanted url tr) = Ok info) /\
      ((forall gpt, exists e, analyze_product_image gpt url = Raise e) ->
       snd (analyze_if_configured self wanted url tr) = Ok None)) /\
  (forall tr product_info prompt enhance,
      (exists p, snd (enhance_if_possible self product_info prompt enhance tr) = Ok p) /\
      ((forall gpt info, exists e, snd (enhance gpt info tr) = Raise e) ->
       snd (enhance_if_possible self product_info prompt enhance tr) = Ok prompt)) /\
  (forall tr gpt analysis prompt,
      (exists enriched,
          snd (analyze_and_enhance gpt analysis prompt tr) = Ok enriched) /\
      ((exists e, snd (analysis tr) = Raise e) ->
       snd (analyze_and_enhance gpt analysis prompt tr) = Ok (None, prompt)) /\
      ((forall info, exists e, enhance_person_prompt gpt prompt info = Raise e) ->
       exists product_info,
         snd (analyze_and_enhance gpt analysis prompt tr)
         = Ok (product_info, prompt))).
Proof.
  split; [|split; [|split; [|split; [|split; [|split; [|split]]]]]].
  - intros data tr. apply send_webhook_run.
  - intros headers data tr. apply post_webhook_run.
  - eexists. apply webhook_headers_raise.
  - intros url post.
    destruct (sim_invoke (fun tr => tr) (fun tr l => eq_refl) self
                (with_webhook_url (with_http_post self post) url)
                (fun data => eq_refl) call (steps_whatever_delivery self url post call))
      as [Htr Hres].
    rewrite (surjective_pairing (run (invoke self call))), Htr, Hres.
    symmetry. apply surjective_pairing.
  - intros Hdown. unfold same_run.
    destruct (sim_invoke _ without_enrichment_app self (without_openrouter self)
                notice_without_enrichment call
                (steps_without_enrichment self Hdown call)).
    now split.
  - intros tr wanted url. apply analyze_if_configured_caught.
  - intros tr product_info prompt enhance. apply enhance_if_possible_caught.
  - intros tr gpt analysis prompt. apply analyze_and_enhance_caught.
Qed.

End BestEffort.

(** The full run with enrichment down and the webhook sink out of reach
    ends as it does without enrichment, and as it does with a sink that
    accepts everything and with no webhook URL at all. *)
Lemma best_effort_failures_change_nothing_witness :
  PipelineOrchestrator.enrichment_fails PipelineOrchestrator.side_services_down /\
  PipelineOrchestrator.same_run PipelineOrchestrator.without_enrichment
    PipelineOrchestrator.side_services_down
    (PipelineOrchestrator.without_openrouter PipelineOrchestrator.side_services_down)
    PipelineOrchestrator.sample_full_run /\
  PipelineOrchestrator.run
    (PipelineOrchestrator.invoke PipelineOrchestrator.side_services_down
       PipelineOrchestrator.sample_full_run)
  = PipelineOrchestrator.run
      (PipelineOrchestrator.invoke
         (PipelineOrchestrator.with_webhook_url
            (PipelineOrchestrator.with_http_post PipelineOrchestrator.side_services_down
               PipelineOrchestrator.delivered) VNone)
         PipelineOrchestrator.sample_full_run).
Proof.
  assert (Hdown : PipelineOrchestrator.enrichment_fails
                    PipelineOrchestrator.side_services_down).
  { cbn. repeat split; intros; eexists; reflexivity. }
  destruct (best_effort_failures_change_nothing PipelineOrchestrator.side_services_down
              PipelineOrchestrator.sample_full_run)
    as (_ & _ & _ & Hpost & Hgpt & _).
  split; [exact Hdown|]. split; [exact (Hgpt Hdown) | apply Hpost].
Defined.
(** ** More about the classifier and the polling loops *)

Lemma lower_app (a b : string) : lower (a ++ b) = lower a ++ lower b.
Proof.
  induction a as [|c a IH]; [reflexivity|].
  change (String c a ++ b) with (String c (a ++ b)). cbn [lower]. now rewrite IH.
Qed.

Lemma any_in_true (indicators : list string) (indicator s : string) :
  In indicator indicators -> str_in indicator s = true -> any_in indicators s = true.
Proof.
  intros Hin Hs. unfold any_in. apply existsb_exists. eauto.
Qed.

(** The service test alone decides between the three provider-side types
    and the other two. *)
Lemma service_error_blames_provider (e : exn) (context : option string) :
  _is_service_error e (lower (exn_str e)) = true ->
  blames_provider (classify_error e context) /\
  (any_in validation_indicators (lower (exn_str e)) = false ->
   is_ValueError (exn_class e) = false ->
   classify_error e context !! "is_refundable" = Some (VBool true)).
Proof.
  intros Hs. unfold classify_error, blames_provider, _is_validation_error. rewrite Hs.
  destruct (is_ValueError (exn_class e)).
  - split; [eexists; split; [reflexivity | auto] | discriminate].
  - destruct (any_in validation_indicators _).
    + split; [eexists; split; [reflexivity | auto] | discriminate].
    + destruct (_is_timeout_error e _);
        (split; [eexists; split; [reflexivity | auto] | reflexivity]).
Qed.

Lemma on_status_failed (prefix : string) (poll_interval : Z) (status_data : dict)
    (w : world) :
  status_data !! "status" = Some (VStr "FAILED") ->
  on_status prefix poll_interval status_data w = (w, Raise (job_failed prefix status_data)).
Proof.
  intros Hs. unfold on_status, bind, lift, getitem, raise. rewrite Hs.
  rewrite bool_decide_eq_false_2 by discriminate.
  rewrite bool_decide_eq_true_2 by reflexivity. reflexivity.
Qed.

Lemma prefix_app_l (n p x : string) :
  String.prefix n p = true -> String.prefix n (p ++ x) = true.
Proof.
  revert p. induction n as [|c n IH]; intros p.
  - intros _. now destruct (p ++ x).
  - destruct p as [|d p]; [discriminate|].
    change (String d p ++ x) with (String d (p ++ x)). cbn [String.prefix].
    destruct (Ascii.ascii_dec c d); [apply IH | discriminate].
Qed.

Lemma job_failed_is_service (prefix indicator : string) (status_data : dict) :
  In indicator service_indicators ->
  String.prefix indicator (lower prefix) = true ->
  _is_service_error (job_failed prefix status_data)
                    (lower (exn_str (job_failed prefix status_data))) = true.
Proof.
  intros Hin Hp. unfold job_failed, Exception, _is_service_error. cbn [exn_class exn_str].
  apply (any_in_true _ indicator); [exact Hin|].
  rewrite lower_app. now apply str_in_prefix, prefix_app_l.
Qed.

Section FailedJobs.

Variable self : providers.
Variables (job_id provider : string) (timeout poll_interval : Z).
Variable w0 : world.

Local Abbreviation fal_round :=
  (FalProvider.poll_cycle self (now w0) job_id timeout poll_interval).
Local Abbreviation veo3_round :=
  (Veo3Provider.poll_cycle self (now w0) job_id provider timeout poll_interval).

(** X1: a status that says FAILED ends both polling loops with an exception
    that starts with the name of the provider family.  Because that name is
    one of the classifier's service indicators, the failure is never filed
    under USER_ERROR or SYSTEM_ERROR, whatever the provider's error text
    says; unless the text has a validation indicator in it, the failure is
    refundable. *)
Theorem failed_job_blames_provider (context : option string) :
  (forall n w w1 status_data fuel,
     round_start n veo3_round w0 = Some w -> (now w - now w0 <= timeout)%Z ->
     Veo3Provider.get_status self job_id provider w = (w1, Ok status_data) ->
     status_data !! "status" = Some (VStr "FAILED") ->
     let e := job_failed "Veo3 job failed: " status_data in
     Veo3Provider.wait_for_completion self (n + S fuel) job_id provider timeout
       poll_interval w0 = Some (w1, Raise e) /\
     blames_provider (classify_error e context) /\
     (any_in validation_indicators (lower (exn_str e)) = false ->
      classify_error e context !! "is_refundable" = Some (VBool true))) /\
  (forall n w w1 status_data fuel,
     round_start n fal_round w0 = Some w -> (now w - now w0 <= timeout)%Z ->
     FalProvider.try_models self job_id FalProvider.models_to_try w
       = (w1, Ok (Some status_data)) ->
     status_data !! "status" = Some (VStr "FAILED") ->
     let e := job_failed "Fal.ai job failed: " status_data in
     FalProvider.wait_for_completion self (n + S fuel) job_id timeout poll_interval w0
       = Some (w1, Raise e) /\
     blames_provider (classify_error e context) /\
     (any_in validation_indicators (lower (exn_str e)) = false ->
      classify_error e context !! "is_refundable" = Some (VBool true))).
Proof.
  split; intros n w w1 status_data fuel Hn Hle Hs Hf e.
  - assert (Hsvc : _is_service_error e (lower (exn_str e)) = true).
    { apply (job_failed_is_service _ "veo3"); [cbn; tauto | reflexivity]. }
    destruct (service_error_blames_provider e context Hsvc) as [Hb Hr].
    split; [|split; [exact Hb | intros Hv; now apply Hr]].
    unfold Veo3Provider.wait_for_completion.
    apply (while_true_raises _ _ _ _ _ _ _ Hn).
    rewrite (veo3_cycle_before_deadline _ _ _ _ _ _ _ Hle).
    unfold bind at 1. rewrite Hs. now apply on_status_failed.
  - assert (Hsvc : _is_service_error e (lower (exn_str e)) = true).
    { apply (job_failed_is_service _ "fal.ai"); [cbn; tauto | reflexivity]. }
    destruct (service_error_blames_provider e context Hsvc) as [Hb Hr].
    split; [|split; [exact Hb | intros Hv; now apply Hr]].
    unfold FalProvider.wait_for_completion.
    apply (while_true_raises _ _ _ _ _ _ _ Hn).
    rewrite (fal_cycle_before_deadline _ _ _ _ _ _ Hle).
    unfold bind at 1. rewrite Hs.
    rewrite bool_decide_eq_false_2; [now apply on_status_failed|].
    intros ->. rewrite lookup_empty in Hf. discriminate.
Qed.

(** X5: the exception with which both polling loops give up at the
    deadline is classified as TIMEOUT, refundable and open to retry,
    although its message also names the provider family (a service
    indicator): the timeout test comes first. Only a validation indicator in
    the message, which a job id can bring in, changes that. *)
Theorem polling_timeout_is_refundable (context : option string) :
  (forall n w fuel,
     round_start n veo3_round w0 = Some w -> (timeout < now w - now w0)%Z ->
     let e := veo3_timed_out job_id timeout in
     Veo3Provider.wait_for_completion self (n + S fuel) job_id provider timeout
       poll_interval w0 = Some (w, Raise e) /\
     (any_in validation_indicators (lower (exn_str e)) = false ->
      classify_error e context !! "error_type" = Some (VErrorType TIMEOUT) /\
      classify_error e context !! "is_refundable" = Some (VBool true) /\
      classify_error e context !! "can_retry" = Some (VBool true))) /\
  (forall n w fuel,
     round_start n fal_round w0 = Some w -> (timeout < now w - now w0)%Z ->
     let e := fal_timed_out job_id timeout in
     FalProvider.wait_for_completion self (n + S fuel) job_id timeout poll_interval w0
       = Some (w, Raise e) /\
     (any_in validation_indicators (lower (exn_str e)) = false ->
      classify_error e context !! "error_type" = Some (VErrorType TIMEOUT) /\
      classify_error e context !! "is_refundable" = Some (VBool true) /\
      classify_error e context !! "can_retry" = Some (VBool true))).
Proof.
  assert (Hto : forall a b c : string,
            any_in timeout_indicators
                   (lower (a ++ b ++ " timed out after " ++ c)) = true).
  { intros a b c. apply (any_in_true _ "timed out"); [cbn; tauto|].
    rewrite !lower_app. apply str_in_app_r, str_in_app_r.
    change (lower " timed out after ") with (" " ++ "timed out" ++ " after ").
    rewrite !string_app_assoc. apply str_in_middle. }
  assert (Hclass : forall msg : string,
            any_in timeout_indicators (lower msg) = true ->
            any_in validation_indicators (lower msg) = false ->
            classify_error (Exception msg) context !! "error_type"
              = Some (VErrorType TIMEOUT) /\
            classify_error (Exception msg) context !! "is_refundable"
              = Some (VBool true) /\
            classify_error (Exception msg) context !! "can_retry" = Some (VBool true)).
  { intros msg Ht Hv.
    unfold classify_error, _is_validation_error, _is_timeout_error, Exception.
    cbn [exn_class exn_str is_ValueError is_asyncio_TimeoutError
         is_builtin_TimeoutError is_httpx_TimeoutException orb].
    rewrite Hv, Ht. repeat split; reflexivity. }
  split; intros n w fuel Hn Hlt e; (split; [|apply Hclass, Hto]).
  - unfold Veo3Provider.wait_for_completion.
    apply (while_true_raises _ _ _ _ _ _ _ Hn).
    apply veo3_cycle_past_deadline, Hlt.
  - unfold FalProvider.wait_for_completion.
    apply (while_true_raises _ _ _ _ _ _ _ Hn).
    apply fal_cycle_past_deadline, Hlt.
Qed.

(** X6: asked to wait for a job of a provider that is neither "kie" nor
    "fal", the Veo3 loop raises [ValueError] in its first round, before any
    status check or sleep; the classifier files every [ValueError] under
    VALIDATION_ERROR, so this failure is not refundable. *)
Theorem unknown_provider_is_not_polled (context : option string) (fuel : nat) :
  provider <> "kie" -> provider <> "fal" -> (0 <= timeout)%Z ->
  let e := Exn ValueError ("Unknown provider: " ++ provider) in
  Veo3Provider.wait_for_completion self (S fuel) job_id provider timeout
    poll_interval w0 = Some (w0, Raise e) /\
  classify_error e context !! "error_type" = Some (VErrorType VALIDATION_ERROR) /\
  classify_error e context !! "is_refundable" = Some (VBool false).
Proof.
  intros Hk Hf Ht e. split.
  - unfold Veo3Provider.wait_for_completion. cbn [while_true].
    rewrite veo3_cycle_before_deadline by lia.
    unfold bind, Veo3Provider.get_status, raise.
    apply String.eqb_neq in Hk, Hf. rewrite Hk, Hf. reflexivity.
  - unfold classify_error, _is_validation_error. cbn. split; reflexivity.
Qed.

End FailedJobs.

(** A job that Kie.ai rejects for its content: the run raises at the first
    status check, and the failure is filed under SERVICE_ERROR, refundable. *)
Lemma failed_job_blames_provider_witness :
  let e := job_failed "Veo3 job failed: " content_rejected in
  Veo3Provider.wait_for_completion rejects_content (0 + 1) "job-1" "kie" 600 30 idle
    = Some (World 1 [KieStatus "job-1" "veo3"], Raise e) /\
  exn_str e = "Veo3 job failed: NSFW content detected" /\
  classify_error e (Some "stage3") !! "error_type" = Some (VErrorType SERVICE_ERROR) /\
  classify_error e (Some "stage3") !! "is_refundable" = Some (VBool true).
Proof.
  destruct (proj1 (failed_job_blames_provider rejects_content "job-1" "kie" 600 30 idle
                     (Some "stage3"))
              0%nat idle (World 1 [KieStatus "job-1" "veo3"]) content_rejected 0%nat)
    as (Hrun & _ & Hrefund); [compute_done | compute_done | compute_done | compute_done |].
  cbv zeta. split; [exact Hrun|]. split; [compute_done|]. split; [compute_done|].
  apply Hrefund. compute_done.
Defined.

(** A job that never finishes: after two rounds the third begins past the
    deadline of 60 and raises, and the failure is a refundable TIMEOUT. *)
Lemma polling_timeout_is_refundable_witness :
  let e := veo3_timed_out "job-1" 60 in
  Veo3Provider.wait_for_completion never_done (2 + 1) "job-1" "kie" 60 30 idle
    = Some (never_done_last_round, Raise e) /\
  classify_error e (Some "stage3") !! "error_type" = Some (VErrorType TIMEOUT) /\
  classify_error e (Some "stage3") !! "is_refundable" = Some (VBool true) /\
  classify_error e (Some "stage3") !! "can_retry" = Some (VBool true).
Proof.
  destruct (proj1 (polling_timeout_is_refundable never_done "job-1" "kie" 60 30 idle
                     (Some "stage3"))
              2%nat never_done_last_round 0%nat) as (Hrun & Hclass);
    [compute_done | compute_done |].
  cbv zeta. split; [exact Hrun|]. apply Hclass. compute_done.
Defined.

Lemma unknown_provider_is_not_polled_witness :
  let e := Exn ValueError "Unknown provider: replicate" in
  Veo3Provider.wait_for_completion never_done 1 "job-1" "replicate" 600 30 idle
    = Some (idle, Raise e) /\
  classify_error e None !! "error_type" = Some (VErrorType VALIDATION_ERROR) /\
  classify_error e None !! "is_refundable" = Some (VBool false).
Proof.
  apply (unknown_provider_is_not_polled never_done "job-1" "replicate" 600 30 idle
           None 0%nat); [discriminate | discriminate | lia].
Defined.
(** ** More about the fallback coordinator *)

Lemma value_error_is_validation (e : exn) (context : option string) :
  is_ValueError (exn_class e) = true ->
  classify_error e context !! "error_type" = Some (VErrorType VALIDATION_ERROR) /\
  classify_error e context !! "is_refundable" = Some (VBool false) /\
  classify_error e context !! "can_retry" = Some (VBool true).
Proof.
  intros H. unfold classify_error, _is_validation_error. rewrite H.
  repeat split; reflexivity.
Qed.

Section Veo3More.

Import Veo3Provider.

Variable self : providers.
Variables (image_url prompt : string) (use_fast : bool) (duration : Z)
          (aspect_ratio : string) (webhook_url : option string).

Local Abbreviation kie := (_submit_to_kie self image_url prompt use_fast duration
                                       aspect_ratio webhook_url).
Local Abbreviation fal := (_submit_to_fal self image_url prompt duration
                                       aspect_ratio webhook_url use_fast).
Local Abbreviation submit := (submit_veo3_job self image_url prompt use_fast duration
                                           aspect_ratio webhook_url).

(** X2: with Fal.ai as the preferred provider the job goes to Fal.ai and
    nowhere else: Kie.ai is not called, no deadline applies to the
    submission however long it takes, the result is marked as no fallback
    with Fal.ai as primary provider, and an exception of the Fal.ai
    submission reaches the caller as it is, not wrapped into the
    all-providers-failed error. *)
Theorem fal_preferred_goes_direct (timeout : Z) (w : world) :
  fst (submit "fal" timeout w) = fst (fal w) /\
  kie_submissions (calls (fst (submit "fal" timeout w))) = kie_submissions (calls w) /\
  fal_submissions (calls (fst (submit "fal" timeout w))) = S (fal_submissions (calls w)) /\
  (forall e, snd (fal w) = Raise e -> snd (submit "fal" timeout w) = Raise e) /\
  (forall r, snd (fal w) = Ok r ->
     exists res,
       snd (submit "fal" timeout w) = Ok res /\
       res !! "fallback_triggered" = Some (VBool false) /\
       res !! "primary_provider" = Some (VStr "fal") /\
       res !! "provider" = Some (VStr "fal") /\
       res !! "job_id" = r !! "job_id").
Proof.
  unfold submit_veo3_job. cbn [String.eqb Ascii.eqb Bool.eqb]. unfold bind, ret.
  destruct (submit_to_fal_calls self image_url prompt use_fast duration aspect_ratio
              webhook_url w) as [rq Hrq].
  destruct (fal w) as [w1 [r|e]] eqn:Hfal; cbn [fst snd] in *.
  - destruct (submit_to_fal_ok self image_url prompt use_fast duration aspect_ratio
                webhook_url _ _ _ Hfal) as (Hp & _).
    rewrite Hrq. destruct (submissions_app (calls w) (FalSubmit rq)) as [-> ->].
    repeat split; try lia; try discriminate.
    intros r' [= <-]. eexists. split; [reflexivity|]. repeat split.
    + rewrite lookup_insert_ne by discriminate. apply lookup_insert_eq.
    + apply lookup_insert_eq.
    + rewrite !lookup_insert_ne by discriminate. exact Hp.
    + rewrite !lookup_insert_ne by discriminate. reflexivity.
  - rewrite Hrq. destruct (submissions_app (calls w) (FalSubmit rq)) as [-> ->].
    repeat split; try lia; try discriminate. now intros e' [= <-].
Qed.

(** What [submit_veo3_job] returns names its provider. *)
Lemma submit_names_provider (preferred_provider : string) (timeout : Z)
    (w w' : world) (res : dict) :
  submit preferred_provider timeout w = (w', Ok res) ->
  (res !! "provider" = Some (VStr "kie") \/ res !! "provider" = Some (VStr "fal")) /\
  is_Some (res !! "job_id").
Proof.
  unfold submit_veo3_job.
  destruct (String.eqb preferred_provider "fal").
  - unfold bind, ret. destruct (fal w) as [w1 [r|e]] eqn:Hfal; [|discriminate].
    intros [= <- <-].
    destruct (submit_to_fal_ok self image_url prompt use_fast duration aspect_ratio
                webhook_url _ _ _ Hfal) as (Hp & Hj & _).
    rewrite !lookup_insert_ne by discriminate. auto.
  - unfold bind at 1.
    destruct (classic_primary self image_url prompt use_fast duration aspect_ratio
                webhook_url timeout w) as [Hf | (w1 & r & Hk & Hle)].
    + rewrite (try_primary_failed _ _ _ _ _ _ _ _ _ Hf).
      unfold try_except, bind, ret, raise.
      destruct (fal _) as [w3 [r'|e']] eqn:Hfal; [|discriminate].
      intros [= <- <-].
      destruct (submit_to_fal_ok self image_url prompt use_fast duration aspect_ratio
                  webhook_url _ _ _ Hfal) as (Hp & Hj & _).
      rewrite !lookup_insert_ne by discriminate. auto.
    + rewrite (try_primary_in_time _ _ _ _ _ _ _ _ _ _ _ Hk Hle).
      unfold ret. intros [= <- <-].
      destruct (submit_to_kie_ok self image_url prompt use_fast duration aspect_ratio
                  webhook_url _ _ _ Hk) as (Hp & Hj & _).
      rewrite !lookup_insert_ne by discriminate. auto.
Qed.

(** X3: whichever way [submit_veo3_job] returns, its result names the job
    and, as provider, Kie.ai or Fal.ai; so the status check of the polling
    loop, which is handed that name, never takes the unknown-provider
    branch: it is one call to the provider that took the job, and what
    that provider answers. *)
Theorem submitted_job_can_be_polled (preferred_provider : string) (timeout : Z)
    (w w' : world) (res : dict) :
  submit preferred_provider timeout w = (w', Ok res) ->
  exists provider job_id,
    res !! "provider" = Some (VStr provider) /\
    (provider = "kie" \/ provider = "fal") /\
    res !! "job_id" = Some job_id /\
    forall w2,
      get_status self (py_str job_id) provider w2
      = await_call (status_call provider (py_str job_id))
                   (status_reply self provider (py_str job_id)) w2.
Proof.
  intros Hs. destruct (submit_names_provider _ _ _ _ _ Hs) as ([Hp|Hp] & [j Hj]).
  - exists "kie", j. repeat split; auto.
  - exists "fal", j. repeat split; auto.
Qed.

End Veo3More.
(** The fallback coordinator on the sample providers, once more. *)

Lemma fal_preferred_goes_direct_witness :
  exists res,
    snd (Veo3Provider.submit_veo3_job scenario_A "https://bucket/composite.png"
           "wave" false 8 "9:16" None "fal" 60 idle) = Ok res /\
    res !! "fallback_triggered" = Some (VBool false) /\
    res !! "primary_provider" = Some (VStr "fal") /\
    res !! "provider" = Some (VStr "fal") /\
    res !! "job_id" = scenario_B_fallback !! "job_id".
Proof.
  apply (proj2 (proj2 (proj2 (proj2
           (fal_preferred_goes_direct scenario_A "https://bucket/composite.png"
              "wave" false 8 "9:16" None 60 idle)))) scenario_B_fallback).
  compute_done.
Defined.

Lemma submitted_job_can_be_polled_witness :
  exists provider job_id,
    (<["primary_provider" := VStr "kie"]>
     (<["fallback_triggered" := VBool false]> scenario_A_result) : dict)
      !! "provider" = Some (VStr provider) /\
    (provider = "kie" \/ provider = "fal") /\
    (<["primary_provider" := VStr "kie"]>
     (<["fallback_triggered" := VBool false]> scenario_A_result) : dict)
      !! "job_id" = Some job_id /\
    forall w2,
      Veo3Provider.get_status scenario_A (py_str job_id) provider w2
      = await_call (status_call provider (py_str job_id))
                   (status_reply scenario_A provider (py_str job_id)) w2.
Proof.
  apply (submitted_job_can_be_polled scenario_A "https://bucket/composite.png"
           "wave" false 8 "9:16" None "kie" 60 idle scenario_A_world).
  compute_done.
Defined.
(** ** The provider orchestrator *)

Section OrchestratorFacts.

Import ProviderOrchestrator.

Variable self : providers.
Variable request : request.

Lemma get_provider_known (name : string) :
  known_provider name -> exists p, _get_provider name = Ok p.
Proof.
  unfold known_provider, _get_provider. intros [-> | ->]; cbn; eauto.
Qed.

Lemma get_provider_unknown (name : string) :
  ~ known_provider name -> _get_provider name = Raise (unknown_provider name).
Proof.
  unfold known_provider, _get_provider. intros H.
  destruct (String.eqb_spec (lower name) "kie") as [Hk|_]; [tauto|].
  destruct (String.eqb_spec (lower name) "fal") as [Hf|_]; [tauto|].
  reflexivity.
Qed.

Lemma submit_calls (p : provider_instance) (w : world) :
  calls (fst (submit_image_to_video_job self p request w))
  = (calls w ++ [match p with Kie => KieSubmit request | Fal => FalSubmit request end])%list.
Proof. now destruct p. Qed.

(** X7: both provider names are looked up before anything is sent.  A name
    that is not "kie" or "fal" in some spelling of upper and lower case makes
    the submission raise [ValueError] without a call to any provider; this
    holds for the name of the fallback too, whether or not the primary
    provider would have taken the job.  The status check looks its provider
    up in the same way. *)
Theorem unknown_provider_stops_before_any_call (primary_provider fallback_provider : string)
    (timeout_seconds : Z) (job_id model : string) (w : world) :
  (~ known_provider primary_provider ->
   submit_image_to_video_job_with_fallback self request primary_provider
     fallback_provider timeout_seconds w
   = (w, Raise (unknown_provider primary_provider))) /\
  (known_provider primary_provider -> ~ known_provider fallback_provider ->
   submit_image_to_video_job_with_fallback self request primary_provider
     fallback_provider timeout_seconds w
   = (w, Raise (unknown_provider fallback_provider))) /\
  (~ known_provider primary_provider ->
   check_status_any_provider self job_id primary_provider model w
   = (w, Raise (unknown_provider primary_provider))) /\
  (known_provider primary_provider ->
   exists c, calls (fst (check_status_any_provider self job_id primary_provider model w))
             = (calls w ++ [c])%list /\
             (c = KieStatus job_id model \/ c = FalStatus job_id model)).
Proof.
  unfold submit_image_to_video_job_with_fallback, check_status_any_provider.
  repeat split.
  - intros H. unfold bind at 1. unfold lift. now rewrite (get_provider_unknown _ H).
  - intros Hp Hf. destruct (get_provider_known _ Hp) as [p Hpk].
    unfold bind at 1. unfold lift. rewrite Hpk.
    unfold bind at 1. now rewrite (get_provider_unknown _ Hf).
  - intros H. unfold bind, lift. now rewrite (get_provider_unknown _ H).
  - intros Hp. destruct (get_provider_known _ Hp) as [p Hpk].
    unfold bind, lift. rewrite Hpk. destruct p; cbn; eauto.
Qed.

Section KnownProviders.

Variables (primary_provider fallback_provider : string).
Variables (primary fallback_prov : provider_instance).
Hypothesis primary_known : _get_provider primary_provider = Ok primary.
Hypothesis fallback_known : _get_provider fallback_provider = Ok fallback_prov.
Variable timeout_seconds : Z.

Local Abbreviation first_attempt := (submit_image_to_video_job self primary request).
Local Abbreviation second_attempt := (submit_image_to_video_job self fallback_prov request).
Local Abbreviation submit :=
  (submit_image_to_video_job_with_fallback self request primary_provider
     fallback_provider timeout_seconds).

Lemma submit_known (w : world) :
  submit w
  = (attempt <- try_primary self primary request primary_provider timeout_seconds ;;
     match attempt with
     | Some result => ret result
     | None =>
         try_except
           (result <- second_attempt ;;
            ret (<["primary_provider" := VStr primary_provider]>
                 (<["fallback_triggered" := VBool true]>
                 (<["provider_used" := VStr fallback_provider]> result))))
           (fun e =>
              raise (Exception
                ("All providers failed for video generation. Primary (" ++
                 primary_provider ++ ") and " ++
                 "fallback (" ++ fallback_provider ++ ") both errored: " ++ exn_str e)))
     end) w.
Proof.
  unfold submit_image_to_video_job_with_fallback.
  unfold bind at 1. unfold lift. rewrite primary_known.
  unfold bind at 1. rewrite fallback_known. reflexivity.
Qed.

(** X8: when the primary provider answers within the timeout, its reply is
    returned with [provider_used] and [fallback_triggered] added, and the
    fallback provider is not called. *)
Theorem orchestrator_primary_in_time (w w1 : world) (r : dict) :
  first_attempt w = (w1, Ok r) -> (now w1 - now w <= timeout_seconds)%Z ->
  submit w = (w1, Ok (<["fallback_triggered" := VBool false]>
                      (<["provider_used" := VStr primary_provider]> r))) /\
  exists c, calls w1 = (calls w ++ [c])%list.
Proof.
  intros Hp Hle. split.
  - rewrite submit_known. unfold bind at 1.
    unfold try_primary, try_except, bind, wait_for, ret.
    rewrite Hp. apply Z.leb_le in Hle. rewrite Hle. reflexivity.
  - pose proof (submit_calls primary w) as Hc. rewrite Hp in Hc. eauto.
Qed.

(** X9: when the primary provider takes longer than the timeout or raises,
    the fallback provider is called once, with no timeout of its own.  What
    the caller gets depends on the fallback alone: its reply with
    [provider_used], [fallback_triggered] and [primary_provider] added, or
    one exception whose message names both providers and carries the text of
    the fallback's exception; why the primary failed is in neither. *)
Theorem orchestrator_fallback_decides (w : world) :
  primary_failed (first_attempt w) w timeout_seconds ->
  let started := after_primary (first_attempt w) w timeout_seconds in
  fst (submit w) = fst (second_attempt started) /\
  snd (submit w)
  = match snd (second_attempt started) with
    | Ok r => Ok (<["primary_provider" := VStr primary_provider]>
                  (<["fallback_triggered" := VBool true]>
                  (<["provider_used" := VStr fallback_provider]> r)))
    | Raise e =>
        Raise (Exception
          ("All providers failed for video generation. Primary (" ++
           primary_provider ++ ") and fallback (" ++ fallback_provider ++
           ") both errored: " ++ exn_str e))
    end /\
  exists c1 c2, calls (fst (submit w)) = (calls w ++ [c1; c2])%list.
Proof.
  intros Hf started.
  assert (Htry : try_primary self primary request primary_provider timeout_seconds w
                 = (started, Ok None)).
  { subst started. revert Hf.
    unfold primary_failed, after_primary, try_primary, try_except, bind, wait_for, ret.
    destruct (first_attempt w) as [w1 r1]. cbn [fst snd].
    destruct (Z.leb_spec (now w1 - now w) timeout_seconds) as [Hle|Hgt].
    - intros [Hlt | [e ->]]; [lia | reflexivity].
    - intros _. reflexivity. }
  assert (Hrun : submit w
                 = match second_attempt started with
                   | (w2, Ok r) =>
                       (w2, Ok (<["primary_provider" := VStr primary_provider]>
                                (<["fallback_triggered" := VBool true]>
                                (<["provider_used" := VStr fallback_provider]> r))))
                   | (w2, Raise e) =>
                       (w2, Raise (Exception
                          ("All providers failed for video generation. Primary (" ++
                           primary_provider ++ ") and fallback (" ++ fallback_provider ++
                           ") both errored: " ++ exn_str e)))
                   end).
  { rewrite submit_known. unfold bind at 1. rewrite Htry.
    unfold try_except, bind, ret, raise.
    destruct (second_attempt started) as [w2 [r|e]]; reflexivity. }
  rewrite Hrun. pose proof (submit_calls fallback_prov started) as Hc2.
  assert (Hc1 : exists c1, calls started = (calls w ++ [c1])%list).
  { subst started. unfold after_primary.
    pose proof (submit_calls primary w) as Hc.
    destruct (_ <=? _)%Z; cbn [calls]; eauto. }
  destruct Hc1 as [c1 Hc1].
  destruct (second_attempt started) as [w2 [r|e]]; cbn [fst snd] in *;
    (split; [reflexivity|]); (split; [reflexivity|]);
    exists c1; eexists; rewrite Hc2, Hc1, <- app_assoc; reflexivity.
Qed.

End KnownProviders.

End OrchestratorFacts.
(** The provider orchestrator on the sample providers. *)

Lemma unknown_provider_stops_before_any_call_witness :
  ProviderOrchestrator.submit_image_to_video_job_with_fallback scenario_A
    sample_request "kie" "replicate" 60 idle
  = (idle, Raise (unknown_provider "replicate")).
Proof.
  apply (unknown_provider_stops_before_any_call scenario_A sample_request "kie"
           "replicate" 60 "job-1" "veo3" idle).
  - left. reflexivity.
  - intros [H|H]; discriminate H.
Defined.

Lemma orchestrator_primary_in_time_witness :
  ProviderOrchestrator.submit_image_to_video_job_with_fallback scenario_A
    sample_request "Kie" "fal" 60 idle
  = (World 2 [KieSubmit sample_request],
     Ok (<["fallback_triggered" := VBool false]>
         (<["provider_used" := VStr "Kie"]>
         (<["job_id" := VStr "kie_abc123"]> ∅)))) /\
  exists c, calls (World 2 [KieSubmit sample_request]) = (calls idle ++ [c])%list.
Proof.
  apply (orchestrator_primary_in_time scenario_A sample_request "Kie" "fal"
           ProviderOrchestrator.Kie ProviderOrchestrator.Fal eq_refl eq_refl 60 idle);
    compute_done.
Defined.

Lemma orchestrator_fallback_decides_witness :
  let run := ProviderOrchestrator.submit_image_to_video_job_with_fallback scenario_B
               sample_request "kie" "fal" 60 idle in
  fst run = World 63 [KieSubmit sample_request; FalSubmit sample_request] /\
  returned run "provider_used" = Some (VStr "fal") /\
  returned run "fallback_triggered" = Some (VBool true) /\
  returned run "primary_provider" = Some (VStr "kie") /\
  returned run "primary_error" = None.
Proof.
  destruct (orchestrator_fallback_decides scenario_B sample_request "kie" "fal"
              ProviderOrchestrator.Kie ProviderOrchestrator.Fal eq_refl eq_refl 60 idle)
    as (Hw & Hres & _).
  { left. compute_done. }
  cbv zeta. unfold returned. rewrite Hw, Hres. repeat split; compute_done.
Defined.
(** ** The pipeline: what stage 1 and stage 3 make of their input *)

Section PipelineInput.

Import PipelineOrchestrator.

Variable self : collaborators.

Lemma missing_input_steps generation_id user_id stage1_mode person_prompt
    person_fields msg tr :
  missing_person_input stage1_mode person_prompt person_fields = Some msg ->
  generate_person_only_steps self generation_id user_id stage1_mode person_prompt
    person_fields tr = (tr, Raise (Exn ValueError msg)).
Proof.
  unfold missing_person_input, generate_person_only_steps, bind, raise.
  destruct (String.eqb stage1_mode "EASY").
  - destruct person_fields as [fields|]; cbn [dict_truthy].
    + destruct (negb (bool_decide (fields = ∅))); [discriminate|].
      now intros [= <-].
    + now intros [= <-].
  - destruct (truthy person_prompt); [discriminate|]. now intros [= <-].
Qed.

(** X10: stage 1 looks at its input before it does anything else.  In EASY
    mode without form fields, and in any other mode without a person
    prompt, the stage-1 entry point and the full run raise [ValueError]
    without a call to a provider, to storage or to the enrichment service:
    all the run does is call its webhook notifier, the full run with the
    announcement of stage 1 and both with the failure report.  The report
    files the failure under VALIDATION_ERROR, not refundable, and the
    stage-1 entry point puts the message under [stage1_error]. *)
Theorem missing_person_input_stops_stage1 (generation_id user_id stage1_mode : string)
    (person_prompt : pyval) (person_fields : option dict) (msg : string)
    (tr : trace) :
  missing_person_input stage1_mode person_prompt person_fields = Some msg ->
  let e := Exn ValueError msg in
  let alone :=
    GeneratePersonOnly generation_id user_id stage1_mode person_prompt person_fields in
  invoke self alone tr = ((tr ++ failure_report alone e)%list, Raise e) /\
  (forall product_image_url video_prompt composite_prompt veo3_mode duration
          aspect_ratio,
     let full :=
       GenerateUgcVideo generation_id user_id stage1_mode product_image_url
         video_prompt person_prompt person_fields composite_prompt veo3_mode
         duration aspect_ratio in
     invoke self full tr
     = ((tr ++ Notify (stage1_announcement generation_id)
            :: failure_report full e)%list, Raise e)) /\
  (forall ep,
     let payload :=
       classification_payload generation_id e (stage_of ep) (error_field_of ep) in
     payload !! "error_type" = Some (VErrorType VALIDATION_ERROR) /\
     payload !! "is_refundable" = Some (VBool false)) /\
  classification_payload generation_id e (Some 1%Z) (Some "stage1_error")
    !! "stage1_error" = Some (VStr msg).
Proof.
  intros Hmiss e alone.
  assert (Hval : forall context,
            classify_error e context
            = error_info VALIDATION_ERROR (_extract_validation_message e)
                         false true msg) by reflexivity.
  split; [|split; [|split]].
  - rewrite invoke_steps, reporting_failure_run. cbn [steps_of alone].
    now rewrite (missing_input_steps _ _ _ _ _ _ _ Hmiss).
  - intros product_image_url video_prompt composite_prompt veo3_mode duration
           aspect_ratio full.
    rewrite invoke_steps, reporting_failure_run. cbn [steps_of full].
    unfold generate_ugc_video_steps. unfold bind at 1.
    rewrite send_webhook_run. fold (stage1_announcement generation_id).
    unfold bind at 1.
    revert Hmiss. unfold missing_person_input, raise. subst e full. clear Hval.
    destruct (String.eqb stage1_mode "EASY").
    + destruct person_fields as [fields|]; cbn [dict_truthy].
      * destruct (negb (bool_decide (fields = ∅))); [discriminate|].
        intros [= <-]. cbv beta iota delta [negb]. now rewrite <- app_assoc.
      * intros [= <-]. cbv beta iota delta [negb]. now rewrite <- app_assoc.
    + destruct (truthy person_prompt); [discriminate|].
      intros [= <-]. cbv beta iota delta [negb]. now rewrite <- app_assoc.
  - intros ep payload. subst payload. unfold classification_payload.
    rewrite Hval.
    destruct (error_info_lookup VALIDATION_ERROR (_extract_validation_message e)
                false true msg) as (H1 & H2 & H3 & H4 & H5).
    rewrite H1, H2, H3, H4, H5. cbn [default].
    destruct ep; split; reflexivity.
  - unfold classification_payload. rewrite Hval.
    destruct (error_info_lookup VALIDATION_ERROR (_extract_validation_message e)
                false true msg) as (H1 & H2 & H3 & H4 & H5).
    rewrite H1, H2, H3, H4, H5. cbn [default]. reflexivity.
Qed.

End PipelineInput.

Section VideoPrompt.

Import PipelineOrchestrator.

Lemma parse_line_unkeyed parsed line :
  sets_field line = false -> parse_line parsed line = parsed.
Proof.
  unfold sets_field, parse_line. destruct parsed as [[dialogue action] emotion].
  destruct (str_in ":" line); [|reflexivity].
  destruct (split_once colon line) as [key value]. cbn [fst andb].
  destruct (String.eqb (lower (strip key)) "dialogue"); [discriminate|].
  destruct (String.eqb (lower (strip key)) "action"); [discriminate|].
  destruct (String.eqb (lower (strip key)) "emotion"); [discriminate|].
  reflexivity.
Qed.

Lemma parse_lines_unkeyed lines parsed :
  Forall (fun line => sets_field line = false) lines ->
  fold_left parse_line lines parsed = parsed.
Proof.
  induction 1 as [|line lines Hline _ IH]; [reflexivity|].
  cbn [fold_left]. now rewrite parse_line_unkeyed.
Qed.

(** X11: a video prompt of several lines with a colon somewhere in it is
    read as a structured prompt.  When none of its lines sets the dialogue,
    the action or the emotion, nothing of the prompt is used: stage 3 falls
    back on its defaults and, with the dialogue empty, on a generated
    dialogue, and the whole run is that of the empty prompt. *)
Theorem unkeyed_video_prompt_is_dropped (self : collaborators)
    (generation_id user_id : string) (composite_image_url : pyval)
    (video_prompt veo3_mode : string) (duration : Z) (aspect_ratio : string)
    (product_image_url : pyval) :
  str_in (String line_feed "") video_prompt = true ->
  str_in ":" video_prompt = true ->
  Forall (fun line => sets_field line = false) (split line_feed video_prompt) ->
  parse_video_prompt video_prompt = video_prompt_defaults /\
  invoke self (GenerateVideoOnly generation_id user_id composite_image_url
                 video_prompt veo3_mode duration aspect_ratio product_image_url)
  = invoke self (GenerateVideoOnly generation_id user_id composite_image_url
                   "" veo3_mode duration aspect_ratio product_image_url).
Proof.
  intros Hnl Hcolon Hlines.
  assert (Hparse : parse_video_prompt video_prompt = video_prompt_defaults).
  { unfold parse_video_prompt. rewrite Hnl, Hcolon. cbn [andb].
    now apply parse_lines_unkeyed. }
  split; [exact Hparse|].
  cbn [invoke]. unfold generate_video_only, generate_video_only_steps.
  rewrite Hparse. reflexivity.
Qed.

End VideoPrompt.
(** Stage 1 and stage 3 on sample input. *)

Lemma missing_person_input_stops_stage1_witness :
  let e := Exn ValueError "person_fields required for EASY mode" in
  let alone := GeneratePersonOnly "gen-1" "user-1" "EASY" (VStr "a woman in her 20s") None in
  invoke all_well alone [] = (([] ++ failure_report alone e)%list, Raise e) /\
  classification_payload "gen-1" e (Some 1%Z) (Some "stage1_error") !! "stage1_error"
  = Some (VStr "person_fields required for EASY mode").
Proof.
  destruct (missing_person_input_stops_stage1 all_well "gen-1" "user-1" "EASY"
              (VStr "a woman in her 20s") None
              "person_fields required for EASY mode" [] eq_refl)
    as (Hrun & _ & _ & Hfield).
  split; [exact Hrun | exact Hfield].
Defined.

Lemma unkeyed_video_prompt_is_dropped_witness :
  parse_video_prompt two_line_prompt = video_prompt_defaults /\
  invoke all_well (GenerateVideoOnly "gen-1" "user-1" (VStr "https://bucket/composite.png")
                     two_line_prompt "FAST" 8 "9:16" VNone)
  = invoke all_well (GenerateVideoOnly "gen-1" "user-1" (VStr "https://bucket/composite.png")
                       "" "FAST" 8 "9:16" VNone).
Proof.
  apply (unkeyed_video_prompt_is_dropped all_well "gen-1" "user-1"
           (VStr "https://bucket/composite.png") two_line_prompt "FAST" 8 "9:16" VNone).
  - reflexivity.
  - reflexivity.
  - compute_done.
Defined.
(** ** The video prompt: built, and read back *)

Section Lines.

Import PipelineOrchestrator.

(** [c in s] for a one-character [c]. *)
Lemma char_in_cons (c x : ascii) (s : string) :
  str_in (String c "") (String x s)
  = (Ascii.eqb x c || str_in (String c "") s)%bool.
Proof.
  cbn [str_in String.prefix].
  destruct (Ascii.ascii_dec c x) as [->|Hne].
  - rewrite Ascii.eqb_refl. now destruct s.
  - destruct (Ascii.eqb_spec x c) as [->|_]; [contradiction|reflexivity].
Qed.

Lemma char_in_app (c : ascii) (a b : string) :
  str_in (String c "") (a ++ b)
  = (str_in (String c "") a || str_in (String c "") b)%bool.
Proof.
  induction a as [|x a IH]; [reflexivity|].
  change (String x a ++ b) with (String x (a ++ b)).
  rewrite !char_in_cons, IH. now rewrite orb_assoc.
Qed.

Lemma split_line (sep : ascii) (line rest : string) :
  str_in (String sep "") line = false ->
  split sep (line ++ String sep "" ++ rest) = line :: split sep rest.
Proof.
  change (String sep "" ++ rest) with (String sep rest).
  induction line as [|x line IH]; intros Hno.
  - change ("" ++ String sep rest) with (String sep rest). cbn [split].
    now rewrite Ascii.eqb_refl.
  - rewrite char_in_cons in Hno. apply orb_false_elim in Hno as [Hx Hline].
    change (String x line ++ String sep rest)
      with (String x (line ++ String sep rest)).
    cbn [split]. rewrite Hx, (IH Hline). reflexivity.
Qed.

Lemma split_last_line (sep : ascii) (line : string) :
  str_in (String sep "") line = false -> split sep line = [line].
Proof.
  induction line as [|x line IH]; intros Hno; [reflexivity|].
  rewrite char_in_cons in Hno. apply orb_false_elim in Hno as [Hx Hline].
  cbn [split]. rewrite Hx, (IH Hline). reflexivity.
Qed.

Lemma split_once_key (sep : ascii) (key value : string) :
  str_in (String sep "") key = false ->
  split_once sep (key ++ String sep value) = (key, value).
Proof.
  induction key as [|x key IH]; intros Hno.
  - change ("" ++ String sep value) with (String sep value). cbn [split_once].
    now rewrite Ascii.eqb_refl.
  - rewrite char_in_cons in Hno. apply orb_false_elim in Hno as [Hx Hkey].
    change (String x key ++ String sep value)
      with (String x (key ++ String sep value)).
    cbn [split_once]. rewrite Hx, (IH Hkey). reflexivity.
Qed.

(** A line [key: value] of a structured prompt. *)
Lemma parse_keyed_line (parsed : string * string * string) (key value : string) :
  str_in ":" key = false ->
  parse_line parsed (key ++ ":" ++ value)
  = let '(dialogue, action, emotion) := parsed in
    let name := lower (strip key) in
    if String.eqb name "dialogue" then (strip value, action, emotion)
    else if String.eqb name "action" then (dialogue, strip value, emotion)
    else if String.eqb name "emotion" then (dialogue, action, strip value)
    else parsed.
Proof.
  intros Hkey. unfold parse_line. destruct parsed as [[dialogue action] emotion].
  rewrite str_in_middle.
  change (":" ++ value) with (String colon value).
  rewrite (split_once_key colon key value Hkey). reflexivity.
Qed.

(** [strip] on text that ends in something else than white space. *)
Lemma rstrip_app (a b : string) :
  rstrip b <> "" -> rstrip (a ++ b) = a ++ rstrip b.
Proof.
  intros Hb. induction a as [|x a IH]; [reflexivity|].
  change (String x a ++ b) with (String x (a ++ b)). cbn [rstrip]. rewrite IH.
  change (String x a ++ rstrip b) with (String x (a ++ rstrip b)).
  destruct (a ++ rstrip b) eqn:Hab; [|reflexivity].
  destruct a; [|discriminate Hab]. cbn in Hab. contradiction.
Qed.

Lemma lstrip_app (a b : string) :
  lstrip b = b -> lstrip (a ++ b) = lstrip a ++ b.
Proof.
  intros Hb. induction a as [|x a IH]; [exact Hb|].
  change (String x a ++ b) with (String x (a ++ b)). cbn [lstrip].
  destruct (is_space x); [exact IH | reflexivity].
Qed.

End Lines.

(** Reads the next line of a structured prompt: one that sets no field, or
    the line [key: value]. *)
Ltac skip_line :=
  lazymatch goal with
  | |- context [PipelineOrchestrator.parse_line (?d, ?a, ?e) ?line] =>
      rewrite (parse_line_unkeyed (d, a, e) line) by reflexivity
  end.

Ltac read_line key value :=
  lazymatch goal with
  | |- context [PipelineOrchestrator.parse_line (?d, ?a, ?e) ?line] =>
      rewrite (parse_keyed_line (d, a, e) key value eq_refl
               : PipelineOrchestrator.parse_line (d, a, e) line = _)
  end;
  cbv beta iota zeta;
  let name := eval vm_compute in (lower (strip key)) in
  change (lower (strip key)) with name;
  let b1 := eval vm_compute in (String.eqb name "dialogue") in
  let b2 := eval vm_compute in (String.eqb name "action") in
  let b3 := eval vm_compute in (String.eqb name "emotion") in
  change (String.eqb name "dialogue") with b1;
  change (String.eqb name "action") with b2;
  change (String.eqb name "emotion") with b3;
  cbv iota.
Section RoundTrip.

Import PipelineOrchestrator.

(** X12: a prompt that [build_video_prompt] has built is a structured
    prompt for stage 3, which reads the dialogue and the action back from
    it, trimmed of white space at their ends (the action is the default one
    if none was given); the emotion comes back with ", casual and authentic"
    added, once more each time round.  The arguments are single lines. *)
Theorem video_prompt_round_trip (dialogue action emotion character_description
    product_type : string) :
  str_in (String line_feed "") dialogue = false ->
  str_in (String line_feed "") action = false ->
  str_in (String line_feed "") emotion = false ->
  str_in (String line_feed "") character_description = false ->
  parse_video_prompt
    (N8nPromptBuilder.build_video_prompt dialogue action emotion
       character_description product_type)
  = (strip dialogue,
     strip (if String.eqb action "" then
              "character sits holding the product casually while speaking"
            else action),
     lstrip emotion ++ ", casual and authentic").
Proof.
  intros Hd Ha He Hc.
  set (action' := if String.eqb action "" then
                    "character sits holding the product casually while speaking"
                  else action).
  assert (Ha' : str_in (String line_feed "") action' = false).
  { subst action'. destruct (String.eqb action ""); [reflexivity | exact Ha]. }
  unfold N8nPromptBuilder.build_video_prompt. fold action'.
  unfold N8nPromptBuilder.join_lines, parse_video_prompt.
  cbn [String.concat].
  change Veo3Provider.newline with (String line_feed "").
  rewrite str_in_app_r.
  2:{ apply str_in_app_head. }
  assert (Hcolon : forall rest, str_in ":" ("dialogue: " ++ rest) = true)
    by (intros rest; exact (str_in_middle "dialogue" ":" (" " ++ rest))).
  rewrite (string_app_assoc "dialogue: "), Hcolon.
  cbn [andb]. rewrite <- (string_app_assoc "dialogue: ").
  repeat (rewrite split_line;
          [| rewrite ?char_in_app, ?Hd, ?Ha', ?He, ?Hc; reflexivity ]).
  rewrite split_last_line by reflexivity.
  cbn [fold_left].
  read_line "dialogue" (" " ++ dialogue).
  read_line "action" (" " ++ action').
  skip_line.
  read_line "emotion" (" " ++ emotion ++ ", casual and authentic").
  read_line "character" (" " ++ character_description).
  do 4 skip_line.
  change (strip (" " ++ dialogue)) with (strip dialogue).
  change (strip (" " ++ action')) with (strip action').
  change (strip (" " ++ emotion ++ ", casual and authentic"))
    with (strip (emotion ++ ", casual and authentic")).
  unfold strip at 3.
  rewrite lstrip_app by reflexivity.
  rewrite rstrip_app by (vm_compute; discriminate).
  reflexivity.
Qed.

End RoundTrip.

(** X13: the generated dialogue is the first template of the product type,
    and only the first templates for drinks and beverages mention the
    brand.  For every other product type the brand name makes no
    difference to the dialogue, although later templates of those types
    have a place for it. *)
Theorem brand_named_for_drinks_only (product_type brand_name : string) :
  lower product_type <> "drink" -> lower product_type <> "beverage" ->
  N8nPromptBuilder.generate_casual_dialogue product_type brand_name
  = N8nPromptBuilder.generate_casual_dialogue product_type "".
Proof.
  intros Hdrink Hbeverage. unfold N8nPromptBuilder.generate_casual_dialogue.
  cbn [N8nPromptBuilder.templates_get].
  repeat match goal with
         | |- context [String.eqb ?k (lower product_type)] =>
             destruct (String.eqb_spec k (lower product_type)) as [Heq|_];
             [ first [ now contradiction Hdrink | now contradiction Hbeverage
                     | reflexivity ] |]
         end.
  reflexivity.
Qed.

Lemma video_prompt_round_trip_witness :
  PipelineOrchestrator.parse_video_prompt
    (N8nPromptBuilder.build_video_prompt "  so I got this and... love it" ""
       "excited" "person from the composite image" "drink")
  = ("so I got this and... love it",
     "character sits holding the product casually while speaking",
     "excited, casual and authentic").
Proof.
  apply (video_prompt_round_trip "  so I got this and... love it" "" "excited"
           "person from the composite image" "drink"); reflexivity.
Defined.

Lemma brand_named_for_drinks_only_witness :
  N8nPromptBuilder.generate_casual_dialogue "Skincare" "Glow & Co"
  = N8nPromptBuilder.generate_casual_dialogue "Skincare" "".
Proof.
  apply (brand_named_for_drinks_only "Skincare" "Glow & Co"); discriminate.
Defined.
(** ** The API key *)

Section Replace.

Variables old new : string.

Lemma replace_from_skip (p s : string) :
  replace_from (String.length p) old new (p ++ s) = replace_from 0 old new s.
Proof.
  induction p as [|c p IH]; [reflexivity|].
  change (String c p ++ s) with (String c (p ++ s)). exact IH.
Qed.

Lemma replace_absent (s : string) :
  str_in old s = false -> replace old new s = s.
Proof.
  unfold replace. induction s as [|c s IH]; intros Hno; [reflexivity|].
  cbn [str_in] in Hno. apply orb_false_elim in Hno as [Hpre Hs].
  cbn [replace_from]. rewrite Hpre, (IH Hs). reflexivity.
Qed.

End Replace.

Lemma replace_head (old new s : string) :
  old <> "" -> replace old new (old ++ s) = new ++ replace old new s.
Proof.
  intros Hold. unfold replace. pose proof (prefix_app old s) as Hpre.
  destruct old as [|c old']; [contradiction|].
  change (String c old' ++ s) with (String c (old' ++ s)) in *.
  cbn [replace_from]. rewrite Hpre.
  change (String.length (String c old') - 1) with (String.length old' - 0).
  rewrite Nat.sub_0_r. now rewrite replace_from_skip.
Qed.

Lemma remove_length (old s : string) (skip : nat) :
  String.length (replace_from skip old "" s) <= String.length s - skip.
Proof.
  revert skip. induction s as [|c s IH]; intros skip; [cbn; lia|].
  destruct skip as [|n]; cbn [replace_from String.length].
  - destruct (String.prefix old (String c s)).
    + change ("" ++ ?x) with x. specialize (IH (String.length old - 1)). lia.
    + cbn [String.length]. specialize (IH 0). lia.
  - specialize (IH n). lia.
Qed.

Lemma remove_present (old s : string) :
  old <> "" -> str_in old s = true ->
  String.length (replace old "" s) < String.length s.
Proof.
  intros Hold. unfold replace. induction s as [|c s IH]; intros Hin.
  - destruct old; [contradiction | discriminate Hin].
  - cbn [str_in] in Hin. cbn [replace_from String.length].
    destruct (String.prefix old (String c s)).
    + change ("" ++ ?x) with x.
      pose proof (remove_length old s (String.length old - 1)). lia.
    + cbn [orb] in Hin. cbn [String.length]. specialize (IH Hin). lia.
Qed.

(** X14: the token is the header with every occurrence of "Bearer "
    removed, not only the one in front.  So the header "Bearer <key>" is
    accepted exactly when the configured key has no "Bearer " in it; and a
    header that is accepted is still accepted with another "Bearer " put
    in front of it. *)
Theorem bearer_is_removed_everywhere (API_KEY authorization : string) :
  (Main.verify_api_key API_KEY ("Bearer " ++ API_KEY) = Returns true
   <-> str_in "Bearer " API_KEY = false) /\
  (Main.verify_api_key API_KEY authorization = Returns true ->
   Main.verify_api_key API_KEY ("Bearer " ++ authorization) = Returns true) /\
  (str_in "Bearer " API_KEY = true ->
   Main.verify_api_key API_KEY ("Bearer " ++ API_KEY)
   = HTTPException 401 "Invalid API key").
Proof.
  assert (Hhead : forall s,
            replace "Bearer " "" ("Bearer " ++ s) = replace "Bearer " "" s)
    by (intros s; now rewrite replace_head).
  assert (Hverify : forall s,
            Main.verify_api_key API_KEY ("Bearer " ++ s)
            = if String.eqb (replace "Bearer " "" s) API_KEY then Returns true
              else HTTPException 401 "Invalid API key").
  { intros s. unfold Main.verify_api_key.
    rewrite (prefix_app "Bearer " s), Hhead. cbn [negb].
    now destruct (String.eqb (replace "Bearer " "" s) API_KEY). }
  assert (Hkey : str_in "Bearer " API_KEY = true ->
                 String.eqb (replace "Bearer " "" API_KEY) API_KEY = false).
  { intros Hin. apply String.eqb_neq. intros Heq.
    pose proof (remove_present "Bearer " API_KEY ltac:(discriminate) Hin) as Hlt.
    rewrite Heq in Hlt. lia. }
  split; [|split].
  - rewrite Hverify. split.
    + intros Hok. destruct (str_in "Bearer " API_KEY) eqn:Hin; [|reflexivity].
      rewrite (Hkey eq_refl) in Hok. discriminate Hok.
    + intros Hno. rewrite (replace_absent _ _ _ Hno), String.eqb_refl. reflexivity.
  - unfold Main.verify_api_key at 1.
    destruct (String.prefix "Bearer " authorization); [|discriminate].
    cbn [negb]. rewrite Hverify.
    destruct (String.eqb (replace "Bearer " "" authorization) API_KEY);
      [reflexivity | discriminate].
  - intros Hin. now rewrite Hverify, (Hkey Hin).
Qed.

Lemma bearer_is_removed_everywhere_witness :
  Main.verify_api_key "s3cr3t" ("Bearer " ++ "Bearer s3cr3t") = Returns true.
Proof.
  apply (bearer_is_removed_everywhere "s3cr3t" "Bearer s3cr3t"). reflexivity.
Defined.
(** ** Submissions to Fal.ai *)

Lemma str_in_app_l (n a b : string) : str_in n a = true -> str_in n (a ++ b) = true.
Proof.
  induction a as [|c a IH]; intros Ha.
  - destruct n; [now destruct b | discriminate Ha].
  - cbn [str_in] in Ha. apply orb_true_iff in Ha as [Hpre|Htail].
    + apply str_in_prefix. now apply prefix_app_l.
    + change (String c a ++ b) with (String c (a ++ b)). cbn [str_in].
      rewrite (IH Htail). apply orb_true_r.
Qed.

Lemma wrapped_is_service (prefix indicator cause : string) :
  In indicator service_indicators ->
  str_in indicator (lower prefix) = true ->
  _is_service_error (Exception (prefix ++ cause)) (lower (prefix ++ cause)) = true.
Proof.
  intros Hin Hp. unfold Exception, _is_service_error. cbn [exn_class].
  apply (any_in_true _ indicator); [exact Hin|].
  rewrite lower_app. now apply str_in_app_l.
Qed.

Section FalSubmission.

Variable self : FalClient.client.

Lemma wrapped_run {A} (prefix : string) (body : M (list FalClient.sdk_call) A)
    (calls calls' : list FalClient.sdk_call) (e : exn) :
  try_except body (fun e => raise (Exception (prefix ++ exn_str e))) calls
  = (calls', Raise e) ->
  exists cause, body calls = (calls', Raise cause) /\
                e = Exception (prefix ++ exn_str cause).
Proof.
  unfold try_except, raise. destruct (body calls) as [calls1 [a|cause]];
    intros [= <- <-]; eauto.
Qed.

(** X15: whatever goes wrong in a Seedream submission through Fal.ai, the
    caller gets a plain [Exception] whose text starts with "Fal Seedream";
    the class of the original exception is gone.  "seedream" being a service
    indicator, the classifier blames the provider for every such failure,
    and what it decides rests on the text alone: a timeout of the SDK is
    filed under TIMEOUT only if its text says so.  A submission that
    returns names the job. *)
Theorem fal_submission_failure_is_wrapped (context : option string)
    (calls calls' : list FalClient.sdk_call) (outcome : result dict) :
  (exists prompt negative_prompt width height steps webhook_url,
      FalClient.submit_text_to_image_job self prompt negative_prompt width height
        steps webhook_url calls = (calls', outcome)) \/
  (exists base_image_url prompt overlay_image_url webhook_url,
      FalClient.submit_image_edit_job self base_image_url prompt overlay_image_url
        webhook_url calls = (calls', outcome)) ->
  match outcome with
  | Raise e =>
      exn_class e = Exception_ /\
      String.prefix "Fal Seedream " (exn_str e) = true /\
      blames_provider (classify_error e context) /\
      (any_in validation_indicators (lower (exn_str e)) = false ->
       classify_error e context !! "is_refundable" = Some (VBool true) /\
       (any_in timeout_indicators (lower (exn_str e)) = false ->
        classify_error e context !! "error_type" = Some (VErrorType SERVICE_ERROR)))
  | Ok result => exists request_id, result !! "job_id" = Some (VStr request_id)
  end.
Proof.
  assert (Hwrapped : forall kind cause,
            let e := Exception (("Fal Seedream " ++ kind) ++ cause) in
            exn_class e = Exception_ /\
            String.prefix "Fal Seedream " (exn_str e) = true /\
            blames_provider (classify_error e context) /\
            (any_in validation_indicators (lower (exn_str e)) = false ->
             classify_error e context !! "is_refundable" = Some (VBool true) /\
             (any_in timeout_indicators (lower (exn_str e)) = false ->
              classify_error e context !! "error_type"
              = Some (VErrorType SERVICE_ERROR)))).
  { intros kind cause e.
    assert (Hsvc : _is_service_error e (lower (exn_str e)) = true).
    { apply (wrapped_is_service _ "seedream"); [cbn; tauto|].
      apply (str_in_middle "fal " "seedream"). }
    destruct (service_error_blames_provider e context Hsvc) as [Hb Hr].
    split; [reflexivity|].
    split; [apply prefix_app_l, (prefix_app "Fal Seedream ")|]. split; [exact Hb|].
    intros Hv. split; [now apply Hr|].
    intros Ht. revert Hv Ht Hsvc. subst e.
    unfold classify_error, _is_validation_error, _is_timeout_error, Exception.
    cbn [exn_class exn_str is_ValueError is_asyncio_TimeoutError
         is_builtin_TimeoutError is_httpx_TimeoutException orb].
    intros -> -> ->. reflexivity. }
  intros [(prompt & negative_prompt & width & height & steps & webhook_url & Hrun)
         |(base_image_url & prompt & overlay_image_url & webhook_url & Hrun)];
    destruct outcome as [result|e].
  - revert Hrun. unfold FalClient.submit_text_to_image_job, try_except, bind, lift,
      FalClient.await_sdk, ret, raise.
    destruct (FalClient.first_100 prompt); [|discriminate].
    destruct (FalClient.submit self _ _ _); [|discriminate].
    intros [= _ <-]. eexists. reflexivity.
  - apply wrapped_run in Hrun as (cause & _ & ->).
    exact (Hwrapped "text-to-image failed: " (exn_str cause)).
  - revert Hrun. unfold FalClient.submit_image_edit_job, try_except, bind, lift,
      FalClient.await_sdk, ret, raise.
    destruct (FalClient.first_100 prompt); [|discriminate].
    destruct (FalClient.submit self _ _ _); [|discriminate].
    intros [= _ <-]. eexists. reflexivity.
  - apply wrapped_run in Hrun as (cause & _ & ->).
    exact (Hwrapped "image-edit failed: " (exn_str cause)).
Qed.

(** X16: the text-to-image route hands its request object to
    [submit_text_to_image_job] as the prompt.  Slicing it for the log raises
    [TypeError] before anything is sent, so the route never submits a job:
    a request whose model is supported is answered with status 500, any
    other with status 400. *)
Theorem text_to_image_route_never_submits
    (GenerateResponse : pyval -> string -> pyval -> string -> bool -> result dict)
    (request : Routes.GenerateTextToImageRequest) (calls : list FalClient.sdk_call) :
  Routes.generate_text_to_image self GenerateResponse request calls
  = (calls,
     if (String.eqb (Routes.t2i_model request) "seedream-v4-text"
         || String.eqb (Routes.t2i_model request) "seedream-v4-t2i")%bool
     then HTTPException 500
            ("Failed to generate text-to-image: " ++
             "Fal Seedream text-to-image failed: " ++
             "'GenerateTextToImageRequest' object is not subscriptable")
     else HTTPException 400
            ("Unsupported model: " ++ Routes.t2i_model request ++
             ". Only 'seedream-v4-text' is supported.")).
Proof.
  unfold Routes.generate_text_to_image.
  destruct (String.eqb (Routes.t2i_model request) "seedream-v4-text"
            || String.eqb (Routes.t2i_model request) "seedream-v4-t2i")%bool;
    reflexivity.
Qed.

End FalSubmission.

Lemma fal_submission_failure_is_wrapped_witness :
  let e := Exception "Fal Seedream text-to-image failed: " in
  FalClient.submit_text_to_image_job fal_read_timeout
    (FalClient.Value (VStr "a woman in her 20s")) "" 1080 1440 50 None []
  = ([FalClient.Submit "fal-ai/bytedance/seedream/v4/text-to-image"
        (FalClient.TextToImageArguments (FalClient.Value (VStr "a woman in her 20s"))
           1080 1440 50 None)
        None (Raise (Exn HttpxReadTimeout ""))],
     Raise e) /\
  classify_error e None !! "error_type" = Some (VErrorType SERVICE_ERROR).
Proof.
  cbv zeta.
  assert (Hrun : FalClient.submit_text_to_image_job fal_read_timeout
                   (FalClient.Value (VStr "a woman in her 20s")) "" 1080 1440 50 None []
                 = ([FalClient.Submit "fal-ai/bytedance/seedream/v4/text-to-image"
                       (FalClient.TextToImageArguments
                          (FalClient.Value (VStr "a woman in her 20s")) 1080 1440 50 None)
                       None (Raise (Exn HttpxReadTimeout ""))],
                    Raise (Exception "Fal Seedream text-to-image failed: ")))
    by reflexivity.
  split; [exact Hrun|].
  pose proof (fal_submission_failure_is_wrapped fal_read_timeout None [] _ _
                (or_introl (ex_intro _ _ (ex_intro _ _ (ex_intro _ _ (ex_intro _ _
                   (ex_intro _ _ (ex_intro _ _ Hrun)))))))) as H.
  cbv beta iota in H. destruct H as (_ & _ & _ & H).
  destruct (H eq_refl) as [_ Ht]. exact (Ht eq_refl).
Defined.
(** ** Routes *)

Section StatusRoute.

Variable orchestrator : providers.

(** X17: the status route answers with what the provider says about the
    job, as it is: a job that failed is a response with the status FAILED
    in it, not an error.  It makes one status call; an exception of that
    call, and a provider name that is not known (for which no call is
    made), are answered with status 500. *)
Theorem status_route_passes_status_on (job_id model provider : string) (w : world) :
  (~ known_provider provider ->
   Routes.check_generation_status orchestrator job_id model provider w
   = (w, HTTPException 500
           ("Failed to check generation status: Unknown provider: " ++ provider ++
            ". Must be 'kie' or 'fal'"))) /\
  (known_provider provider ->
   exists c reply,
     (c = KieStatus job_id model /\ reply = kie_check_status orchestrator (now w) job_id model \/
      c = FalStatus job_id model /\ reply = fal_check_status orchestrator (now w) job_id model) /\
     Routes.check_generation_status orchestrator job_id model provider w
     = (World (now w + fst reply) (calls w ++ [c]),
        match snd reply with
        | Ok status_data => Returns status_data
        | Raise e =>
            HTTPException 500 ("Failed to check generation status: " ++ exn_str e)
        end)).
Proof.
  unfold Routes.check_generation_status, Routes.answering,
    ProviderOrchestrator.check_status_any_provider.
  split.
  - intros Hunknown. unfold bind, lift.
    rewrite (get_provider_unknown _ Hunknown). reflexivity.
  - intros Hknown. destruct (get_provider_known _ Hknown) as [p Hp].
    unfold bind, lift. rewrite Hp.
    destruct p; cbn [ProviderOrchestrator.check_status]; unfold await_call.
    + exists (KieStatus job_id model), (kie_check_status orchestrator (now w) job_id model).
      split; [left; split; reflexivity|].
      now destruct (snd (kie_check_status orchestrator (now w) job_id model)).
    + exists (FalStatus job_id model), (fal_check_status orchestrator (now w) job_id model).
      split; [right; split; reflexivity|].
      now destruct (snd (fal_check_status orchestrator (now w) job_id model)).
Qed.

End StatusRoute.

Section PersonRoute.

Import PipelineOrchestrator.

Variable pipeline : collaborators.

Lemma person_only_result generation_id user_id stage1_mode person_prompt
    person_fields tr tr' result :
  PipelineOrchestrator.generate_person_only pipeline generation_id user_id
    stage1_mode person_prompt person_fields tr = (tr', Ok result) ->
  exists url key,
    result = <["person_s3_key" := key]>
             (<["person_url" := url]>
             (<["generation_id" := VStr generation_id]>
             (<["success" := VBool true]> ∅))).
Proof.
  unfold PipelineOrchestrator.generate_person_only, reporting_failure, try_except.
  destruct (generate_person_only_steps _ _ _ _ _ _ tr) as [tr1 [result1|e]] eqn:Hsteps.
  2:{ unfold bind. destruct (_send_failure_webhook _ _ _ _ _ _) as [? [?|?]];
        discriminate. }
  intros [= <- <-]. revert Hsteps. unfold generate_person_only_steps.
  repeat (unfold bind at 1;
          match goal with
          | |- context [match ?c ?t with _ => _ end] =>
              destruct (c t) as [? [?|?]]; [|discriminate]
          end).
  unfold ret. intros [= _ <-]. eauto.
Qed.

(** X18: the person route turns away a request without the input its mode
    needs with status 400 before anything has happened, no call of the
    webhook notifier included.  For a request it lets through, the input
    check of the pipeline itself cannot fail, and the route answers as the
    stage-1 run ends: with the result of the run as the response, or with
    status 500 and the text of the exception, after the run has called its
    webhook notifier with the failure report, the last thing it does. *)
Theorem person_route_answers (request : Routes.GeneratePersonRequest) (tr : trace) :
  (forall detail,
     snd (Routes.generate_person_only (Some pipeline) request tr)
     = HTTPException 400 detail ->
     fst (Routes.generate_person_only (Some pipeline) request tr) = tr) /\
  (person_request_accepted request ->
   let person_prompt := Routes.optional_str (Routes.person_prompt request) in
   let person_fields := Routes.person_fields_dict (Routes.person_fields request) in
   let call :=
     GeneratePersonOnly (Routes.generation_id request) (Routes.user_id request)
       (Routes.stage1_mode request) person_prompt person_fields in
   missing_person_input (Routes.stage1_mode request) person_prompt person_fields
   = None /\
   Routes.generate_person_only (Some pipeline) request tr
   = (fst (invoke pipeline call tr),
      match snd (invoke pipeline call tr) with
      | Ok result => Returns result
      | Raise e => HTTPException 500 ("Failed to generate person: " ++ exn_str e)
      end) /\
   (forall e, snd (invoke pipeline call tr) = Raise e ->
      exists tr1, fst (invoke pipeline call tr) = (tr1 ++ failure_report call e)%list)) /\
  (~ person_request_accepted request ->
   exists detail,
     Routes.generate_person_only (Some pipeline) request tr
     = (tr, HTTPException 400 detail)).
Proof.
  assert (Hrun : forall generation_id user_id stage1_mode person_prompt person_fields,
            Routes.answering "Failed to generate person"
              (p <- lift (Routes.get_pipeline_orchestrator (Some pipeline)) ;;
               result <- PipelineOrchestrator.generate_person_only p generation_id
                           user_id stage1_mode person_prompt person_fields ;;
               _ <- lift (getitem result "person_url") ;;
               generation_id <- lift (getitem result "generation_id") ;;
               person_url <- lift (getitem result "person_url") ;;
               person_s3_key <- lift (getitem result "person_s3_key") ;;
               ret (<["person_s3_key" := person_s3_key]>
                    (<["person_url" := person_url]>
                    (<["generation_id" := generation_id]>
                    (<["success" := VBool true]> ∅))))) tr
            = (fst (PipelineOrchestrator.generate_person_only pipeline generation_id
                      user_id stage1_mode person_prompt person_fields tr),
               match snd (PipelineOrchestrator.generate_person_only pipeline
                            generation_id user_id stage1_mode person_prompt
                            person_fields tr) with
               | Ok result => Returns result
               | Raise e =>
                   HTTPException 500 ("Failed to generate person: " ++ exn_str e)
               end)).
  { intros generation_id user_id stage1_mode person_prompt person_fields.
    unfold Routes.answering. unfold bind at 1. cbn [lift Routes.get_pipeline_orchestrator].
    unfold bind at 1.
    destruct (PipelineOrchestrator.generate_person_only pipeline generation_id
                user_id stage1_mode person_prompt person_fields tr)
      as [tr' [result|e]] eqn:Hpipe; [|reflexivity].
    destruct (person_only_result _ _ _ _ _ _ _ _ Hpipe) as (url & key & ->).
    reflexivity. }
  assert (Hreport : forall call e,
            snd (invoke pipeline call tr) = Raise e ->
            exists tr1, fst (invoke pipeline call tr)
                        = (tr1 ++ failure_report call e)%list).
  { intros call e. rewrite invoke_steps, reporting_failure_run.
    destruct (steps_of pipeline call tr) as [tr1 [d|e1]]; cbn [fst snd];
      [discriminate|].
    intros [= ->]. eauto. }
  unfold Routes.generate_person_only. cbv zeta.
  destruct request as [generation_id user_id mode prompt fields].
  cbn [Routes.stage1_mode Routes.person_fields Routes.person_prompt
       Routes.generation_id Routes.user_id].
  unfold person_request_accepted.
  cbn [Routes.stage1_mode Routes.person_fields Routes.person_prompt].
  destruct (String.eqb_spec mode "EASY") as [->|Heasy].
  - (* EASY *)
    cbn [orb negb andb]. destruct fields as [fields|].
    + rewrite bool_decide_eq_true_2 by eauto. cbn [negb].
      change (String.eqb "EASY" "ADVANCED") with false. cbn [andb].
      split; [|split].
      * intros detail. rewrite Hrun. cbn [snd fst invoke].
        destruct (snd _); discriminate.
      * intros _. split; [reflexivity|]. split; [apply Hrun | apply Hreport].
      * intros Hno. exfalso. apply Hno. left. eauto.
    + rewrite bool_decide_eq_false_2 by (intros [? ?]; discriminate). cbn [negb].
      split; [reflexivity|]. split.
      * intros [[_ [? ?]]|[? _]]; discriminate.
      * intros _. eauto.
  - cbn [orb andb].
    destruct (String.eqb_spec mode "ADVANCED") as [->|Hadv].
    + cbn [negb]. destruct prompt as [prompt|]; cbn [Routes.optional_str truthy negb andb].
      * destruct (String.eqb_spec prompt "") as [->|Hprompt]; cbn [negb andb].
        -- split; [reflexivity|]. split.
           ++ intros [[? _]|[_ (p & [= <-] & Hp)]]; [discriminate | now contradiction Hp].
           ++ intros _. eauto.
        -- split; [|split].
           ++ intros detail. rewrite Hrun. cbn [snd fst].
              destruct (snd _); discriminate.
           ++ intros _. split.
              ** unfold missing_person_input. cbn [String.eqb Ascii.eqb Bool.eqb truthy].
                 apply String.eqb_neq in Hprompt. now rewrite Hprompt.
              ** split; [apply Hrun | apply Hreport].
           ++ intros Hno. exfalso. apply Hno. right. eauto.
      * split; [reflexivity|]. split.
        -- intros [[? _]|[_ (p & ? & _)]]; discriminate.
        -- intros _. eauto.
    + cbn [negb]. split; [reflexivity|]. split.
      * intros [[? _]|[? _]]; contradiction.
      * intros _. eauto.
Qed.

End PersonRoute.
(** The routes on sample requests. *)

Lemma status_route_passes_status_on_witness :
  Routes.check_generation_status scenario_A "job-1" "fal-ai/wan-t2v" "replicate" idle
  = (idle, HTTPException 500
             ("Failed to check generation status: Unknown provider: replicate" ++
              ". Must be 'kie' or 'fal'")).
Proof.
  apply (status_route_passes_status_on scenario_A "job-1" "fal-ai/wan-t2v"
           "replicate" idle).
  intros [H|H]; discriminate H.
Defined.

Lemma person_route_answers_witness :
  let call :=
    GeneratePersonOnly "gen-1" "user-1" "EASY" VNone
      (Routes.person_fields_dict (Routes.person_fields sample_person_request)) in
  Routes.generate_person_only (Some all_well) sample_person_request []
  = (fst (invoke all_well call []),
     match snd (invoke all_well call []) with
     | Ok result => Returns result
     | Raise e => HTTPException 500 ("Failed to generate person: " ++ exn_str e)
     end).
Proof.
  destruct (person_route_answers all_well sample_person_request []) as (_ & H & _).
  apply H. left. split; [reflexivity | eexists; reflexivity].
Defined.
(** ** The status of a Kie.ai job *)

Ltac read_reply :=
  repeat match goal with
         | |- Json.and_then ?r _ = Ok _ -> _ =>
             destruct r as [?|?] eqn:?; cbn [Json.and_then]; [|discriminate]
         | |- (if ?b then _ else _) = Ok _ -> _ => destruct b eqn:?
         | |- Ok _ = Ok _ -> _ =>
             intros [= <-]; unfold status_shape; eauto
         end.

Section KieStatus.

Import Json KieClient.

Variable self : http.
Variable loads : string -> result json.
Variable repr : json -> string.

Lemma read_status_shape (response : response) (status_data : status_dict) :
  read_status loads repr response = Ok status_data -> status_shape status_data.
Proof.
  unfold read_status, read_veo3_format, read_state_format. read_reply.
Qed.

Lemma check_status_run (job_id model : string) (exchanges : list exchange) :
  check_status self loads repr job_id model exchanges
  = ((exchanges ++ [Get (status_endpoint model) job_id
                       (http_get self (status_endpoint model) job_id)])%list,
     and_then (http_get self (status_endpoint model) job_id)
              (read_status loads repr)).
Proof.
  unfold check_status, bind, await_http, lift.
  now destruct (http_get self (status_endpoint model) job_id).
Qed.

(** X19: whatever Kie.ai answers, a status check that returns has made one
    request and returns a dictionary the polling loop can read: [status] is
    COMPLETED, PROCESSING or FAILED, [result_url] is always there and is
    [None] unless the status is COMPLETED, and [error] is there exactly when
    the status is FAILED. *)
Theorem kie_status_is_well_formed (job_id model : string)
    (exchanges exchanges' : list exchange) (status_data : status_dict) :
  check_status self loads repr job_id model exchanges = (exchanges', Ok status_data) ->
  (exists outcome,
      exchanges' = (exchanges ++ [Get (status_endpoint model) job_id outcome])%list) /\
  exists status,
    status_data !! "status" = Some (JStr status) /\
    (status = "COMPLETED" \/ status = "PROCESSING" \/ status = "FAILED") /\
    is_Some (status_data !! "result_url") /\
    (status <> "COMPLETED" -> status_data !! "result_url" = Some JNull) /\
    (is_Some (status_data !! "error") <-> status = "FAILED").
Proof.
  rewrite check_status_run. intros [= <- Hread]. split; [eauto|].
  destruct (http_get self (status_endpoint model) job_id) as [response|e];
    [|discriminate Hread].
  cbn [and_then] in Hread.
  destruct (read_status_shape _ _ Hread) as [[url ->]|[->|[error ->]]].
  - exists "COMPLETED". split; [reflexivity|]. split; [auto|].
    split; [eexists; reflexivity|]. split; [congruence|].
    split; [intros [? H]; discriminate H | discriminate].
  - exists "PROCESSING". split; [reflexivity|]. split; [auto|].
    split; [eexists; reflexivity|]. split; [reflexivity|].
    split; [intros [? H]; discriminate H | discriminate].
  - exists "FAILED". split; [reflexivity|]. split; [auto|].
    split; [eexists; reflexivity|]. split; [reflexivity|].
    split; [reflexivity | intros _; eexists; reflexivity].
Qed.

End KieStatus.

Lemma round_start_next {A} (body : M world (option A)) (n : nat) :
  forall w0 w w',
    round_start n body w0 = Some w -> body w = (w', Ok None) ->
    round_start (S n) body w0 = Some w'.
Proof.
  induction n as [|n IH]; intros w0 w w'.
  - cbn [round_start]. now intros [= ->] ->.
  - change (round_start (S (S n)) body w0)
      with (match body w0 with
            | (w1, Ok None) => round_start (S n) body w1
            | _ => None
            end).
    cbn [round_start]. destruct (body w0) as [w1 [[v|]|e]]; try discriminate.
    apply IH.
Qed.

Section KiePolling.

Import Json KieClient.

Variable self : providers.
Variable service : http.
Variable loads : string -> result json.
Variable repr : json -> string.
Variables (job_id : string) (timeout poll_interval : Z).
Variable w0 : world.

Local Abbreviation kie_round :=
  (Veo3Provider.poll_cycle self (now w0) job_id "kie" timeout poll_interval).

Lemma kie_round_reads (w : world) (response : response) (status_data : status_dict) :
  (now w - now w0 <= timeout)%Z ->
  kie_answers self service loads repr (now w) job_id "veo3" ->
  http_get service (status_endpoint "veo3") job_id = Ok response ->
  read_status loads repr response = Ok status_data ->
  exists d,
    same_dict d status_data = true /\
    kie_round w
    = on_status "Veo3 job failed: " poll_interval d
        (World (now w + fst (kie_check_status self (now w) job_id "veo3"))
               (calls w ++ [KieStatus job_id "veo3"])).
Proof.
  intros Hle Hans Hget Hread. unfold kie_answers in Hans.
  rewrite check_status_run, Hget in Hans. cbn [snd and_then] in Hans.
  rewrite Hread in Hans. destruct Hans as (d & Hd & Hsame).
  exists d. split; [exact Hsame|].
  rewrite (veo3_cycle_before_deadline _ _ _ _ _ _ _ Hle).
  unfold bind at 1. unfold Veo3Provider.get_status. cbn [String.eqb Ascii.eqb Bool.eqb].
  unfold await_call. now rewrite Hd.
Qed.

(** X20: one response of Kie.ai with another HTTP status than 200 ends the
    wait for the job.  The status check reports it as a failed job, without
    looking at the body, and the loop raises at once, with the text of the
    response in the message; the classifier blames the provider. *)
Theorem kie_http_error_ends_the_wait (context : option string) (n fuel : nat)
    (w : world) (response : response) :
  round_start n kie_round w0 = Some w -> (now w - now w0 <= timeout)%Z ->
  kie_answers self service loads repr (now w) job_id "veo3" ->
  http_get service (status_endpoint "veo3") job_id = Ok response ->
  status_code response <> 200%Z ->
  let e := Exception ("Veo3 job failed: Kie.ai status check failed: " ++
                      text response) in
  Veo3Provider.wait_for_completion self (n + S fuel) job_id "kie" timeout
    poll_interval w0
  = Some (World (now w + fst (kie_check_status self (now w) job_id "veo3"))
                (calls w ++ [KieStatus job_id "veo3"]),
          Raise e) /\
  blames_provider (classify_error e context).
Proof.
  intros Hn Hle Hans Hget Hcode e.
  assert (Hread : read_status loads repr response
                  = Ok (failed (JStr ("Kie.ai status check failed: " ++
                                      text response)))).
  { unfold read_status. apply Z.eqb_neq in Hcode. now rewrite Hcode. }
  destruct (kie_round_reads w response _ Hle Hans Hget Hread) as (d & Hsame & Hround).
  destruct (same_dict_lookup _ _ "status" _ Hsame eq_refl) as (s & Hs & Hv).
  apply same_str in Hv as ->.
  destruct (same_dict_lookup _ _ "error" _ Hsame eq_refl) as (m & Hm & Hv).
  apply same_str in Hv as ->.
  assert (He : job_failed "Veo3 job failed: " d = e).
  { unfold job_failed, dict_get. now rewrite Hm. }
  split.
  - unfold Veo3Provider.wait_for_completion.
    apply (while_true_raises _ _ _ _ _ _ _ Hn).
    rewrite Hround, <- He. now apply on_status_failed.
  - rewrite <- He. apply service_error_blames_provider.
    apply (job_failed_is_service _ "veo3"); [cbn; tauto | reflexivity].
Qed.

(** X21: a task of the older format in a state the status check does not
    know counts as still running: the round sleeps and the loop goes round
    again, so that only the deadline ends the wait for a task that stays in
    such a state. *)
Theorem kie_unknown_state_keeps_waiting (n : nat) (w : world) (text : string)
    (result data : gmap string json) (code : json) (state : string) :
  round_start n kie_round w0 = Some w -> (now w - now w0 <= timeout)%Z ->
  kie_answers self service loads repr (now w) job_id "veo3" ->
  http_get service (status_endpoint "veo3") job_id
  = Ok (Response 200 text (Ok (JDict result))) ->
  result !! "code" = Some code -> eq_int code 200 = true ->
  result !! "data" = Some (JDict data) ->
  data !! "successFlag" = None -> data !! "state" = Some (JStr state) ->
  unknown_state state ->
  let w' := World (now w + fst (kie_check_status self (now w) job_id "veo3")
                   + Z.max 0 poll_interval)
                  (calls w ++ [KieStatus job_id "veo3"; Sleep poll_interval]) in
  kie_round w = (w', Ok None) /\
  round_start (S n) kie_round w0 = Some w'.
Proof.
  intros Hn Hle Hans Hget Hcode H200 Hdata Hflag Hstate Hunknown w'.
  assert (Hread : read_status loads repr (Response 200 text (Ok (JDict result)))
                  = Ok processing).
  { unfold read_status. cbn [status_code body and_then get Z.eqb Pos.eqb negb].
    rewrite Hcode. cbn [default from_option id]. rewrite H200. cbn [negb and_then].
    rewrite Hdata. cbn [default from_option id contains and_then]. rewrite Hflag.
    rewrite bool_decide_eq_false_2 by (intros [? ?]; discriminate).
    unfold read_state_format. cbn [get and_then]. rewrite Hstate.
    cbn [default from_option id lower_of and_then].
    unfold unknown_state in Hunknown. cbn [In] in Hunknown.
    repeat match goal with
           | |- context [String.eqb (lower state) ?s] =>
               destruct (String.eqb_spec (lower state) s) as [Heq|_];
               [exfalso; apply Hunknown; rewrite Heq; tauto|]
           end.
    reflexivity. }
  destruct (kie_round_reads w _ _ Hle Hans Hget Hread) as (d & Hsame & Hround).
  destruct (same_dict_lookup _ _ "status" _ Hsame eq_refl) as (s & Hs & Hv).
  apply same_str in Hv as ->.
  assert (Hcycle : kie_round w = (w', Ok None)).
  { rewrite Hround. unfold on_status, bind, lift, getitem, sleep, ret. rewrite Hs.
    rewrite bool_decide_eq_false_2 by discriminate.
    rewrite bool_decide_eq_false_2 by discriminate.
    subst w'. cbn [now calls]. now rewrite <- app_assoc. }
  split; [exact Hcycle|].
  exact (round_start_next _ _ _ _ _ Hn Hcycle).
Qed.

End KiePolling.
(** The status check on sample answers of the service. *)

Lemma kie_status_is_well_formed_witness :
  KieClient.check_status kie_finished no_decoder no_repr "task-1" "veo3" []
  = ([KieClient.Get "https://api.kie.ai/api/v1/veo/record-info" "task-1"
        (KieClient.http_get kie_finished "" "")],
     Ok (KieClient.completed (Json.JStr "https://cdn.kie.ai/video.mp4"))) /\
  exists status,
    KieClient.completed (Json.JStr "https://cdn.kie.ai/video.mp4") !! "status"
    = Some (Json.JStr status) /\
    (status = "COMPLETED" \/ status = "PROCESSING" \/ status = "FAILED").
Proof.
  assert (Hrun : KieClient.check_status kie_finished no_decoder no_repr "task-1"
                   "veo3" []
                 = ([KieClient.Get "https://api.kie.ai/api/v1/veo/record-info" "task-1"
                       (KieClient.http_get kie_finished "" "")],
                    Ok (KieClient.completed (Json.JStr "https://cdn.kie.ai/video.mp4"))))
    by (vm_compute; reflexivity).
  split; [exact Hrun|].
  destruct (kie_status_is_well_formed kie_finished no_decoder no_repr _ _ _ _ _ Hrun)
    as (_ & status & Hs & Hv & _).
  exists status. split; assumption.
Defined.

Lemma kie_http_error_ends_the_wait_witness :
  let e := Exception "Veo3 job failed: Kie.ai status check failed: Bad Gateway" in
  Veo3Provider.wait_for_completion (kie_status_is gateway_failure) 1 "task-1" "kie"
    600 30 idle
  = Some (World 1 [KieStatus "task-1" "veo3"], Raise e) /\
  blames_provider (classify_error e None).
Proof.
  apply (kie_http_error_ends_the_wait (kie_status_is gateway_failure) kie_bad_gateway
           no_decoder no_repr "task-1" 600 30 idle None 0 0 idle
           (KieClient.Response 502 "Bad Gateway"
              (Raise (Exn JSONDecodeError "Expecting value")))).
  - reflexivity.
  - cbn. lia.
  - exists gateway_failure. split; [reflexivity | vm_compute; reflexivity].
  - reflexivity.
  - discriminate.
Defined.

Lemma kie_unknown_state_keeps_waiting_witness :
  Veo3Provider.poll_cycle (kie_status_is (<["result_url" := VNone]>
                                           (<["status" := VStr "PROCESSING"]> ∅)))
    0 "task-1" "kie" 600 30 idle
  = (World 31 [KieStatus "task-1" "veo3"; Sleep 30], Ok None).
Proof.
  apply (kie_unknown_state_keeps_waiting
           (kie_status_is (<["result_url" := VNone]>
                           (<["status" := VStr "PROCESSING"]> ∅)))
           kie_paused no_decoder no_repr "task-1" 600 30 idle 0 idle "{...}"
           (<["data" := Json.JDict (<["state" := Json.JStr "PAUSED"]> ∅)]>
            (<["code" := Json.JInt 200]> ∅))
           (<["state" := Json.JStr "PAUSED"]> ∅) (Json.JInt 200) "PAUSED").
  - reflexivity.
  - cbn. lia.
  - eexists. split; [reflexivity | vm_compute; reflexivity].
  - reflexivity.
  - reflexivity.
  - reflexivity.
  - reflexivity.
  - reflexivity.
  - reflexivity.
  - unfold unknown_state. cbn. intuition discriminate.
Defined.
(** ** The status of a Fal.ai job *)

Section FalStatus.

Import Json FalClient.

Variable self : client.
Variable repr : json -> string.

(** X22: the status check of Fal.ai never raises.  It returns a dictionary
    with the keys [status], [result_url] and [error], the status being
    COMPLETED, PROCESSING or FAILED, the URL [None] unless the job is
    completed and the error [None] unless it failed.  Whatever goes wrong,
    be it in asking for the status or in fetching the result of a completed
    job, comes out as PROCESSING: to the caller a job that cannot be asked
    about looks like one that is still running. *)
Theorem fal_status_check_never_raises (job_id model : string)
    (calls : list sdk_call) :
  exists status result_url error,
    snd (check_status self repr job_id model calls)
    = Ok (status_dict status result_url error) /\
    (status = "COMPLETED" \/ status = "PROCESSING" \/ status = "FAILED") /\
    (status <> "COMPLETED" -> result_url = JNull) /\
    (status <> "FAILED" -> error = JNull) /\
    ((exists e, FalClient.status self model job_id = Raise e) ->
     status = "PROCESSING") /\
    ((exists e, result_of self model job_id = Raise e) -> status <> "COMPLETED").
Proof.
  unfold check_status, try_except, bind, await_sdk, ret.
  destruct (FalClient.status self model job_id) as [status_obj|e].
  - destruct (String.eqb (class_name status_obj) "Completed").
    + destruct (result_of self model job_id) as [result|e].
      * exists "COMPLETED", (result_url_of repr result), JNull.
        cbn [snd]. split; [reflexivity|]. split; [auto|].
        split; [congruence|]. split; [reflexivity|].
        split; intros [e He]; discriminate He.
      * exists "PROCESSING", JNull, JNull.
        cbn [snd]. split; [reflexivity|]. split; [auto|].
        split; [reflexivity|]. split; [reflexivity|].
        split; [intros [e' He]; discriminate He | discriminate].
    + destruct (String.eqb (class_name status_obj) "InProgress"
                || String.eqb (class_name status_obj) "InQueue")%bool.
      * exists "PROCESSING", JNull, JNull.
        cbn [snd]. split; [reflexivity|]. split; [auto|].
        split; [reflexivity|]. split; [reflexivity|].
        split; [intros [e' He]; discriminate He | discriminate].
      * destruct (String.eqb (class_name status_obj) "Failed").
        -- eexists "FAILED", JNull, _.
           cbn [snd]. split; [reflexivity|]. split; [auto|].
           split; [reflexivity|]. split; [congruence|].
           split; [intros [e' He]; discriminate He | discriminate].
        -- exists "PROCESSING", JNull, JNull.
           cbn [snd]. split; [reflexivity|]. split; [auto|].
           split; [reflexivity|]. split; [reflexivity|].
           split; [intros [e' He]; discriminate He | discriminate].
  - exists "PROCESSING", JNull, JNull.
    cbn [snd]. split; [reflexivity|]. split; [auto|].
    split; [reflexivity|]. split; [reflexivity|].
    split; [reflexivity | discriminate].
Qed.

End FalStatus.

Section FalModels.

Import FalProvider.

Variable self : providers.
Variables (job_id : string) (timeout poll_interval : Z).

(** The status check never raises, as that of [FalProvider] does not. *)
Hypothesis check_status_total :
  forall t model, exists d, snd (fal_check_status self t job_id model) = Ok d.

Lemma try_models_first (w : world) :
  exists d,
    snd (fal_check_status self (now w) job_id first_model) = Ok d /\
    try_models self job_id models_to_try w
    = (World (now w + fst (fal_check_status self (now w) job_id first_model))
             (calls w ++ [FalStatus job_id first_model]),
       Ok (Some d)).
Proof.
  destruct (check_status_total (now w) first_model) as [d Hd].
  exists d. split; [exact Hd|].
  unfold models_to_try, try_models, try_except, bind, check_status, await_call, ret.
  fold first_model. now rewrite Hd.
Qed.

Lemma poll_cycle_first_model (start_time : Z) (w : world) :
  asks_first_model_only job_id w ->
  asks_first_model_only job_id
    (fst (poll_cycle self start_time job_id timeout poll_interval w)).
Proof.
  intros Hw. unfold poll_cycle, bind at 1, loop_time.
  destruct (timeout <? now w - start_time)%Z; [exact Hw|].
  unfold bind at 1.
  destruct (try_models_first w) as (d & _ & ->).
  set (w1 := World _ _).
  assert (Hw1 : asks_first_model_only job_id w1).
  { intros model Hin. subst w1. cbn [calls] in Hin.
    apply in_app_or in Hin as [Hin|[[= <-]|[]]]; [now apply Hw | reflexivity]. }
  assert (Hsleep : forall (r : option pyval),
            asks_first_model_only job_id (fst ((sleep poll_interval ;;; ret r) w1))).
  { intros r model Hin. unfold bind, sleep, ret in Hin. cbn [fst calls] in Hin.
    apply in_app_or in Hin as [Hin|[Hin|[]]]; [now apply Hw1 | discriminate Hin]. }
  case_bool_decide; [apply Hsleep|].
  unfold on_status, bind, lift, getitem, raise, ret.
  destruct (d !! "status") as [s|]; [|exact Hw1].
  case_bool_decide.
  - destruct (d !! "result_url") as [u|]; [|exact Hw1].
    destruct (negb (truthy u)); exact Hw1.
  - case_bool_decide; [exact Hw1|]. apply (Hsleep None).
Qed.

(** X23: the Fal.ai polling loop has two models to try, and moves on to
    the second when the status check for the first raises.  The status
    check of [FalProvider] never raises; with such a check the loop asks
    about the first model, text-to-image, in every round and never about
    the second, whichever model the job was submitted to. *)
Theorem second_model_is_never_asked (fuel : nat) (w0 w' : world)
    (r : result pyval) :
  wait_for_completion self fuel job_id timeout poll_interval w0 = Some (w', r) ->
  asks_first_model_only job_id w0 -> asks_first_model_only job_id w'.
Proof.
  unfold wait_for_completion. generalize (now w0) as start_time. intros start_time.
  revert w0. induction fuel as [|fuel IH]; intros w0; cbn [while_true]; [discriminate|].
  intros Hrun Hw0.
  pose proof (poll_cycle_first_model start_time w0 Hw0) as Hnext.
  destruct (poll_cycle self start_time job_id timeout poll_interval w0)
    as [w1 [[v|]|e]]; cbn [fst] in Hnext.
  - injection Hrun as <- _. exact Hnext.
  - exact (IH w1 Hrun Hnext).
  - injection Hrun as <- _. exact Hnext.
Qed.

End FalModels.

Lemma fal_status_check_never_raises_witness :
  snd (FalClient.check_status fal_read_timeout no_repr "req-1" first_model [])
  = Ok FalClient.processing.
Proof.
  destruct (fal_status_check_never_raises fal_read_timeout no_repr "req-1"
              first_model [])
    as (status & result_url & error & Hrun & _ & Hurl & Herror & Hraises & _).
  rewrite Hrun.
  assert (Hs : status = "PROCESSING") by (apply Hraises; eexists; reflexivity).
  subst status. rewrite Hurl, Herror by discriminate. reflexivity.
Defined.

Lemma second_model_is_never_asked_witness :
  asks_first_model_only "job-1"
    (World 12 [FalStatus "job-1" first_model; Sleep 5;
               FalStatus "job-1" first_model; Sleep 5]).
Proof.
  apply (second_model_is_never_asked never_done "job-1" 10 5
           ltac:(intros t model; eexists; reflexivity) 5 idle _
           (Raise (fal_timed_out "job-1" 10))).
  - vm_compute. reflexivity.
  - intros model [].
Defined.
(** ** Storage keys *)

Lemma append_length (a b : string) :
  String.length (a ++ b) = String.length a + String.length b.
Proof.
  induction a as [|c a IH]; [reflexivity|].
  change (String c a ++ b) with (String c (a ++ b)). cbn [String.length].
  now rewrite IH.
Qed.

Lemma append_inv_tail (a b tail : string) : a ++ tail = b ++ tail -> a = b.
Proof.
  revert b. induction a as [|c a IH]; intros [|d b] H.
  - reflexivity.
  - apply (f_equal String.length) in H. rewrite !append_length in H.
    cbn [String.length] in H. lia.
  - apply (f_equal String.length) in H. rewrite !append_length in H.
    cbn [String.length] in H. lia.
  - change (String c (a ++ tail) = String d (b ++ tail)) in H.
    injection H as -> H. now rewrite (IH _ H).
Qed.

Lemma key_parts (a rest a' rest' : string) :
  str_in "/" a = false -> str_in "/" a' = false ->
  a ++ "/" ++ rest = a' ++ "/" ++ rest' -> a = a' /\ rest = rest'.
Proof.
  intros Ha Ha' H.
  pose proof (split_once_key "/" a rest Ha) as H1.
  pose proof (split_once_key "/" a' rest' Ha') as H2.
  change (String "/" rest) with ("/" ++ rest) in H1.
  change (String "/" rest') with ("/" ++ rest') in H2.
  rewrite H in H1. rewrite H1 in H2. now injection H2.
Qed.

(** X24: the storage key of an artifact tells its kind, its user and its
    generation apart: two artifacts share a key only if they agree in all
    three.  This rests on the user ids having no slash in them; kinds and
    generations may be anything. *)
Theorem s3_keys_do_not_collide (kind kind' : PipelineOrchestrator.asset)
    (user_id user_id' generation_id generation_id' : string) :
  str_in "/" user_id = false -> str_in "/" user_id' = false ->
  S3Storage.s3_key kind user_id generation_id
  = S3Storage.s3_key kind' user_id' generation_id' ->
  kind = kind' /\ user_id = user_id' /\ generation_id = generation_id'.
Proof.
  intros Hu Hu' Hkey. unfold S3Storage.s3_key, S3Storage._get_s3_key in Hkey.
  apply key_parts in Hkey as [Hkind Hrest];
    [| now destruct kind | now destruct kind'].
  apply key_parts in Hrest as [Huser Hfile]; [| exact Hu | exact Hu'].
  assert (Hk : kind = kind')
    by (destruct kind, kind'; first [reflexivity | discriminate Hkind]).
  subst kind'. split; [reflexivity|]. split; [exact Huser|].
  destruct kind; cbn [S3Storage.filename] in Hfile;
    exact (append_inv_tail _ _ _ Hfile).
Qed.

Lemma s3_keys_do_not_collide_witness :
  PipelineOrchestrator.PersonImage = PipelineOrchestrator.PersonImage /\
  "user-1" = "user-1" /\ "gen-1" = "gen-1".
Proof.
  apply (s3_keys_do_not_collide PipelineOrchestrator.PersonImage
           PipelineOrchestrator.PersonImage "user-1" "user-1" "gen-1" "gen-1");
    reflexivity.
Defined.
(** ** Submissions of the video stage *)

Lemma last_post (exchanges : list KieClient.exchange) (endpoint : string)
    (p p' : KieClient.payload) (o o' : result KieClient.response) :
  (exchanges ++ [KieClient.Post endpoint p o])%list
  = (exchanges ++ [KieClient.Post endpoint p' o'])%list -> o = o'.
Proof. intros H. apply app_inv_head in H. now inversion H. Qed.

(** A submission that raised although the service answered with status
    200. *)
Ltac answered_200 Hstatus :=
  let Hex := fresh "Hex" in
  intros [= <- <-]; intros ? ? Hex ?;
  apply last_post in Hex; injection Hex as <-; contradiction.

Section VideoSubmissions.

Import Json.

Variable kie : KieClient.http.
Variable repr : json -> string.
Variable fal : FalClient.client.

Lemma kie_submission_posts_once (rq : request) (exchanges : list KieClient.exchange) :
  exists payload outcome,
    fst (KieClient.submit_image_to_video_job kie repr rq exchanges)
    = (exchanges ++
       [KieClient.Post (KieClient.base_url ++ "/veo/generate") payload outcome])%list /\
    KieClient.payload_prompt payload
    = KieClient.format_prompt (prompt rq) (system_prompt rq).
Proof.
  unfold KieClient.submit_image_to_video_job. cbv zeta.
  unfold bind at 1. unfold KieClient.await_http at 1.
  destruct (KieClient.http_post kie _ _) as [response|e];
    [|do 2 eexists; split; reflexivity].
  destruct (negb (KieClient.status_code response =? 200)%Z);
    [do 2 eexists; split; reflexivity|].
  unfold bind, lift, raise, ret.
  destruct (KieClient.body response) as [result|e];
    [|do 2 eexists; split; reflexivity].
  destruct (get result "code" JNull) as [code|e];
    [|do 2 eexists; split; reflexivity].
  destruct (negb (eq_int code 200)).
  - destruct (get result "msg" (JStr "Unknown error"));
      do 2 eexists; split; reflexivity.
  - destruct (get result "data" (JDict ∅)) as [data|e];
      [|do 2 eexists; split; reflexivity].
    destruct (get data "taskId" JNull) as [task_id|e];
      [|do 2 eexists; split; reflexivity].
    destruct (negb (truth task_id)); do 2 eexists; split; reflexivity.
Qed.

(** X25: the video job goes to the two providers with different prompts.
    The Veo3 coordinator hands both an empty system prompt.  Kie.ai then
    gets the prompt as it is, while Fal.ai, whose [format_prompt] joins the
    two prompts whatever they are, gets it with two line feeds in front. *)
Theorem fallback_gets_another_prompt (image_url prompt : string)
    (kie_parameters fal_parameters : dict) (webhook_url : option string) :
  let kie_request := Request image_url prompt "" kie_parameters webhook_url in
  let fal_request := Request image_url prompt "" fal_parameters webhook_url in
  let fal_prompt := Veo3Provider.newline ++ Veo3Provider.newline ++ prompt in
  (exists endpoint payload outcome,
      fst (KieClient.submit_image_to_video_job kie repr kie_request [])
      = [KieClient.Post endpoint payload outcome] /\
      KieClient.payload_prompt payload = prompt) /\
  (exists endpoint aspect_ratio duration outcome,
      fst (FalClient.submit_image_to_video_job fal fal_request [])
      = [FalClient.Submit endpoint
           (FalClient.ImageToVideoArguments fal_prompt image_url aspect_ratio duration)
           webhook_url outcome]) /\
  fal_prompt <> prompt.
Proof.
  cbv zeta. split; [|split].
  - destruct (kie_submission_posts_once
                (Request image_url prompt "" kie_parameters webhook_url) [])
      as (payload & outcome & Hrun & Hprompt).
    do 3 eexists. split; [exact Hrun | exact Hprompt].
  - unfold FalClient.submit_image_to_video_job, bind, FalClient.await_sdk, ret.
    cbn [system_prompt parameters app].
    destruct (FalClient.submit fal _ _ _); do 4 eexists; reflexivity.
  - intros H. apply (f_equal String.length) in H.
    rewrite !append_length in H. cbn [String.length Veo3Provider.newline] in H. lia.
Qed.

(** X26: a submission to Kie.ai that returns names the job: [job_id] is
    there and is true, so that reading it cannot fail and no job goes on
    nameless.  An answer with another HTTP status than 200 raises, with the
    status and the text of the answer in the message, and the classifier
    blames the provider for it. *)
Theorem kie_submission_names_the_job (context : option string) (rq : request)
    (exchanges exchanges' : list KieClient.exchange)
    (outcome : result KieClient.status_dict) :
  KieClient.submit_image_to_video_job kie repr rq exchanges = (exchanges', outcome) ->
  match outcome with
  | Ok status_data =>
      exists task_id,
        status_data !! "job_id" = Some task_id /\ truth task_id = true /\
        (status_data !! "estimated_time" = Some (JInt 120) \/
         status_data !! "estimated_time" = Some (JInt 240))
  | Raise e =>
      forall payload response,
        exchanges' = (exchanges ++
                      [KieClient.Post (KieClient.base_url ++ "/veo/generate") payload
                         (Ok response)])%list ->
        KieClient.status_code response <> 200%Z ->
        e = Exception ("Kie.ai API error (" ++ pretty (KieClient.status_code response)
                       ++ "): " ++ KieClient.text response) /\
        blames_provider (classify_error e context)
  end.
Proof.
  unfold KieClient.submit_image_to_video_job. cbv zeta.
  unfold bind at 1. unfold KieClient.await_http at 1.
  destruct (KieClient.http_post kie _ _) as [response|e0] eqn:Hpost.
  2:{ intros [= <- <-]. intros payload response Hex.
      apply last_post in Hex. discriminate Hex. }
  destruct (negb (KieClient.status_code response =? 200)%Z) eqn:Hstatus.
  - unfold raise. intros [= <- <-]. intros payload response' Hex Hne.
    apply last_post in Hex. injection Hex as <-.
    split; [reflexivity|].
    apply service_error_blames_provider.
    exact (wrapped_is_service "Kie.ai API error (" "kie.ai" _ ltac:(cbn; tauto) eq_refl).
  - apply negb_false_iff, Z.eqb_eq in Hstatus.
    unfold bind, lift, raise, ret.
    destruct (KieClient.body response) as [result|e].
    2:{ answered_200 Hstatus. }
    destruct (get result "code" JNull) as [code|e]; [|answered_200 Hstatus].
    destruct (negb (eq_int code 200)).
    { destruct (get result "msg" (JStr "Unknown error")); answered_200 Hstatus. }
    destruct (get result "data" (JDict ∅)) as [data|e]; [|answered_200 Hstatus].
    destruct (get data "taskId" JNull) as [task_id|e]; [|answered_200 Hstatus].
    destruct (negb (truth task_id)) eqn:Htruth; [answered_200 Hstatus|].
    intros [= <- <-]. exists task_id.
    split; [reflexivity|]. split; [now apply negb_false_iff in Htruth|].
    destruct (truthy _); [left | right]; reflexivity.
Qed.

End VideoSubmissions.

Lemma kie_submission_names_the_job_witness :
  exists task_id,
    (<["estimated_time" := Json.JInt 240]>
     (<["job_id" := Json.JStr "task-1"]> ∅) : KieClient.status_dict) !! "job_id"
    = Some task_id /\ Json.truth task_id = true.
Proof.
  pose proof (kie_submission_names_the_job kie_accepts no_repr None sample_kie_request
                [] _ _ eq_refl) as H.
  cbv beta iota in H. destruct H as (task_id & Hid & Htruth & _).
  exists task_id. split; assumption.
Defined.
(** ** The webhook notifier *)

Section Notifier.

Import PipelineOrchestrator.

Variable self : collaborators.

Lemma appends_send_webhook data :
  appends (_send_webhook self data) (fun ev => is_post ev = false).
Proof.
  intros tr. exists [Notify data]. rewrite send_webhook_run.
  split; [reflexivity | now repeat constructor].
Qed.

Lemma steps_make_no_request (call : invocation) :
  appends (steps_of self call) (fun ev => is_post ev = false).
Proof.
  destruct call; cbn [steps_of];
    unfold generate_ugc_video_steps, generate_person_only_steps,
      generate_composite_only_steps, generate_video_only_steps,
      generate_person_and_composite_steps;
    repeat first
      [ progress cbv beta zeta
      | progress unfold analyze_if_configured, analyze_and_enhance,
          enhance_if_possible
      | apply appends_send_webhook
      | apply appends_ret | apply appends_raise | apply appends_lift
      | apply appends_await; reflexivity
      | apply appends_bind; [|intros ?]
      | apply appends_try; [|intros ?]
      | match goal with
        | |- appends (if ?b then _ else _) _ => destruct b
        | |- appends (match ?x with _ => _ end) _ => destruct x
        end ].
Qed.

(** X27: the webhook notifier never makes a request.  The header of the
    request is built from [settings.PYTHON_API_KEY], inside the [try] block
    of [_send_webhook]; [Settings] declares no such field, so reading it
    raises [AttributeError], which the block drops.  Every call of the
    notifier returns without having reached [client.post], whatever webhook
    URL is configured, and no run of any entry point posts anything. *)
Theorem webhook_request_is_never_made (call : invocation) :
  webhook_headers self
  = Raise (Exn AttributeError "'Settings' object has no attribute 'PYTHON_API_KEY'") /\
  (forall data tr, _send_webhook self data tr = ((tr ++ [Notify data])%list, Ok tt)) /\
  Forall (fun ev => is_post ev = false) (fst (run (invoke self call))).
Proof.
  split; [apply webhook_headers_raise|]. split; [apply send_webhook_run|].
  rewrite run_invoke. unfold run.
  destruct (steps_make_no_request call []) as (l & Hl & HN). cbn [app] in Hl.
  destruct (steps_of self call []) as [tr [d|e]]; cbn [fst] in *; subst tr.
  - exact HN.
  - apply Forall_app. split; [exact HN | now repeat constructor].
Qed.

End Notifier.
